(** * Heading/title inference pipeline: a shallow embedding and its properties

    The development follows the Python sources file by file:
    - [PyStr]: Python [str] values as lists of code points, with the string
      built-ins the pipeline calls;
    - [Re]: the fragment of Python's [re] syntax the sources use, with a
      backtracking matcher;
    - [LevelDeterminer], [HeadingFilter], [HeadingExtractor],
      [AccuracyEnhancer], [PdfExtractor]: one module per source file.

    Floating-point numbers are embedded as rationals ([Q]); the accuracy
    metrics, which are rounded to three places, are computed in the
    arithmetic of doubles ([Py.fl]). *)

From Stdlib Require Import String Ascii.
From Stdlib Require Import NArith ZArith QArith Qabs Qminmax Qround Qpower Lia Lqa List Bool Permutation Sorted.
From stdpp Require Import base gmap sets list.
Import ListNotations.
Close Scope Q_scope.
Close Scope string_scope.


(* ===================================================================== *)
(** * Python strings *)
(* ===================================================================== *)

Module PyStr.

(** A Python [str] is a sequence of Unicode code points. *)
Definition char := N.
Definition str := list char.

(** A literal of the source, written with its ASCII bytes. *)
Definition lit (x : String.string) : str :=
  List.map N_of_ascii (list_ascii_of_string x).

(** The Unicode character database the interpreter ships is not part of the
    repository.  Its tables are consulted only for code points above 127;
    for ASCII every built-in below is written out. *)
Record UnicodeDB := {
  uni_isspace : char -> bool;      (* Py_UNICODE_ISSPACE *)
  uni_isdecimal : char -> bool;    (* Py_UNICODE_ISDECIMAL, category Nd *)
  uni_isalnum : char -> bool;      (* Py_UNICODE_ISALNUM *)
  uni_isupper : char -> bool;      (* Py_UNICODE_ISUPPER *)
  uni_islower : char -> bool;      (* Py_UNICODE_ISLOWER *)
  uni_istitle : char -> bool;      (* Py_UNICODE_ISTITLE *)
  uni_tolower : char -> char;      (* simple lower-case mapping, used by re.IGNORECASE *)
  uni_lower : str -> str;          (* str.lower() on a string with non-ASCII characters *)
  uni_nfc : str -> str             (* unicodedata.normalize('NFC', _) on such a string *)
}.

Definition in_range (lo hi c : char) : bool := ((lo <=? c) && (c <=? hi))%N.
Definition is_ascii (c : char) : bool := (c <? 128)%N.
Arguments in_range (lo hi c)%_N.

Section Builtins.
Context (U : UnicodeDB).

(** ASCII white space is TAB, LF, VT, FF, CR, FS, GS, RS, US and SPACE. *)
Definition isspace (c : char) : bool :=
  if is_ascii c then in_range 9 13 c || in_range 28 32 c else uni_isspace U c.

Definition isdecimal (c : char) : bool :=
  if is_ascii c then in_range 48 57 c else uni_isdecimal U c.

Definition isupper_c (c : char) : bool :=
  if is_ascii c then in_range 65 90 c else uni_isupper U c.

Definition islower_c (c : char) : bool :=
  if is_ascii c then in_range 97 122 c else uni_islower U c.

Definition istitle_c (c : char) : bool :=
  if is_ascii c then false else uni_istitle U c.

Definition isalnum_c (c : char) : bool :=
  if is_ascii c then in_range 48 57 c || in_range 65 90 c || in_range 97 122 c
  else uni_isalnum U c.

(** [\w] of the [re] module: alphanumeric or underscore. *)
Definition isword (c : char) : bool := isalnum_c c || (c =? 95)%N.

Definition ascii_lower (c : char) : char :=
  if in_range 65 90 c then (c + 32)%N else c.

Definition tolower (c : char) : char :=
  if is_ascii c then ascii_lower c else uni_tolower U c.

(** [s.lower()] *)
Definition lower (s : str) : str :=
  if forallb is_ascii s then List.map ascii_lower s else uni_lower U s.

(** [unicodedata.normalize('NFC', s)]: an ASCII string is its own normal
    form. *)
Definition nfc (s : str) : str :=
  if forallb is_ascii s then s else uni_nfc U s.

(** [s.isupper()]: no lower- or title-case character and at least one
    upper-case character. *)
Definition isupper (s : str) : bool :=
  forallb (fun c => negb (islower_c c || istitle_c c)) s && existsb isupper_c s.

(** [s.istitle()]: upper- and title-case characters only after uncased ones,
    lower-case characters only after cased ones, and at least one cased
    character.  [prev_cased] and [cased] are the two flags of the loop. *)
Fixpoint istitle_loop (prev_cased cased : bool) (s : str) : bool :=
  match s with
  | [] => cased
  | c :: s' =>
      if isupper_c c || istitle_c c then
        if prev_cased then false else istitle_loop true true s'
      else if islower_c c then
        if prev_cased then istitle_loop true true s' else false
      else istitle_loop false cased s'
  end.

Definition istitle (s : str) : bool := istitle_loop false false s.

(** [s.strip()] *)
Fixpoint lstrip (s : str) : str :=
  match s with
  | c :: s' => if isspace c then lstrip s' else s
  | [] => []
  end.

Definition rstrip (s : str) : str := rev (lstrip (rev s)).
Definition strip (s : str) : str := rstrip (lstrip s).

(** [s.split()]: the maximal runs of characters that are not white space.
    [cur] is the word being read, in reverse. *)
Fixpoint split_loop (cur : str) (s : str) : list str :=
  match s with
  | [] => match cur with [] => [] | _ => [rev cur] end
  | c :: s' =>
      if isspace c then
        match cur with
        | [] => split_loop [] s'
        | _ => rev cur :: split_loop [] s'
        end
      else split_loop (c :: cur) s'
  end.

Definition split (s : str) : list str := split_loop [] s.

End Builtins.

(** [sep.join(parts)] *)
Fixpoint join (sep : str) (parts : list str) : str :=
  match parts with
  | [] => []
  | [p] => p
  | p :: ps => p ++ sep ++ join sep ps
  end.

Definition str_eqb (a b : str) : bool := bool_decide (a = b).

(** [s.startswith(p)] *)
Fixpoint startswith (s p : str) : bool :=
  match p, s with
  | [], _ => true
  | c :: p', d :: s' => (c =? d)%N && startswith s' p'
  | _ :: _, [] => false
  end.

(** [s.endswith(p)] *)
Definition endswith (s p : str) : bool := startswith (rev s) (rev p).

(** [p in s] for strings: [p] occurs in [s] as a substring. *)
Fixpoint contains (s p : str) : bool :=
  startswith s p ||
  match s with
  | [] => false
  | _ :: s' => contains s' p
  end.

(** [s.count(p)] for a non-empty [p]: occurrences counted left to right
    without overlap.  [skip] characters of a match just counted are still
    to be passed over. *)
Fixpoint count_loop (p : str) (skip : nat) (s : str) : nat :=
  match s with
  | [] => 0
  | _ :: s' =>
      match skip with
      | S k => count_loop p k s'
      | O => if startswith s p then S (count_loop p (length p - 1) s')
             else count_loop p 0 s'
      end
  end.

Definition count (s p : str) : nat := count_loop p 0 s.

(** [c in s] for a single character. *)
Definition has_char (s : str) (c : char) : bool := existsb (N.eqb c) s.
Arguments has_char s c%_N.

(** A table with no entry above ASCII; [uni_lower] and [uni_nfc] leave the
    string as it is.  It agrees with the interpreter's database on every
    ASCII string and is used to evaluate the model on ASCII inputs. *)
Definition ascii_db : UnicodeDB :=
  {| uni_isspace := fun _ => false;
     uni_isdecimal := fun _ => false;
     uni_isalnum := fun _ => false;
     uni_isupper := fun _ => false;
     uni_islower := fun _ => false;
     uni_istitle := fun _ => false;
     uni_tolower := fun c => c;
     uni_lower := fun s => s;
     uni_nfc := fun s => s |}.

End PyStr.

(* ===================================================================== *)
(** * Regular expressions *)
(* ===================================================================== *)

Module Re.
Import PyStr.

(** The syntax the patterns of the sources need.  A character class is
    kept as its membership test; anchors are [Bol] for [^], [Eol] for [$]
    and [WordB] for [\b] (it carries the [\w] class). *)
Inductive re : Type :=
| Eps
| Chr (p : char -> bool)
| Seq (a b : re)
| Alt (a b : re)
| Star (a : re)
| Bol
| Eol
| WordB (w : char -> bool).

Definition Plus (a : re) : re := Seq a (Star a).
Definition Opt (a : re) : re := Alt a Eps.
Definition Ch (c : char) : re := Chr (N.eqb c).
Arguments Ch c%_N.

Fixpoint seq (rs : list re) : re :=
  match rs with
  | [] => Eps
  | [r] => r
  | r :: rs' => Seq r (seq rs')
  end.

Fixpoint alt (rs : list re) : re :=
  match rs with
  | [] => Chr (fun _ => false)
  | [r] => r
  | r :: rs' => Alt r (alt rs')
  end.

(** A literal string, and the same under [re.IGNORECASE] for a literal
    written in lower case. *)
Definition Lit (s : str) : re := seq (List.map Ch s).
Definition LitI (U : UnicodeDB) (s : str) : re :=
  seq (List.map (fun c => Chr (fun d => (tolower U d =? c)%N)) s).

Fixpoint repeat_re (n : nat) (a : re) : re :=
  match n with
  | O => Eps
  | S n' => Seq a (repeat_re n' a)
  end.

Definition is_word_opt (w : char -> bool) (c : option char) : bool :=
  match c with Some c => w c | None => false end.

(** [$] holds at the end of the text and before a line feed that ends
    it. *)
Definition at_end (s : str) : bool :=
  match s with
  | [] => true
  | [c] => (c =? 10)%N
  | _ => false
  end.

(** The matcher, in continuation-passing style.  A position is the
    character before it ([None] at the start of the string) and the text
    after it.  [go r k prev s] holds when [r] matches some prefix of [s]
    and [k] accepts the position after it.  An iteration of a star that
    consumes nothing is not repeated. *)
Fixpoint go (r : re) (k : option char -> str -> bool)
    (prev : option char) (s : str) {struct r} : bool :=
  match r with
  | Eps => k prev s
  | Chr p =>
      match s with
      | c :: s' => p c && k (Some c) s'
      | [] => false
      end
  | Seq a b => go a (go b k) prev s
  | Alt a b => go a k prev s || go b k prev s
  | Star a =>
      (fix loop (n : nat) (prev : option char) (s : str) {struct n} : bool :=
         match n with
         | O => k prev s
         | S n' =>
             go a (fun p' s' => (length s' <? length s) && loop n' p' s') prev s
             || k prev s
         end) (length s) prev s
  | Bol => match prev with None => k prev s | Some _ => false end
  | Eol => at_end s && k prev s
  | WordB w => xorb (is_word_opt w prev) (is_word_opt w (head s)) && k prev s
  end.

Definition accept : option char -> str -> bool := fun _ _ => true.

(** [re.match(r, s)]: a match that starts at the beginning of [s]. *)
Definition match_ (r : re) (s : str) : bool := go r accept None s.

(** [re.search(r, s)]: a match that starts anywhere in [s]. *)
Fixpoint search_from (r : re) (prev : option char) (s : str) : bool :=
  go r accept prev s ||
  match s with
  | [] => false
  | c :: s' => search_from r (Some c) s'
  end.

Definition search (r : re) (s : str) : bool := search_from r None s.

End Re.

(* ===================================================================== *)
(** * Numbers and lists of the interpreter *)
(* ===================================================================== *)

Module Py.

(** Comparisons of floats, as booleans. *)
Definition Qleb (a b : Q) : bool := Qle_bool a b.
Definition Qltb (a b : Q) : bool := negb (Qle_bool b a).
Definition Qeqb (a b : Q) : bool := Qeq_bool a b.

Definition Qsum (l : list Q) : Q := fold_right Qplus 0%Q l.
Definition Qlen {A} (l : list A) : Q := inject_Z (Z.of_nat (length l)).

(** [max(l)] of a list known to be non-empty (first element [x]). *)
Definition Qmax_list (x : Q) (l : list Q) : Q := fold_left Qmax l x.

(** [list.sort] and [sorted] are stable: elements the order does not
    separate keep their relative position.  [le x y] says that [x] may
    stand before [y]. *)
Section Sort.
Context {A : Type} (le : A -> A -> bool).

Fixpoint insert_sorted (x : A) (l : list A) : list A :=
  match l with
  | [] => [x]
  | y :: l' => if le x y then x :: l else y :: insert_sorted x l'
  end.

Definition stable_sort (l : list A) : list A := fold_right insert_sorted [] l.

End Sort.

(** [set(l)] for a list of floats, kept as the list of its distinct
    values. *)
Fixpoint Qdistinct (l : list Q) : list Q :=
  match l with
  | [] => []
  | x :: l' => x :: List.filter (fun y => negb (Qeqb x y)) (Qdistinct l')
  end.

(** The integer nearest to [x], ties to even. *)
Definition round_half_even (x : Q) : Z :=
  let f := Qfloor x in
  let r := (x - inject_Z f)%Q in
  if Qltb r (1 # 2) then f
  else if Qltb (1 # 2) r then (f + 1)%Z
  else if Z.even f then f else (f + 1)%Z.

(** ** Doubles

    Where the last bit of a float decides a result, floats are the
    rationals that are doubles and every operation rounds.  The exponent
    range of the format is not modelled: no value computed below
    overflows or is subnormal for lists of fewer than [2^1000]
    elements. *)

(** [floor(log2(|x|))], for [x] other than 0. *)
Definition ilog2 (x : Q) : Z :=
  let k := (Z.log2 (Z.abs (Qnum x)) - Z.log2 (Zpos (Qden x)))%Z in
  if Qltb (Qabs x) (2 ^ k) then (k - 1)%Z else k.

(** The double nearest to [x]: the magnitude rounded to 53 significant
    bits, ties to even, with the sign of [x]. *)
Definition fl (x : Q) : Q :=
  if Qeqb x 0 then 0%Q
  else
    let e := (ilog2 x - 52)%Z in
    let m := round_half_even (Qabs x / 2 ^ e) in
    let y := (inject_Z m * 2 ^ e)%Q in
    if Qltb x 0 then (- y)%Q else y.

(** The arithmetic of floats, each operation correctly rounded. *)
Definition fadd (a b : Q) : Q := fl (a + b).
Definition fsub (a b : Q) : Q := fl (a - b).
Definition fmul (a b : Q) : Q := fl (a * b).
Definition fdiv (a b : Q) : Q := fl (a / b).

(** [float(n)] for an integer, and [a / b] for two integers, which is
    the double nearest to the quotient. *)
Definition float_of_int (n : Z) : Q := fl (inject_Z n).
Definition int_truediv (a b : Z) : Q := fl (inject_Z a / inject_Z b).

(** [round(x, 3)] for a double [x]: the decimal of three places nearest
    to the exact value of [x], ties to even, and the double nearest to
    that decimal. *)
Definition round3 (x : Q) : Q := fl (round_half_even (x * 1000) # 1000)%Q.

End Py.

(* ===================================================================== *)
(** * Exceptions *)
(* ===================================================================== *)

(** The exceptions the modelled code can raise, all subclasses of
    [Exception]; [External] is an error raised inside a library the
    repository calls. *)
Inductive exn :=
| KeyError (key : PyStr.str)
| IndexError
| ZeroDivisionError
| External (what : PyStr.str).

Inductive result (A : Type) :=
| Ok (a : A)
| Raise (e : exn).
Arguments Ok {A} a.
Arguments Raise {A} e.

#[global] Instance result_ret : MRet result := fun A a => Ok a.
#[global] Instance result_bind : MBind result := fun A B k m =>
  match m with
  | Ok a => k a
  | Raise e => Raise e
  end.

(** [try: body / except Exception: handler] *)
Definition try_except {A} (body : result A) (handler : exn -> result A) : result A :=
  match body with
  | Ok a => Ok a
  | Raise e => handler e
  end.

(** A loop over a list whose body may raise. *)
Fixpoint foldM {S A} (f : S -> A -> result S) (s : S) (l : list A) : result S :=
  match l with
  | [] => Ok s
  | x :: l' => s' ← f s x; foldM f s' l'
  end.

(* ===================================================================== *)
(** * The dictionaries passed between the stages *)
(* ===================================================================== *)

(** Heading levels; the empty string a level function returns when it has
    no opinion is [None]. *)
Inductive level := TITLE | H1 | H2 | H3.

Inductive language := japanese | chinese | korean | arabic | european | english.

Definition bbox_t : Type := Q * Q * Q * Q.

(** A reconstructed text block, the candidate of the heading extractor:
    keys [text], [size], [bold], [page], [length], [bbox]. *)
Module Frag.
Record t := mk {
  text : PyStr.str;
  size : Q;
  bold : bool;
  page : Z;
  length : nat;
  bbox : option bbox_t
}.
End Frag.

(** An outline entry: the keys [level], [text], [page] written by
    [build_hierarchy], and the keys later stages read with [get] or add. *)
Module Heading.
Record t := mk {
  level : level;
  text : PyStr.str;
  page : Z;
  size : option Q;
  bold : option bool;
  language : option language;
  quality_boost : option Q
}.
End Heading.

(* ===================================================================== *)
(** * config/extractor_config.py *)
(* ===================================================================== *)

Module Config.
Import PyStr Re.

(** The keys of the configuration dictionary the modelled code reads.  A
    pattern of [noise_patterns] is kept as compiled under
    [re.IGNORECASE].  The key [max_technical_heading] is read by the
    heading filter and is not among the defaults. *)
Record t := {
  (* extraction.clustering *)
  min_clusters : Z;
  max_clusters : Z;
  cluster_ratio : Z;
  random_state : Z;
  n_init : Z;
  (* extraction.font_thresholds *)
  min_heading_size : Q;
  large_font_threshold : Q;
  title_font_threshold : Q;
  max_caps_length : nat;
  (* extraction.distance_thresholds *)
  font_size_tolerance : Q;
  grouping_distance : Q;
  large_font_tolerance : Q;
  large_font_distance : Q;
  (* extraction.text_limits *)
  min_text_length : nat;
  min_word_avg_length : Q;
  max_form_heading : nat;
  max_academic_heading : nat;
  max_technical_heading : option nat;
  max_simple_heading : nat;
  (* document_types *)
  form_avoid_fields : list str;
  academic_max_dots : nat;
  technical_max_parentheses : nat;
  simple_max_underscores : nat;
  simple_avoid_patterns : list str;
  (* filtering *)
  noise_patterns : list re;
  min_unique_chars : nat;
  max_space_ratio : Q
}.

Section WithUnicode.
Context (U : UnicodeDB).

Definition d : re := Chr (isdecimal U).
Definition sp : re := Chr (isspace U).

Definition default_noise_patterns : list re :=
  [ (* ^[\s\-_\.]+$ *)
    seq [Bol;
         Plus (Chr (fun c => isspace U c || (c =? 45)%N || (c =? 95)%N || (c =? 46)%N));
         Eol];
    (* ^\d+$ *)
    seq [Bol; Plus d; Eol];
    (* ^[^\w\s]*$ *)
    seq [Bol; Star (Chr (fun c => negb (isword U c || isspace U c))); Eol];
    (* ^(page|p\.)\s*\d+ *)
    seq [Bol; Alt (LitI U (lit "page")) (Seq (LitI U (lit "p")) (Ch 46));
         Star sp; Plus d];
    (* ^\s*\d+\s*/\s*\d+\s*$ *)
    seq [Bol; Star sp; Plus d; Star sp; Ch 47; Star sp; Plus d; Star sp; Eol] ].

Definition get_default_config : t :=
  {| min_clusters := 2;
     max_clusters := 5;
     cluster_ratio := 3;
     random_state := 42;
     n_init := 10;
     min_heading_size := 11.0;
     large_font_threshold := 14.0;
     title_font_threshold := 20;
     max_caps_length := 30;
     font_size_tolerance := 2.0;
     grouping_distance := 30;
     large_font_tolerance := 3.0;
     large_font_distance := 40;
     min_text_length := 3;
     min_word_avg_length := 2;
     max_form_heading := 50;
     max_academic_heading := 150;
     max_technical_heading := None;
     max_simple_heading := 100;
     form_avoid_fields := List.map lit ["name:"; "date:"; "signature:"; "employee"]%string;
     academic_max_dots := 3;
     technical_max_parentheses := 3;
     simple_max_underscores := 2;
     simple_avoid_patterns :=
       [lit "copyright"; [0xa9%N]; lit "all rights reserved"];
     noise_patterns := default_noise_patterns;
     min_unique_chars := 3;
     max_space_ratio := 0.7 |}.

End WithUnicode.
End Config.

(** The [structure] flags of a document profile the filter reads. *)
Record doc_profile := {
  is_form : bool;
  is_academic : bool;
  is_technical : bool
}.

(* ===================================================================== *)
(** * extractors/hierarchy/level_determiner.py *)
(* ===================================================================== *)

Module LevelDeterminer.
Import PyStr Re.

Section WithUnicode.
Context (U : UnicodeDB).

Definition d : re := Chr (isdecimal U).        (* \d *)
Definition sp : re := Chr (isspace U).         (* \s *)
Definition AZ : re := Chr (in_range 65 90).    (* [A-Z] *)
Definition IVX : re :=                         (* [IVX] *)
  Chr (fun c => (c =? 73)%N || (c =? 86)%N || (c =? 88)%N).
Definition dot : re := Ch 46.                  (* \. *)

(** [^\d+\.\s+[A-Z]] *)
Definition re_numbered : re := seq [Bol; Plus d; dot; Plus sp; AZ].
(** [^\d+\.\d+\s+[A-Z]] *)
Definition re_numbered2 : re := seq [Bol; Plus d; dot; Plus d; Plus sp; AZ].
(** [^\d+\.\d+\.\d+\s+[A-Z]] *)
Definition re_numbered3 : re :=
  seq [Bol; Plus d; dot; Plus d; dot; Plus d; Plus sp; AZ].
(** [^[A-Z]\.\s+[A-Z]] *)
Definition re_lettered : re := seq [Bol; AZ; dot; Plus sp; AZ].
(** [^[IVX]+\.\s+[A-Z]] *)
Definition re_roman : re := seq [Bol; Plus IVX; dot; Plus sp; AZ].

Definition _get_structural_level (text : str) : option level :=
  if match_ re_numbered text then Some H1
  else if match_ re_numbered2 text then Some H2
  else if match_ re_numbered3 text then Some H3
  else if match_ re_lettered text then Some H2
  else if match_ re_roman text then Some H1
  else None.



(** Substring tests against a list of keywords: [any(k in s for k in ks)]. *)
Definition any_in (s : str) (ks : list str) : bool :=
  existsb (contains s) ks.

Definition main_section_keywords : list str :=
  List.map lit ["introduction"; "overview"; "background"; "conclusion"; "summary";
           "methodology"; "results"; "discussion"; "references"; "appendix"]%string.

Definition toc_keywords : list str :=
  List.map lit ["table of contents"; "contents"; "revision history"; "references"]%string.

Definition _get_content_based_level (text : str) : option level :=
  let text_lower := lower U text in
  if any_in text_lower main_section_keywords then Some H1
  else if any_in text_lower toc_keywords then Some H2
  else None.

Definition _get_position_based_level (candidate : Frag.t) : option level :=
  if (Frag.page candidate <=? 2)%Z && (length (Frag.text candidate) <? 50)
  then Some H1 else None.

(** [sorted(set(font_sizes), reverse=True)] *)
Definition unique_sizes (all_candidates : list Frag.t) : list Q :=
  Py.stable_sort (fun a b => Py.Qleb b a)
    (Py.Qdistinct (List.map Frag.size all_candidates)).

Definition Qin (x : Q) (l : list Q) : bool := existsb (Py.Qeqb x) l.

Definition score_of (candidate : Frag.t) (all_candidates : list Frag.t) : Z :=
  let text := Frag.text candidate in
  let size := Frag.size candidate in
  let us := unique_sizes all_candidates in
  ((if Qin size (firstn 1 us) then 3
    else if Qin size (firstn 1 (skipn 1 us)) then 2
    else if Qin size (firstn 1 (skipn 2 us)) then 1
    else 0)
   + (if Frag.bold candidate then 2 else 0)
   + (if (length text <? 20)%nat then 2
      else if (length text <? 40)%nat then 1 else 0)
   + (if Frag.page candidate <=? 3 then 1 else 0)
   + (if istitle U text || ((length (split U text) <=? 3)%nat && isupper U text)
      then 1 else 0))%Z.

Definition _get_score_based_level (candidate : Frag.t)
    (all_candidates : list Frag.t) : level :=
  let score := score_of candidate all_candidates in
  if (6 <=? score)%Z then H1
  else if (4 <=? score)%Z then H2
  else H3.

Definition _determine_heading_level (candidate : Frag.t)
    (all_candidates : list Frag.t) : level :=
  match _get_structural_level (Frag.text candidate) with
  | Some l => l
  | None =>
      match _get_content_based_level (Frag.text candidate) with
      | Some l => l
      | None =>
          match _get_position_based_level candidate with
          | Some l => l
          | None => _get_score_based_level candidate all_candidates
          end
      end
  end.

(** The sort key [(x['page'], x['bbox'][1] if x['bbox'] else 0)]. *)
Definition y_of (c : Frag.t) : Q :=
  match Frag.bbox c with
  | Some (_, y0, _, _) => y0
  | None => 0%Q
  end.

(** Tuples compare lexicographically. *)
Definition position_le (a b : Frag.t) : bool :=
  (Frag.page a <? Frag.page b)%Z
  || ((Frag.page a =? Frag.page b)%Z && Py.Qleb (y_of a) (y_of b)).

Definition entry_of (all_candidates : list Frag.t) (candidate : Frag.t) : Heading.t :=
  {| Heading.level := _determine_heading_level candidate all_candidates;
     Heading.text := Frag.text candidate;
     Heading.page := (Frag.page candidate - 1)%Z;
     Heading.size := None;
     Heading.bold := None;
     Heading.language := None;
     Heading.quality_boost := None |}.

Definition build_hierarchy (candidates : list Frag.t) : list Heading.t :=
  match candidates with
  | [] => []
  | _ =>
      let candidates := Py.stable_sort position_le candidates in
      List.map (entry_of candidates) candidates
  end.

End WithUnicode.
End LevelDeterminer.

(* ===================================================================== *)
(** * accuracy/accuracy_enhancer.py *)
(* ===================================================================== *)

Module AccuracyEnhancer.
Import PyStr Re.

(** The metrics dictionary of [_calculate_accuracy_metrics]. *)
Record metrics := {
  precision_score : Q;
  recall_score : Q;
  f1_score : Q;
  total_candidates : nat;
  selected_count : nat
}.

(** [self.heading_quality_weights], in insertion order. *)
Definition heading_quality_weights : list (str * Q) :=
  [(lit "structural_pattern", 0.35%Q);
   (lit "content_semantic", 0.25%Q);
   (lit "typography", 0.20%Q);
   (lit "position", 0.15%Q);
   (lit "multilingual", 0.05%Q)].

(** [d.get(key, 0)] on a dictionary with string keys. *)
Fixpoint dict_get (d : list (str * Q)) (key : str) : Q :=
  match d with
  | [] => 0%Q
  | (k, v) :: d' => if str_eqb k key then v else dict_get d' key
  end.

(** [component.split('_')[0]] *)
Fixpoint before_underscore (s : str) : str :=
  match s with
  | [] => []
  | c :: s' => if (c =? 95)%N then [] else c :: before_underscore s'
  end.

Section WithUnicode.
Context (U : UnicodeDB).

Definition d : re := Chr (isdecimal U).
Definition sp : re := Chr (isspace U).

(** ** Language tables *)

(** [self.multilingual_patterns]: the section keywords and the numbering
    patterns of a language (the structure indicators are never read). *)
Definition section_keywords (l : language) : list str :=
  match l with
  | japanese =>
      [[0x7ae0]; [0x7bc0]; [0x9805]; [0x6982; 0x8981]; [0x80cc; 0x666f];
       [0x7d50; 0x8ad6]; [0x53c2; 0x8003; 0x6587; 0x732e]; [0x4ed8; 0x9332]]%N
  | chinese =>
      [[0x7ae0]; [0x8282]; [0x6982; 0x8ff0]; [0x80cc; 0x666f]; [0x7ed3; 0x8bba];
       [0x53c2; 0x8003; 0x6587; 0x732e]; [0x9644; 0x5f55]]%N
  | korean =>
      [[0xc7a5]; [0xc808]; [0xac1c; 0xc694]; [0xbc30; 0xacbd]; [0xacb0; 0xb860];
       [0xcc38; 0xace0; 0xbb38; 0xd5cc]; [0xbd80; 0xb85d]]%N
  | arabic =>
      [[0x641; 0x635; 0x644]; [0x628; 0x627; 0x628];
       [0x62e; 0x644; 0x627; 0x635; 0x629]; [0x645; 0x642; 0x62f; 0x645; 0x629];
       [0x62e; 0x627; 0x62a; 0x645; 0x629]; [0x645; 0x631; 0x627; 0x62c; 0x639]]%N
  | european =>
      [lit "introducci" ++ [0xf3%N] ++ lit "n";
       lit "conclusi" ++ [0xf3%N] ++ lit "n";
       lit "r" ++ [0xe9%N] ++ lit "sum" ++ [0xe9%N];
       lit "einf" ++ [0xfc%N] ++ lit "hrung";
       lit "zusammenfassung"]
  | english => []
  end.

(** [\d+\.\d+] *)
Definition re_decimal : re := seq [Plus d; Ch 46; Plus d].

Definition numbering_patterns (l : language) : list re :=
  match l with
  | japanese =>
      [seq [Ch 0x7b2c; Plus d; Ch 0x7ae0];
       seq [Ch 0x7b2c; Plus d; Ch 0x7bc0];
       re_decimal;
       seq [Plus (Chr (fun c => existsb (N.eqb c)
                    [0x4e00; 0x4e8c; 0x4e09; 0x56db; 0x4e94;
                     0x516d; 0x4e03; 0x516b; 0x4e5d; 0x5341]%N));
            Ch 0x7ae0]]
  | chinese =>
      [seq [Ch 0x7b2c; Plus d; Ch 0x7ae0];
       seq [Ch 0x7b2c; Plus d; Ch 0x8282];
       re_decimal]
  | korean =>
      [seq [Ch 0xc81c; Plus d; Ch 0xc7a5];
       seq [Ch 0xc81c; Plus d; Ch 0xc808];
       re_decimal]
  | arabic =>
      [re_decimal;
       seq [Lit [0x627; 0x644; 0x641; 0x635; 0x644]%N; Plus sp; Plus d]]
  | european =>
      [re_decimal;
       seq [Lit (lit "cap" ++ [0xed%N] ++ lit "tulo"); Plus sp; Plus d];
       seq [Lit (lit "chapitre"); Plus sp; Plus d];
       seq [Lit (lit "kapitel"); Plus sp; Plus d]]
  | english => []
  end.

(** [language in self.multilingual_patterns] *)
Definition in_multilingual_patterns (l : language) : bool :=
  match l with english => false | _ => true end.

(** ** Precision filters *)

(** [^[\d\s\-_\.]+$] *)
Definition re_numeric_or_symbolic : re :=
  seq [Bol;
       Plus (Chr (fun c => isdecimal U c || isspace U c
                           || (c =? 45)%N || (c =? 95)%N || (c =? 46)%N));
       Eol].

Definition _meets_minimum_quality (text : str) : bool :=
  if (length text <? 3) || (200 <? length text) then false
  else if size (list_to_set (lower U text) : gset char) <? 3 then false
  else if length (split U text) =? 0 then false
  else if match_ re_numeric_or_symbolic text then false
  else true.

(** [candidate.get('size', 12.0)] and [candidate.get('bold', False)] *)
Definition get_size (c : Heading.t) : Q := default 12%Q (Heading.size c).
Definition get_bold (c : Heading.t) : bool := default false (Heading.bold c).

Definition _validates_hierarchy_consistency (candidate : Heading.t)
    (all_candidates : list Heading.t) : bool := true.

Definition _validates_in_context (candidate : Heading.t)
    (all_candidates : list Heading.t) : bool :=
  let same_page_headings :=
    List.filter (fun c => (Heading.page c =? Heading.page candidate)%Z) all_candidates in
  if (10 <? length same_page_headings) &&
     (let sizes := List.map get_size same_page_headings in
      let avg_size := (Py.Qsum sizes / Py.Qlen sizes)%Q in
      Py.Qltb (get_size candidate) (avg_size * 0.8)%Q)
  then false
  else _validates_hierarchy_consistency candidate all_candidates.

Definition _has_consistent_typography (candidate : Heading.t)
    (all_candidates : list Heading.t) : bool :=
  let size := get_size candidate in
  let bold := get_bold candidate in
  let similar_headings :=
    List.filter (fun c => Py.Qltb (Qabs (get_size c - size)) 1) all_candidates in
  if length similar_headings <? 2 then true
  else
    let bold_ratio :=
      (Py.Qlen (List.filter get_bold similar_headings) / Py.Qlen similar_headings)%Q in
    if bold && Py.Qltb bold_ratio 0.3 then false
    else if negb bold && Py.Qltb 0.7 bold_ratio then false
    else true.

Definition non_heading_patterns : list re :=
  [seq [Lit (lit "page"); Plus sp; Plus d];
   seq [Lit (lit "figure"); Plus sp; Plus d];
   seq [Lit (lit "table"); Plus sp; Plus d];
   seq [Lit (lit "see"); Plus sp; Lit (lit "page")];
   seq [Lit (lit "continued"); Plus sp; Lit (lit "on")];
   seq [Lit (lit "end"); Plus sp; Lit (lit "of")];
   seq [Lit (lit "total"); Star sp; Ch 58];
   seq [Lit (lit "sum"); Star sp; Ch 58];
   seq [Lit (lit "amount"); Star sp; Ch 58]].

Definition _validates_semantically (text : str) : bool :=
  let text_lower := lower U text in
  negb (existsb (fun pattern => search pattern text_lower) non_heading_patterns).

Definition _apply_precision_filters (candidates : list Heading.t) : list Heading.t :=
  List.filter
    (fun candidate =>
       let text := strip U (Heading.text candidate) in
       _meets_minimum_quality text
       && _validates_in_context candidate candidates
       && _has_consistent_typography candidate candidates
       && _validates_semantically text)
    candidates.

(** ** Recall enhancement *)

Definition _find_relaxed_typography_headings : list Heading.t := [].
Definition _recover_structural_patterns : list Heading.t := [].
Definition _reconstruct_cross_page_headings : list Heading.t := [].

Fixpoint dedup_loop (seen : gset str) (candidates : list Heading.t) : list Heading.t :=
  match candidates with
  | [] => []
  | candidate :: rest =>
      let text_key := lower U (strip U (Heading.text candidate)) in
      if bool_decide (text_key ∈ seen) then dedup_loop seen rest
      else candidate :: dedup_loop ({[text_key]} ∪ seen) rest
  end.

Definition _deduplicate_candidates (candidates : list Heading.t) : list Heading.t :=
  dedup_loop ∅ candidates.

Definition _apply_recall_enhancement (candidates : list Heading.t) : list Heading.t :=
  _deduplicate_candidates
    (candidates ++ _find_relaxed_typography_headings
                ++ _recover_structural_patterns
                ++ _reconstruct_cross_page_headings).

(** ** Multilingual enhancement *)

Definition re_japanese : re :=
  Chr (fun c => in_range 0x3040 0x309F c || in_range 0x30A0 0x30FF c
                || in_range 0x4E00 0x9FAF c).
Definition re_chinese : re := Chr (in_range 0x4E00 0x9FFF).
Definition re_korean : re := Chr (in_range 0xAC00 0xD7AF).
Definition re_arabic : re := Chr (in_range 0x0600 0x06FF).
Definition re_european : re :=
  Chr (fun c => existsb (N.eqb c)
     [0xe0; 0xe1; 0xe2; 0xe3; 0xe4; 0xe5; 0xe6; 0xe7; 0xe8; 0xe9; 0xea; 0xeb;
      0xec; 0xed; 0xee; 0xef; 0xf1; 0xf2; 0xf3; 0xf4; 0xf5; 0xf6; 0xf8; 0xf9;
      0xfa; 0xfb; 0xfc; 0xfd; 0xff]%N).

Definition _detect_text_language (text : str) : language :=
  if search re_japanese text then japanese
  else if search re_chinese text then chinese
  else if search re_korean text then korean
  else if search re_arabic text then arabic
  else if search re_european (lower U text) then european
  else english.

Definition boost_of (has_section_keyword has_numbering : bool) : Q :=
  ((0 + (if has_section_keyword then 0.2 else 0))
     + (if has_numbering then 0.3 else 0))%Q.

Definition _enhance_with_language_patterns (candidate : Heading.t)
    (language : language) : Heading.t :=
  let text := Heading.text candidate in
  let has_section_keyword := existsb (contains text) (section_keywords language) in
  let has_numbering :=
    existsb (fun pattern => search pattern text) (numbering_patterns language) in
  let quality_boost := boost_of has_section_keyword has_numbering in
  {| Heading.level := Heading.level candidate;
     Heading.text := Heading.text candidate;
     Heading.page := Heading.page candidate;
     Heading.size := Heading.size candidate;
     Heading.bold := Heading.bold candidate;
     Heading.language := Some language;
     Heading.quality_boost := Some quality_boost |}.

Definition _normalize_unicode_text (text : str) : str :=
  join (lit " ") (split U (nfc U text)).

Definition set_text (candidate : Heading.t) (text : str) : Heading.t :=
  {| Heading.level := Heading.level candidate;
     Heading.text := text;
     Heading.page := Heading.page candidate;
     Heading.size := Heading.size candidate;
     Heading.bold := Heading.bold candidate;
     Heading.language := Heading.language candidate;
     Heading.quality_boost := Heading.quality_boost candidate |}.

Definition enhance_one (candidate : Heading.t) : Heading.t :=
  let text := Heading.text candidate in
  let detected_language := _detect_text_language text in
  let candidate :=
    if in_multilingual_patterns detected_language
    then _enhance_with_language_patterns candidate detected_language
    else candidate in
  set_text candidate (_normalize_unicode_text text).

Definition _apply_multilingual_enhancement (candidates : list Heading.t)
  : list Heading.t := List.map enhance_one candidates.

(** ** Quality scoring *)

(** [^\d+\.\s+], [^\d+\.\d+\s+] and [^[A-Z]\.\s+] *)
Definition re_num1 : re := seq [Bol; Plus d; Ch 46; Plus sp].
Definition re_num2 : re := seq [Bol; Plus d; Ch 46; Plus d; Plus sp].
Definition re_letter : re := seq [Bol; Chr (in_range 65 90); Ch 46; Plus sp].

Definition section_patterns : list re :=
  List.map (fun w => Lit (lit w))
    ["introduction"; "conclusion"; "summary"; "overview"; "background";
     "methodology"; "results"; "discussion"; "references"; "appendix"]%string
  ++ [seq [Lit (lit "chapter"); Plus sp; Plus d];
      seq [Lit (lit "section"); Plus sp; Plus d]].

Definition _score_structural_patterns (candidate : Heading.t) : Q :=
  let text := Heading.text candidate in
  let score :=
    if match_ re_num1 text then (0.0 + 0.9)%Q
    else if match_ re_num2 text then (0.0 + 0.8)%Q
    else if match_ re_letter text then (0.0 + 0.7)%Q
    else 0.0%Q in
  let score :=
    if existsb (fun pattern => search pattern (lower U text)) section_patterns
    then (score + 0.6)%Q else score in
  Qmin 1.0 score.

Definition _score_semantic_content (candidate : Heading.t) : Q :=
  let text := Heading.text candidate in
  let length := length text in
  let score :=
    if (10 <=? length) && (length <=? 60) then (0.0 + 0.8)%Q
    else if (5 <=? length) && (length <=? 100) then (0.0 + 0.6)%Q
    else (0.0 + 0.3)%Q in
  let word_count := List.length (split U text) in
  let score :=
    if (2 <=? word_count) && (word_count <=? 8) then (score + 0.7)%Q
    else if (1 <=? word_count) && (word_count <=? 12) then (score + 0.5)%Q
    else score in
  let score :=
    if istitle U text then (score + 0.5)%Q
    else if isupper U text && (length <? 50) then (score + 0.4)%Q
    else score in
  Qmin 1.0 score.

Definition _score_typography (candidate : Heading.t)
    (all_candidates : list Heading.t) : Q :=
  let size := get_size candidate in
  let bold := get_bold candidate in
  match List.map get_size all_candidates with
  | s0 :: sizes =>
      let max_size := Py.Qmax_list s0 sizes in
      let size_ratio := if Py.Qltb 0 max_size then (size / max_size)%Q else 0.5%Q in
      if Py.Qltb 0.9 size_ratio then 0.9%Q
      else if Py.Qltb 0.7 size_ratio then 0.7%Q
      else if Py.Qltb 0.5 size_ratio then 0.5%Q
      else 0.3%Q
  | [] =>
      if bold then Qmin 1.0 (0.6 + (if Py.Qltb 12 size then 0.3 else 0.1))%Q
      else 0.5%Q
  end.

Definition _score_position (candidate : Heading.t) : Q :=
  let page := Heading.page candidate in
  if (page <=? 2)%Z then 0.9%Q
  else if (page <=? 5)%Z then 0.7%Q
  else if (page <=? 10)%Z then 0.6%Q
  else 0.5%Q.

(** The [scores] dictionary of [_calculate_quality_score]. *)
Definition component_scores (candidate : Heading.t)
    (all_candidates : list Heading.t) : list (str * Q) :=
  [(lit "structural", _score_structural_patterns candidate);
   (lit "semantic", _score_semantic_content candidate);
   (lit "typography", _score_typography candidate all_candidates);
   (lit "position", _score_position candidate);
   (lit "multilingual", default 0%Q (Heading.quality_boost candidate))].

(** The loop over [self.heading_quality_weights.items()]. *)
Definition weighted_total (scores : list (str * Q)) : Q :=
  fold_left
    (fun total_score '(component, weight) =>
       if str_eqb component (lit "multilingual")
       then (total_score + weight * dict_get scores (lit "multilingual"))%Q
       else (total_score + weight * dict_get scores (before_underscore component))%Q)
    heading_quality_weights 0%Q.

Definition _calculate_quality_score (candidate : Heading.t)
    (all_candidates : list Heading.t) : Q :=
  Qmin 1.0 (weighted_total (component_scores candidate all_candidates)).

(** [sorted_scores[len(sorted_scores) // 2]]: the middle element of the
    scores in ascending order, the upper of the two middle elements when
    their number is even. *)
Definition median_score (scores : list Q) : Q :=
  nth (length scores / 2) (Py.stable_sort Py.Qleb scores) 0%Q.

Definition _calculate_dynamic_threshold_from_scores (scores : list Q) : Q :=
  match scores with
  | [] => 0.5%Q
  | _ => Qmax 0.3 (Qmin 0.8 (median_score scores * 0.8))
  end.

(** The estimates are computed and rounded in the arithmetic of floats:
    [selected_count / max(1, total_candidates)] divides two integers,
    [max(1, total_candidates * 0.7)] is the integer 1 unless the product
    is greater. *)
Definition _calculate_accuracy_metrics {A B} (selected : list A)
    (all_candidates : list B) : metrics :=
  let total_candidates := length all_candidates in
  let selected_count := length selected in
  let precision :=
    if 0 <? selected_count
    then Qmin 1.0
           (Py.fadd (Py.fl 0.8)
              (Py.fmul (Py.fl 0.2)
                 (Py.fsub 1
                    (Py.int_truediv (Z.of_nat selected_count)
                       (Z.of_nat (Nat.max 1 total_candidates))))))
    else 0.0%Q in
  let recall :=
    let scaled := Py.fmul (Py.float_of_int (Z.of_nat total_candidates)) (Py.fl 0.7) in
    Qmin 1.0
      (if Py.Qltb 1 scaled
       then Py.fdiv (Py.float_of_int (Z.of_nat selected_count)) scaled
       else Py.int_truediv (Z.of_nat selected_count) 1) in
  let f1_score :=
    if Py.Qltb 0 (Py.fadd precision recall)
    then Py.fdiv (Py.fmul 2 (Py.fmul precision recall)) (Py.fadd precision recall)
    else 0.0%Q in
  {| precision_score := Py.round3 precision;
     recall_score := Py.round3 recall;
     f1_score := Py.round3 f1_score;
     total_candidates := total_candidates;
     selected_count := selected_count |}.

(** [list(zip(scored_candidates, quality_scores))], sorted by score,
    highest first. *)
Definition candidate_score_pairs {A} (scored_candidates : list A)
    (quality_scores : list Q) : list (A * Q) :=
  Py.stable_sort (fun a b => Py.Qleb (snd b) (snd a))
    (combine scored_candidates quality_scores).

(** [final_candidates]: the candidates of the pairs at or above the
    dynamic threshold. *)
Definition final_candidates_of {A} (scored_candidates : list A)
    (quality_scores : list Q) : list A :=
  let threshold := _calculate_dynamic_threshold_from_scores quality_scores in
  List.map fst
    (List.filter (fun pair => Py.Qleb threshold (snd pair))
       (candidate_score_pairs scored_candidates quality_scores)).

Definition _apply_quality_scoring (candidates : list Heading.t)
  : list Heading.t * metrics :=
  let scored_candidates := candidates in
  let quality_scores :=
    List.map (fun candidate => _calculate_quality_score candidate candidates)
      candidates in
  let final_candidates := final_candidates_of scored_candidates quality_scores in
  (final_candidates, _calculate_accuracy_metrics final_candidates scored_candidates).

Definition enhance_heading_detection (candidates : list Heading.t)
  : list Heading.t * metrics :=
  let high_precision_candidates := _apply_precision_filters candidates in
  let enhanced_candidates := _apply_recall_enhancement high_precision_candidates in
  let multilingual_enhanced := _apply_multilingual_enhancement enhanced_candidates in
  _apply_quality_scoring multilingual_enhanced.

End WithUnicode.
End AccuracyEnhancer.

(* ===================================================================== *)
(** * extractors/filters/heading_filter.py *)
(* ===================================================================== *)

Module HeadingFilter.
Import PyStr Re.

Section WithUnicode.
Context (U : UnicodeDB) (config : Config.t).

Definition d : re := Chr (isdecimal U).
Definition sp : re := Chr (isspace U).
Definition az : re := Chr (in_range 97 122).
Definition wb : re := WordB (isword U).

Definition _is_noise_text (text : str) : bool :=
  let text_clean := strip U text in
  existsb (fun pattern => match_ pattern text_clean) (Config.noise_patterns config)
  || (length text_clean <? Config.min_unique_chars config)
  || Py.Qltb (Config.max_space_ratio config)
       (inject_Z (Z.of_nat (count text_clean (lit " ")))
        / inject_Z (Z.of_nat (Nat.max 1 (length text_clean))))
  || (size (list_to_set text_clean : gset char) <? Config.min_unique_chars config).

Definition sentence_starters : list str :=
  List.map lit
    ["those"; "these"; "this"; "that"; "when"; "where"; "while"; "during";
     "after"; "before"; "since"; "until"; "although"; "however"; "therefore";
     "moreover"; "furthermore"; "in addition"; "for example"; "such as"]%string.

(** [\b(version|v\d+|\d{4}|\d+/\d+|\d+-\d+)\b] *)
Definition re_version_or_date : re :=
  seq [wb;
       alt [Lit (lit "version");
            seq [Ch 118; Plus d];
            repeat_re 4 d;
            seq [Plus d; Ch 47; Plus d];
            seq [Plus d; Ch 45; Plus d]];
       wb].

(** [\bpage\s+\d+|\bp\.\s*\d+|\bpp\.\s*\d+] *)
Definition re_page_reference : re :=
  alt [seq [wb; Lit (lit "page"); Plus sp; Plus d];
       seq [wb; Lit (lit "p"); Ch 46; Star sp; Plus d];
       seq [wb; Lit (lit "pp"); Ch 46; Star sp; Plus d]].

Definition _is_unlikely_heading (text : str) : bool :=
  let text_clean := strip U text in
  let text_lower := lower U text_clean in
  existsb (startswith text_lower) sentence_starters
  || ((120 <? length text_clean) && has_char text_clean 46)
  || search re_version_or_date text_lower
  || search re_page_reference text_lower
  || ((1 <? count text_lower (lit " be "))
      || (0 <? count text_lower (lit " shall "))
      || (0 <? count text_lower (lit " must "))
      || (1 <? count text_lower (lit " will ")))
  || ((1 <? count text_clean (lit ".")) && (50 <? length text_clean)).

Definition _passes_document_filters (text text_lower : str)
    (profile : doc_profile) : result bool :=
  let too_short := length text <? Config.min_text_length config in
  if is_form profile then
    Ok (negb (too_short
              || (Config.max_form_heading config <? length text)
              || has_char text 58
              || existsb (contains text_lower) (Config.form_avoid_fields config)))
  else if is_academic profile then
    Ok (negb (too_short
              || (Config.max_academic_heading config <? length text)
              || (Config.academic_max_dots config <? count text (lit "."))))
  else if is_technical profile then
    if too_short then Ok false
    else
      match Config.max_technical_heading config with
      | None => Raise (KeyError (lit "max_technical_heading"))
      | Some max_technical_heading =>
          Ok (negb ((max_technical_heading <? length text)
                    || (Config.technical_max_parentheses config <? count text (lit "("))))
      end
  else
    Ok (negb (too_short
              || (Config.max_simple_heading config <? length text)
              || (2 <? count text (lit "("))
              || (Config.simple_max_underscores config <? count text (lit "_"))
              || existsb (contains text_lower) (Config.simple_avoid_patterns config))).

Definition _has_good_heading_structure (text : str) : result bool :=
  match text with
  | [] => Raise IndexError
  | c :: _ =>
      if negb (isalnum_c U c) then Ok false
      else if isupper U text && (Config.max_caps_length config <? length text)
      then Ok false
      else if existsb (endswith text) [lit "."; lit "!"; lit "?"] then Ok false
      else Ok true
  end.

(** [set(s.split())] *)
Definition word_set (s : str) : gset str := list_to_set (split U s).

Definition similar (text_lower seen_lower : str) : bool :=
  let a := word_set text_lower in
  let b := word_set seen_lower in
  Py.Qltb 0.8
    (inject_Z (Z.of_nat (size (a ∩ b)))
     / inject_Z (Z.of_nat (Nat.max 1 (size (a ∪ b))))).

Definition _is_repetitive_content (text : str) (seen_texts : gset str) : bool :=
  let text_lower := lower U text in
  existsb (fun seen => similar text_lower (lower U seen)) (elements seen_texts).

Definition heading_patterns : list re :=
  [ (* ^\d+\.?\s+[a-z] *)
    seq [Bol; Plus d; Opt (Ch 46); Plus sp; az];
    (* ^[a-z]+\s+(overview|introduction|summary|conclusion) *)
    seq [Bol; Plus az; Plus sp;
         alt (List.map (fun w => Lit (lit w))
                ["overview"; "introduction"; "summary"; "conclusion"]%string)];
    (* ^(overview|introduction|background|summary|conclusion|references) *)
    seq [Bol;
         alt (List.map (fun w => Lit (lit w))
                ["overview"; "introduction"; "background"; "summary";
                 "conclusion"; "references"]%string)];
    (* ^chapter\s+\d+ *)
    seq [Bol; Lit (lit "chapter"); Plus sp; Plus d];
    (* ^section\s+\d+ *)
    seq [Bol; Lit (lit "section"); Plus sp; Plus d];
    (* ^appendix\s+[a-z] *)
    seq [Bol; Lit (lit "appendix"); Plus sp; az] ].

Definition _is_likely_heading_content (text : str) : bool :=
  let text_lower := lower U text in
  existsb (fun pattern => search pattern text_lower) heading_patterns
  || ((length (split U text) <=? 6) && (length text <=? 80)
      && negb (existsb (contains text_lower)
                 (List.map lit ["will"; "shall"; "must"; "should"; "can"; "may"]%string))).

(** The average word length test on a text that splits into more than
    one word. *)
Definition looks_like_fragments (text : str) : bool :=
  let words := split U text in
  (1 <? length words)
  && Py.Qltb (Py.Qsum (List.map (fun word => Py.Qlen word) words) / Py.Qlen words)
       (Config.min_word_avg_length config).

(** One turn of the loop of [filter_candidates]: whether the candidate is
    appended, given the texts seen so far. *)
Definition keeps (profile : doc_profile) (seen_texts : gset str)
    (candidate : Frag.t) : result bool :=
  let text := strip U (Frag.text candidate) in
  let text_lower := lower U text in
  if bool_decide (text ∈ seen_texts) then Ok false
  else if _is_noise_text text || _is_unlikely_heading text then Ok false
  else if length text <? 8 then Ok false
  else if looks_like_fragments text then Ok false
  else
    passes ← _passes_document_filters text text_lower profile;
    if negb passes then Ok false
    else
      good ← _has_good_heading_structure text;
      Ok (good && negb (_is_repetitive_content text seen_texts)
          && _is_likely_heading_content text).

Definition filter_step (profile : doc_profile)
    (st : list Frag.t * gset str) (candidate : Frag.t)
  : result (list Frag.t * gset str) :=
  keep ← keeps profile st.2 candidate;
  Ok (if keep : bool
      then (st.1 ++ [candidate], {[strip U (Frag.text candidate)]} ∪ st.2)
      else st).

Definition filter_candidates (candidates : list Frag.t) (profile : doc_profile)
  : result (list Frag.t) :=
  match candidates with
  | [] => Ok []
  | _ => st ← foldM (filter_step profile) ([], ∅) candidates; Ok st.1
  end.

End WithUnicode.
End HeadingFilter.

(* ===================================================================== *)
(** * extractors/heading_extractor.py *)
(* ===================================================================== *)

(** What the page source yields: a page is a list of blocks, a block may
    have lines, a line is a list of spans. *)
Module Span.
Record t := mk {
  text : PyStr.str;
  size : Q;
  flags : Z;
  bbox : bbox_t
}.
End Span.

Definition line_t : Type := list Span.t.
Definition block_t : Type := option (list line_t).
Definition page_t : Type := list block_t.
Definition doc_t : Type := list page_t.

(** An entry of [lines_info]. *)
Module LineInfo.
Record t := mk {
  text : PyStr.str;
  size : Q;
  bold : bool;
  bbox : option bbox_t;
  y_pos : Q
}.
End LineInfo.

Module HeadingExtractor.
Import PyStr Re.

(** [cluster_stats[cluster].append(t)] on a dictionary that keeps its keys
    in insertion order. *)
Fixpoint dict_append {V} (stats : list (Z * list V)) (cluster : Z) (t : V)
  : list (Z * list V) :=
  match stats with
  | [] => [(cluster, [t])]
  | (k, ts) :: stats' =>
      if (k =? cluster)%Z then (k, ts ++ [t]) :: stats'
      else (k, ts) :: dict_append stats' cluster t
  end.

Section WithUnicode.
Context (U : UnicodeDB) (config : Config.t).

(** The calls into scikit-learn: [StandardScaler().fit_transform] and
    [KMeans(n_clusters, random_state, n_init).fit_predict]. *)
Context (fit_transform : list (list Q) -> result (list (list Q))).
Context (fit_predict : Z -> Z -> Z -> list (list Q) -> result (list Z)).

Definition d : re := Chr (isdecimal U).

(** ** First pass: the lines of a page *)

Definition bbox_y0 (b : option bbox_t) : Q :=
  match b with
  | Some (_, y0, _, _) => y0
  | None => 0%Q
  end.

(** The loop over the spans of a line: [line_text], [max_size], [is_bold]
    and [bbox]. *)
Definition span_step (acc : str * Q * bool * option bbox_t) (span : Span.t)
  : str * Q * bool * option bbox_t :=
  let '(line_text, max_size, is_bold, bbox) := acc in
  match strip U (Span.text span) with
  | [] => acc
  | text =>
      (line_text ++ text ++ lit " ",
       Qmax max_size (Span.size span),
       is_bold || negb (Z.land (Span.flags span) (2 ^ 4) =? 0)%Z,
       match bbox with
       | None => Some (Span.bbox span)
       | Some _ => bbox
       end)
  end.

Definition line_info (line : line_t) : list LineInfo.t :=
  let '(line_text, max_size, is_bold, bbox) :=
    fold_left span_step line ([], 0%Q, false, None) in
  let line_text := strip U line_text in
  if 3 <? length line_text
  then [ {| LineInfo.text := line_text;
            LineInfo.size := max_size;
            LineInfo.bold := is_bold;
            LineInfo.bbox := bbox;
            LineInfo.y_pos := bbox_y0 bbox |} ]
  else [].

Definition lines_info_of (page : page_t) : list LineInfo.t :=
  flat_map
    (fun block : block_t =>
       match block with
       | Some lines => flat_map line_info lines
       | None => []
       end)
    page.

(** ** Second pass: grouping adjacent lines *)

Definition _reconstruct_fragmented_text (text_group : list LineInfo.t) : str :=
  match text_group with
  | [] => []
  | _ =>
      let texts := List.map LineInfo.text text_group in
      let combined := strip U (join (lit " ") texts) in
      join (lit " ") (split U combined)
  end.

(** The test of the loop body on the last line of the current group and
    the line at hand. *)
Definition merges (prev_line current_line : LineInfo.t) : bool :=
  let delta := Qabs (LineInfo.size current_line - LineInfo.size prev_line) in
  let size_similar := Py.Qltb delta (Config.font_size_tolerance config) in
  let y_distance := Qabs (LineInfo.y_pos current_line - LineInfo.y_pos prev_line) in
  let close_vertically := Py.Qltb y_distance (Config.grouping_distance config) in
  let same_style := eqb (LineInfo.bold current_line) (LineInfo.bold prev_line) in
  let large_font_threshold := Config.title_font_threshold config in
  let both_large :=
    Py.Qltb large_font_threshold (LineInfo.size current_line)
    && Py.Qltb large_font_threshold (LineInfo.size prev_line) in
  let size_similar :=
    if both_large then Py.Qltb delta (Config.large_font_tolerance config)
    else size_similar in
  let close_vertically :=
    if both_large then Py.Qltb y_distance (Config.large_font_distance config)
    else close_vertically in
  size_similar && close_vertically && same_style.

(** "Process the current group": the block a group gives, if its text is
    longer than five characters. *)
Definition block_of (current_group : list LineInfo.t) (page_num : nat) : list Frag.t :=
  match current_group with
  | [] => []
  | first :: _ =>
      let combined_text := _reconstruct_fragmented_text current_group in
      let avg_size :=
        (Py.Qsum (List.map LineInfo.size current_group) / Py.Qlen current_group)%Q in
      if 5 <? length combined_text
      then [ {| Frag.text := combined_text;
                Frag.size := avg_size;
                Frag.bold := LineInfo.bold first;
                Frag.page := Z.of_nat page_num + 1;
                Frag.length := length combined_text;
                Frag.bbox := LineInfo.bbox first |} ]
      else []
  end.

(** The loop body; the state is [reconstructed_texts] and
    [current_group], which is never empty. *)
Definition reconstruct_step (page_num : nat)
    (st : list Frag.t * list LineInfo.t) (current_line : LineInfo.t)
  : list Frag.t * list LineInfo.t :=
  let prev_line := List.last st.2 current_line in
  if merges prev_line current_line
  then (st.1, st.2 ++ [current_line])
  else (st.1 ++ block_of st.2 page_num, [current_line]).

Definition _reconstruct_text_blocks (lines_info : list LineInfo.t) (page_num : nat)
  : result (list Frag.t) :=
  match lines_info with
  | [] => Raise IndexError
  | first :: rest =>
      let st := fold_left (reconstruct_step page_num) rest ([], [first]) in
      Ok (st.1 ++ block_of st.2 page_num)
  end.

(** ** Clustering *)

Definition b2q (b : bool) : Q := if b then 1%Q else 0%Q.
Definition n2q (n : nat) : Q := inject_Z (Z.of_nat n).

Definition features_of (text_info : Frag.t) : list Q :=
  let text := Frag.text text_info in
  let length_feature := Frag.length text_info in
  [ Frag.size text_info;
    b2q (Frag.bold text_info);
    n2q length_feature;
    bbox_y0 (Frag.bbox text_info);
    b2q (search d text);
    b2q (match_ (seq [Bol; Plus d]) text);
    b2q (length_feature <? 30);
    b2q (istitle U text);
    b2q (has_char text 58);
    n2q (length (split U text));
    inject_Z (Frag.page text_info);
    b2q (Frag.page text_info <=? 3)%Z;
    b2q (search (seq [Bol; Plus d; Ch 46]) text);
    b2q (search (seq [Bol; Plus d; Ch 46; Plus d]) text) ].

Definition mean (l : list Q) : Q := (Py.Qsum l / Py.Qlen l)%Q.

Definition section_keywords : list str :=
  List.map lit
    ["introduction"; "overview"; "conclusion"; "summary"; "background";
     "methodology"; "results"; "discussion"; "references"]%string.

Definition _calculate_cluster_score (texts : list Frag.t)
    (avg_size avg_length bold_ratio : Q) : Z :=
  let font_threshold := Config.min_heading_size config in
  let large_font_threshold := Config.large_font_threshold config in
  let max_length := n2q (Config.max_simple_heading config) in
  let has_numbered_sections :=
    existsb (fun t => search (seq [Bol; Plus d; Ch 46]) (Frag.text t)) texts in
  let has_section_keywords :=
    existsb (fun t => existsb (contains (lower U (Frag.text t))) section_keywords) texts in
  let early_page_ratio :=
    mean (List.map (fun t => if (Frag.page t <=? 3)%Z then 1%Q else 0%Q) texts) in
  let title_case_ratio :=
    mean (List.map (fun t => if istitle U (Frag.text t) then 1%Q else 0%Q) texts) in
  ((if Py.Qltb large_font_threshold avg_size then 3
    else if Py.Qltb font_threshold avg_size then 2 else 0)
   + (if Py.Qltb avg_length 30 then 3
      else if Py.Qltb avg_length max_length then 2 else 0)
   + (if Py.Qltb 0.7 bold_ratio then 3
      else if Py.Qltb 0.3 bold_ratio then 2 else 0)
   + (if has_numbered_sections then 4 else 0)
   + (if has_section_keywords then 3 else 0)
   + (if Py.Qltb 0.5 early_page_ratio then 2 else 0)
   + (if Py.Qltb 0.5 title_case_ratio then 2 else 0))%Z.

(** The score [_select_heading_candidates] gives a cluster. *)
Definition cluster_score (texts : list Frag.t) : Z :=
  let avg_size := mean (List.map Frag.size texts) in
  let avg_length := mean (List.map (fun t => n2q (Frag.length t)) texts) in
  let bold_ratio := mean (List.map (fun t => b2q (Frag.bold t)) texts) in
  _calculate_cluster_score texts avg_size avg_length bold_ratio.

(** The dictionary [cluster_stats]. *)
Definition cluster_stats (all_texts : list Frag.t) (clusters : list Z)
  : list (Z * list Frag.t) :=
  fold_left (fun stats '(cluster, t) => dict_append stats cluster t)
    (combine clusters all_texts) [].

Definition _select_heading_candidates (all_texts : list Frag.t) (clusters : list Z)
  : result (list Frag.t) :=
  if length all_texts <? length clusters then Raise IndexError
  else
    Ok (flat_map
          (fun '(cluster_id, texts) =>
             if (5 <=? cluster_score texts)%Z then texts else [])
          (cluster_stats all_texts clusters)).

(** [min(max_clusters, len(all_texts) // cluster_ratio)] *)
Definition n_clusters_of (all_texts : list Frag.t) : result Z :=
  if (Config.cluster_ratio config =? 0)%Z then Raise ZeroDivisionError
  else Ok (Z.min (Config.max_clusters config)
             (Z.of_nat (length all_texts) / Config.cluster_ratio config)).

Definition _cluster_headings (all_texts : list Frag.t) : result (list Frag.t) :=
  let features := List.map features_of all_texts in
  features_scaled ← fit_transform features;
  n_clusters ← n_clusters_of all_texts;
  if (n_clusters <? Config.min_clusters config)%Z then Ok all_texts
  else
    clusters ← fit_predict n_clusters (Config.random_state config)
                  (Config.n_init config) features_scaled;
    _select_heading_candidates all_texts clusters.

(** The blocks of one page. *)
Definition page_texts (page_num : nat) (page : page_t) : result (list Frag.t) :=
  match lines_info_of page with
  | [] => Ok []
  | lines_info =>
      let lines_info :=
        Py.stable_sort
          (fun a b => Py.Qleb (LineInfo.y_pos a) (LineInfo.y_pos b)) lines_info in
      _reconstruct_text_blocks lines_info page_num
  end.

(** The loop over the pages, which builds [all_texts]. *)
Fixpoint all_texts_from (page_num : nat) (pages : list page_t) : result (list Frag.t) :=
  match pages with
  | [] => Ok []
  | page :: pages' =>
      reconstructed_texts ← page_texts page_num page;
      more ← all_texts_from (S page_num) pages';
      Ok (reconstructed_texts ++ more)
  end.

Definition _get_ml_heading_candidates (doc : doc_t) : result (list Frag.t) :=
  all_texts ← all_texts_from 0 doc;
  if length all_texts <? 5 then Ok all_texts
  else _cluster_headings all_texts.

Definition _apply_filtering (candidates : list Frag.t) (profile : doc_profile)
  : result (list Frag.t) :=
  HeadingFilter.filter_candidates U config candidates profile.

Definition _build_heading_hierarchy (candidates : list Frag.t) : list Heading.t :=
  LevelDeterminer.build_hierarchy U candidates.

Definition extract_headings (doc : doc_t) (profile : doc_profile)
  : result (list Heading.t) :=
  candidates ← _get_ml_heading_candidates doc;
  filtered_candidates ← _apply_filtering candidates profile;
  Ok (_build_heading_hierarchy filtered_candidates).

End WithUnicode.
End HeadingExtractor.

(* ===================================================================== *)
(** * pdf_extractor_modular.py *)
(* ===================================================================== *)

Module PdfExtractor.
Import PyStr.

(** The dictionary [extract_structure] returns; the key
    [_accuracy_metrics] is present when the metrics are. *)
Record extraction := {
  title : str;
  outline : list Heading.t;
  _accuracy_metrics : option AccuracyEnhancer.metrics
}.

Definition empty_extraction : extraction :=
  {| title := []; outline := []; _accuracy_metrics := None |}.

(** The optional multimodal enhancer: [enhance_document_analysis] and
    [enhance_heading_detection]. *)
Record layoutlmv3 := {
  enhance_document_analysis : doc_t -> doc_profile -> result doc_profile;
  enhance_heading_detection :
    list Heading.t -> doc_t -> doc_profile -> result (list Heading.t)
}.

Section WithUnicode.
Context (U : UnicodeDB) (config : Config.t).
Context (fit_transform : list (list Q) -> result (list (list Q))).
Context (fit_predict : Z -> Z -> Z -> list (list Q) -> result (list Z)).

(** The collaborators of the extractor that read the document: opening
    and closing it, the document analyzer and the title extractor. *)
Context {path : Type}.
Context (fitz_open : path -> result doc_t).
Context (doc_close : doc_t -> result ()).
Context (analyze_document : doc_t -> result doc_profile).
Context (extract_title : doc_t -> doc_profile -> result str).

(** [print(f"Error processing {pdf_path}: {str(e)}")], the first
    statement of the [except] clause.  It raises when standard output
    refuses the text, as a strict encoding does for a path with a lone
    surrogate, and what it raises leaves the clause. *)
Context (print_error : path -> exn -> result ()).

(** [self.accuracy_enhancer] is set when accuracy enhancement is enabled,
    [self.layoutlmv3_enhancer] when the multimodal model is. *)
Context (enable_accuracy_enhancement : bool).
Context (layoutlmv3_enhancer : option layoutlmv3).

(** "Apply accuracy enhancement if enabled" *)
Definition accuracy_stage (raw_headings : list Heading.t)
  : list Heading.t * option AccuracyEnhancer.metrics :=
  if enable_accuracy_enhancement then
    let r := AccuracyEnhancer.enhance_heading_detection U raw_headings in
    (r.1, Some r.2)
  else (raw_headings, None).

(** The body of the [try] statement. *)
Definition extract_body (pdf_path : path) : result extraction :=
  doc ← fitz_open pdf_path;
  doc_profile ← analyze_document doc;
  doc_profile ←
    match layoutlmv3_enhancer with
    | Some enhancer => enhance_document_analysis enhancer doc doc_profile
    | None => Ok doc_profile
    end;
  title ← extract_title doc doc_profile;
  raw_headings ←
    HeadingExtractor.extract_headings U config fit_transform fit_predict
      doc doc_profile;
  raw_headings ←
    match layoutlmv3_enhancer with
    | Some enhancer => enhance_heading_detection enhancer raw_headings doc doc_profile
    | None => Ok raw_headings
    end;
  let r := accuracy_stage raw_headings in
  _ ← doc_close doc;
  Ok {| title := title; outline := r.1; _accuracy_metrics := r.2 |}.

Definition extract_structure (pdf_path : path) : result extraction :=
  try_except (extract_body pdf_path)
    (fun e => _ ← print_error pdf_path e; Ok empty_extraction).

End WithUnicode.
End PdfExtractor.

(* ===================================================================== *)
(** * config/extractor_config.py: the configuration dictionary *)
(* ===================================================================== *)

Module ExtractorConfig.
Import PyStr.

(** The values at the leaves of a configuration: [None], booleans,
    integers, floats, strings and lists of strings. *)
Inductive atom :=
| PyNone
| PyBool (b : bool)
| PyInt (n : Z)
| PyFloat (x : Q)
| PyStr (s : str)
| PyList (l : list str).

(** A configuration value is a leaf or a dictionary with string keys. *)
#[warnings="-register-all"]
Inductive value :=
| Atom (a : atom)
| Dict (items : gmap str value).

Abbreviation dict := (gmap str value) (only parsing).

Definition int (n : Z) : value := Atom (PyInt n).
Definition float (x : Q) : value := Atom (PyFloat x).
Definition strings (l : list String.string) : value := Atom (PyList (List.map lit l)).

(** A dictionary display [{k1: v1, ...}]. *)
Definition dict_of (items : list (String.string * value)) : value :=
  Dict (list_to_map (List.map (fun kv => (lit (fst kv), snd kv)) items)).

Definition items_of (v : value) : dict :=
  match v with
  | Dict items => items
  | Atom _ => ∅
  end.

Definition get_default_config : dict :=
  items_of (dict_of
    [("extraction", dict_of
        [("min_confidence", float 0.5);
         ("max_workers", int 6);
         ("clustering", dict_of
            [("min_clusters", int 2); ("max_clusters", int 5);
             ("cluster_ratio", int 3); ("random_state", int 42);
             ("n_init", int 10)]);
         ("font_thresholds", dict_of
            [("min_heading_size", float 11.0);
             ("large_font_threshold", float 14.0);
             ("small_font_threshold", float 9.0);
             ("title_font_threshold", int 20);
             ("max_caps_length", int 30)]);
         ("distance_thresholds", dict_of
            [("line_spacing", float 1.5); ("paragraph_spacing", float 2.0);
             ("section_spacing", float 3.0); ("font_size_tolerance", float 2.0);
             ("grouping_distance", int 30); ("large_font_tolerance", float 3.0);
             ("large_font_distance", int 40)]);
         ("text_limits", dict_of
            [("min_text_length", int 3); ("max_text_length", int 200);
             ("min_word_count", int 1); ("max_word_count", int 20);
             ("min_word_avg_length", int 2); ("max_form_heading", int 50);
             ("max_academic_heading", int 150);
             ("max_simple_heading", int 100);
             ("max_complex_heading", int 150)])]);
     ("accuracy", dict_of
        [("enable_quality_scoring", Atom (PyBool true));
         ("quality_weights", dict_of
            [("font_size", float 0.25); ("font_style", float 0.25);
             ("position", float 0.20); ("text_features", float 0.15);
             ("context", float 0.15)]);
         ("min_quality_threshold", float 0.4);
         ("enable_clustering", Atom (PyBool true));
         ("clustering_features", int 10)]);
     ("performance", dict_of
        [("time_limit", float 3.0); ("memory_limit", int 200);
         ("monitor_enabled", Atom (PyBool true));
         ("log_detailed_metrics", Atom (PyBool true))]);
     ("document_types", dict_of
        [("business", dict_of
            [("indicators", strings ["memo"; "report"; "proposal"; "minutes"]);
             ("min_indicators", int 1);
             ("avoid_fields", strings ["name:"; "date:"; "signature:"; "employee"])]);
         ("form", dict_of
            [("indicators",
              strings ["application"; "form"; "template"; "document"; "submission"]);
             ("min_indicators", int 1);
             ("title_keywords",
              strings ["application"; "document"; "form"; "template"; "submission"]);
             ("avoid_keywords", strings ["microsoft"; "word"; ".doc"; "file"; ".pdf"]);
             ("avoid_fields", strings ["name:"; "date:"; "signature:"; "employee"])]);
         ("academic", dict_of
            [("indicators",
              strings ["syllabus"; "curriculum"; "course"; "university"; "college";
                       "academic"]);
             ("min_indicators", int 1);
             ("max_dots", int 3)]);
         ("technical", dict_of
            [("indicators",
              strings ["technical"; "specification"; "manual"; "guide";
                       "documentation"]);
             ("min_indicators", int 1);
             ("max_parentheses", int 3)]);
         ("simple", dict_of
            [("max_underscores", int 2);
             ("avoid_patterns",
              Atom (PyList [lit "copyright"; [0xa9%N]; lit "all rights reserved"]))])]);
     ("filtering", dict_of
        [("noise_patterns",
          strings ["^[\s\-_\.]+$"; "^\d+$"; "^[^\w\s]*$"; "^(page|p\.)\s*\d+";
                   "^\s*\d+\s*/\s*\d+\s*$"]);
         ("avoid_general",
          Atom (PyList [lit "copyright"; lit "all rights reserved"; [0xa9%N];
                        lit "confidential"; lit "draft"; lit "preliminary";
                        lit "internal use"]));
         ("avoid_metadata",
          strings ["filename"; "author"; "created"; "modified"; "subject";
                   "keywords"; "producer"]);
         ("min_unique_chars", int 3);
         ("max_space_ratio", float 0.7)]);
     ("layoutlmv3", dict_of
        [("enabled", Atom (PyBool true));
         ("model_name", Atom (PyStr (lit "microsoft/layoutlmv3-base")));
         ("confidence_thresholds", dict_of
            [("title", float 0.8); ("h1", float 0.7); ("h2", float 0.6);
             ("h3", float 0.5)]);
         ("max_pages_analyze", int 3);
         ("quality_boost_factor", float 0.3);
         ("use_gpu", Atom (PyBool true));
         ("lazy_loading", Atom (PyBool true))])]%string).

(** The built-in exception the interpreter raises for [x.items()] and
    [x.update(...)] when [x] is not a dictionary. *)
Definition AttributeError : exn := External (lit "AttributeError").

(** [not a] for a leaf. *)
Definition falsy (a : atom) : bool :=
  match a with
  | PyNone => true
  | PyBool b => negb b
  | PyInt n => (n =? 0)%Z
  | PyFloat x => Py.Qeqb x 0
  | PyStr s => match s with [] => true | _ :: _ => false end
  | PyList l => match l with [] => true | _ :: _ => false end
  end.

(** [merge_configs(default_config, custom_config)].  A custom
    configuration that is false ([None], the empty dictionary, ...)
    returns the default; one that is true and is not a dictionary has no
    [items].  The recursion is on the custom configuration; the recursive
    call is made when the value at hand and the value already under the
    key are both dictionaries. *)
Fixpoint merge_configs (default_config : dict) (custom_config : value)
    {struct custom_config} : result dict :=
  match custom_config with
  | Atom a => if falsy a then Ok default_config else Raise AttributeError
  | Dict custom_items =>
      if bool_decide (custom_items = ∅) then Ok default_config
      else
        let merged := default_config in
        map_fold
          (fun key value (merged : result dict) =>
             merged ← merged;
             match merged !! key, value with
             | Some (Dict under_key), Dict _ =>
                 under_key ← merge_configs under_key value;
                 Ok (<[key := Dict under_key]> merged)
             | _, _ => Ok (<[key := value]> merged)
             end)
          (Ok merged) custom_items
  end.

(** [create_config(custom_config=None)] *)
Definition create_config (custom_config : value) : result dict :=
  let default := get_default_config in
  merge_configs default custom_config.

End ExtractorConfig.

(* ===================================================================== *)
(** * analyzers/document_analyzer.py *)
(* ===================================================================== *)

(** The keys of the configuration the document analyzer and the title
    extractor read, typed as the defaults are. *)
Module DocTypes.
Import PyStr.

Record t := {
  (* document_types.form *)
  form_indicators : list str;
  form_min_indicators : Z;
  form_title_keywords : list str;
  form_avoid_keywords : list str;
  (* document_types.academic *)
  academic_indicators : list str;
  academic_min_indicators : Z;
  (* document_types.technical *)
  technical_indicators : list str;
  technical_min_indicators : Z;
  (* filtering *)
  avoid_general : list str;
  avoid_metadata : list str
}.

Definition get_default_config : t :=
  {| form_indicators :=
       List.map lit ["application"; "form"; "template"; "document"; "submission"]%string;
     form_min_indicators := 1;
     form_title_keywords :=
       List.map lit ["application"; "document"; "form"; "template"; "submission"]%string;
     form_avoid_keywords :=
       List.map lit ["microsoft"; "word"; ".doc"; "file"; ".pdf"]%string;
     academic_indicators :=
       List.map lit ["syllabus"; "curriculum"; "course"; "university"; "college";
                     "academic"]%string;
     academic_min_indicators := 1;
     technical_indicators :=
       List.map lit ["technical"; "specification"; "manual"; "guide";
                     "documentation"]%string;
     technical_min_indicators := 1;
     avoid_general :=
       [lit "copyright"; lit "all rights reserved"; [0xa9%N]; lit "confidential";
        lit "draft"; lit "preliminary"; lit "internal use"];
     avoid_metadata :=
       List.map lit ["filename"; "author"; "created"; "modified"; "subject";
                     "keywords"; "producer"]%string |}.

End DocTypes.

(** The profile [analyze_document] returns. *)
Module Profile.
Record structure_t := {
  is_form : bool;
  is_academic : bool;
  is_technical : bool;
  has_toc : bool;
  has_numbered_sections : bool;
  avg_text_per_page : Q;
  font_variety : nat
}.

(** A key of [font_stats] is the font name, an underscore and the size
    with one decimal.  It is kept as the name, whether the size is
    written with a minus sign, and the digits: the absolute size in
    tenths, rounded as the format does. *)
Definition font_key : Type := PyStr.str * bool * Z.

Record t := {
  text_sample : PyStr.str;
  font_stats : list (font_key * nat);
  structure : structure_t;
  page_count : nat
}.

End Profile.

(** The flags of a profile the heading filter reads. *)
Definition profile_flags (p : Profile.t) : doc_profile :=
  {| is_form := Profile.is_form (Profile.structure p);
     is_academic := Profile.is_academic (Profile.structure p);
     is_technical := Profile.is_technical (Profile.structure p) |}.

Module DocumentAnalyzer.
Import PyStr Re.

(** [font_stats[font_key] += n] on a [defaultdict(int)]. *)
Fixpoint dict_add (font_stats : list (Profile.font_key * nat)) (font_key : Profile.font_key) (n : nat)
  : list (Profile.font_key * nat) :=
  match font_stats with
  | [] => [(font_key, n)]
  | (k, v) :: font_stats' =>
      if bool_decide (k = font_key) then (k, v + n) :: font_stats'
      else (k, v) :: dict_add font_stats' font_key n
  end.

Section WithUnicode.
Context (U : UnicodeDB) (config : DocTypes.t).

(** The font name of a span, the one key of a span the heading extractor
    does not read. *)
Context (span_font : Span.t -> str).

Definition d : re := Chr (isdecimal U).
Definition sp : re := Chr (isspace U).

(** [f"{font}_{size:.1f}"] *)
Definition format_font_key (font : str) (size : Q) : Profile.font_key :=
  (font, Py.Qltb size 0, Z.abs (Py.round_half_even (size * 10))).

(** The loop over the spans of a line: [line_text] and [font_stats]. *)
Definition span_step (acc : str * list (Profile.font_key * nat)) (span : Span.t)
  : str * list (Profile.font_key * nat) :=
  let '(line_text, font_stats) := acc in
  match strip U (Span.text span) with
  | [] => acc
  | text =>
      let font_key := format_font_key (span_font span) (Span.size span) in
      (line_text ++ text ++ lit " ", dict_add font_stats font_key (length text))
  end.

(** The loop over the lines of a block: [page_text] and [font_stats]. *)
Definition line_step (acc : str * list (Profile.font_key * nat)) (line : line_t)
  : str * list (Profile.font_key * nat) :=
  let '(page_text, font_stats) := acc in
  let '(line_text, font_stats) := fold_left span_step line ([], font_stats) in
  match strip U line_text with
  | [] => (page_text, font_stats)
  | stripped => (page_text ++ stripped ++ [10%N], font_stats)
  end.

Definition block_step (acc : str * list (Profile.font_key * nat)) (block : block_t)
  : str * list (Profile.font_key * nat) :=
  match block with
  | Some lines => fold_left line_step lines acc
  | None => acc
  end.

(** The loop over the first pages: [total_text] and [font_stats]. *)
Definition page_step (acc : str * list (Profile.font_key * nat)) (page : page_t)
  : str * list (Profile.font_key * nat) :=
  let '(total_text, font_stats) := acc in
  let '(page_text, font_stats) := fold_left block_step page ([], font_stats) in
  (total_text ++ page_text, font_stats).

(** [sum(1 for indicator in indicators if indicator in text_lower)] *)
Definition count_indicators (indicators : list str) (text_lower : str) : Z :=
  Z.of_nat (length (List.filter (contains text_lower) indicators)).

(** [\b\d+\.\d+\s+[A-Z]] *)
Definition re_numbered_section : re :=
  seq [WordB (isword U); Plus d; Ch 46; Plus d; Plus sp; Chr (in_range 65 90)].

Definition analyze_document (doc : doc_t) : Profile.t :=
  let '(total_text, font_stats) :=
    fold_left page_step (firstn (Nat.min 3 (length doc)) doc) ([], []) in
  let text_lower := lower U total_text in
  {| Profile.text_sample := firstn 1000 total_text;
     Profile.font_stats := font_stats;
     Profile.structure :=
       {| Profile.is_form :=
            (DocTypes.form_min_indicators config
             <=? count_indicators (DocTypes.form_indicators config) text_lower)%Z;
          Profile.is_academic :=
            (DocTypes.academic_min_indicators config
             <=? count_indicators (DocTypes.academic_indicators config) text_lower)%Z;
          Profile.is_technical :=
            (DocTypes.technical_min_indicators config
             <=? count_indicators (DocTypes.technical_indicators config) text_lower)%Z;
          Profile.has_toc :=
            existsb (contains text_lower) [lit "table of contents"; lit "contents"];
          Profile.has_numbered_sections := search re_numbered_section total_text;
          Profile.avg_text_per_page :=
            (inject_Z (Z.of_nat (length total_text))
             / inject_Z (Z.of_nat (Nat.max 1 (Nat.min 3 (length doc)))))%Q;
          Profile.font_variety := length font_stats |};
     Profile.page_count := length doc |}.

End WithUnicode.
End DocumentAnalyzer.

(* ===================================================================== *)
(** * extractors/title_extractor.py *)
(* ===================================================================== *)

Module TitleExtractor.
Import PyStr Re.

(** [s.split(sep)] for a separator of one character: the pieces between
    its occurrences, empty ones included.  [cur] is the piece being read,
    in reverse. *)
Fixpoint split_on_loop (sep : char) (cur : str) (s : str) : list str :=
  match s with
  | [] => [rev cur]
  | c :: s' =>
      if (c =? sep)%N then rev cur :: split_on_loop sep [] s'
      else split_on_loop sep (c :: cur) s'
  end.

Definition split_on (sep : char) (s : str) : list str := split_on_loop sep [] s.

(** [text_by_font[size].append(text)] on a [defaultdict(list)] with
    float keys, and [text_by_font[size]]. *)
Fixpoint dict_append (text_by_font : list (Q * list str)) (size : Q) (text : str)
  : list (Q * list str) :=
  match text_by_font with
  | [] => [(size, [text])]
  | (k, texts) :: text_by_font' =>
      if Py.Qeqb k size then (k, texts ++ [text]) :: text_by_font'
      else (k, texts) :: dict_append text_by_font' size text
  end.

Fixpoint dict_get (text_by_font : list (Q * list str)) (size : Q) : list str :=
  match text_by_font with
  | [] => []
  | (k, texts) :: text_by_font' =>
      if Py.Qeqb k size then texts else dict_get text_by_font' size
  end.

Section WithUnicode.
Context (U : UnicodeDB) (config : DocTypes.t).

(** [c.isdigit()] above ASCII, which the database record does not
    hold. *)
Context (uni_isdigit : char -> bool).

(** [page.get_text()], the plain text of a page. *)
Context (get_text : page_t -> str).

Definition isdigit (c : char) : bool :=
  if is_ascii c then in_range 48 57 c else uni_isdigit c.

Definition d : re := Chr (isdecimal U).
Definition AZ : re := Chr (in_range 65 90).

Definition any_in (s : str) (ks : list str) : bool := existsb (contains s) ks.

(** [^\d+[.\s]] *)
Definition re_leading_number : re :=
  seq [Bol; Plus d; Chr (fun c => (c =? 46)%N || isspace U c)].

(** [[A-Z]{2,}_[A-Z]{2,}] *)
Definition re_constant_name : re :=
  seq [AZ; AZ; Star AZ; Ch 95; AZ; AZ; Star AZ].

Definition _extract_form_title (lines : list str) : str :=
  default []
    (List.find
       (fun line =>
          (20 <? length line) && (length line <? 120)
          && any_in (lower U line) (DocTypes.form_title_keywords config)
          && negb (any_in (lower U line) (DocTypes.form_avoid_keywords config))
          && negb (endswith line (lit ":"))
          && negb (search re_leading_number line))
       (firstn 20 lines)).

(** The loop over the spans of the first page: [font_sizes] and
    [text_by_font]. *)
Definition font_step (acc : list Q * list (Q * list str)) (span : Span.t)
  : list Q * list (Q * list str) :=
  let '(font_sizes, text_by_font) := acc in
  let text := strip U (Span.text span) in
  if negb (length text =? 0) && (1 <? length text)
  then (font_sizes ++ [Span.size span],
        dict_append text_by_font (Span.size span) text)
  else acc.

Definition _extract_font_based_title (first_page : page_t) : str :=
  let '(font_sizes, text_by_font) :=
    fold_left
      (fun acc (block : block_t) =>
         match block with
         | Some lines =>
             fold_left (fun acc (line : line_t) => fold_left font_step line acc)
               lines acc
         | None => acc
         end)
      first_page ([], []) in
  match font_sizes with
  | [] => []
  | _ =>
      let sorted_fonts :=
        Py.stable_sort (fun a b => Py.Qleb b a) (Py.Qdistinct font_sizes) in
      default []
        (List.find
           (fun text =>
              (15 <? length text) && (length text <? 200)
              && negb (any_in (lower U text) (DocTypes.avoid_general config))
              && negb (search re_constant_name text)
              && negb (2 <? count text (lit "_"))
              && negb (5 <? count text (lit "-")))
           (flat_map (fun font_size => dict_get text_by_font font_size)
              (firstn 3 sorted_fonts)))
  end.

Definition _is_likely_title (text : str) : bool :=
  let text := strip U text in
  if (length text <? 10) || (200 <? length text) then false
  else
    let has_capitals := existsb (isupper_c U) text in
    let has_lowercase := existsb (islower_c U) text in
    let word_count := length (split U text) in
    has_capitals && has_lowercase
    && ((2 <=? word_count) && (word_count <=? 15))
    && negb (existsb (startswith text)
               (List.map lit ["page"; "p."; "section"; "chapter"]%string))
    && negb (3 <? count text (lit "."))
    && negb (2 <? count text (lit "_")).

Definition _is_continuation_line (text : str) : bool :=
  let text := strip U text in
  if (length text <? 5) || (100 <? length text) then false
  else
    negb (existsb isdigit (firstn 3 text))
    && negb (existsb (startswith text)
               (List.map lit ["page"; "p."; "section"]%string))
    && (count text (lit ".") <=? 1).

(** The inner loop of [_extract_generic_title]: the following lines are
    appended while they continue the title. *)
Fixpoint extend_title (full_title : str) (next_lines : list str) : str :=
  match next_lines with
  | [] => full_title
  | line :: next_lines' =>
      let next_line := strip U line in
      if (10 <? length next_line) && (length next_line <? 100)
         && _is_continuation_line next_line
      then extend_title (full_title ++ lit " " ++ next_line) next_lines'
      else full_title
  end.

(** The outer loop, over the first [n] of the lines. *)
Fixpoint generic_title_loop (n : nat) (lines : list str) : str :=
  match n, lines with
  | S n', l :: rest =>
      let line := strip U l in
      if (15 <? length line) && (length line <? 200) && _is_likely_title line
      then
        let full_title := extend_title line (firstn 2 rest) in
        if 30 <? length full_title then full_title
        else generic_title_loop n' rest
      else generic_title_loop n' rest
  | _, _ => []
  end.

Definition _extract_generic_title (lines : list str) : str :=
  generic_title_loop 15 lines.

Definition _extract_fallback_title (lines : list str) : str :=
  default []
    (List.find
       (fun line =>
          (10 <? length line) && (length line <? 150)
          && negb (any_in (lower U line) (DocTypes.avoid_metadata config))
          && negb (5 <? count line (lit "-")))
       (firstn 10 lines)).

(** [strategies.append(title)] when the title is not empty. *)
Definition append_title (strategies : list str) (title : str) : list str :=
  match title with
  | [] => strategies
  | _ => strategies ++ [title]
  end.

Definition extract_title (doc : doc_t) (doc_profile : Profile.t) : result str :=
  match doc with
  | [] => Raise IndexError
  | first_page :: _ =>
      let first_page_text := get_text first_page in
      let lines :=
        List.filter (fun line => negb (length line =? 0))
          (List.map (strip U) (split_on 10%N first_page_text)) in
      let strategies := [] in
      let strategies :=
        if Profile.is_form (Profile.structure doc_profile)
        then append_title strategies (_extract_form_title lines)
        else strategies in
      let strategies :=
        match strategies with
        | [] => append_title strategies (_extract_font_based_title first_page)
        | _ => strategies
        end in
      let strategies :=
        match strategies with
        | [] => append_title strategies (_extract_generic_title lines)
        | _ => strategies
        end in
      let strategies :=
        match strategies with
        | [] => append_title strategies (_extract_fallback_title lines)
        | _ => strategies
        end in
      match strategies with
      | title :: _ =>
          let text_sample := lower U (Profile.text_sample doc_profile) in
          if existsb (contains text_sample) (List.map lit ["party"; "jump"; "event"]%string)
          then Ok []
          else Ok title
      | [] => Ok []
      end
  end.

End WithUnicode.
End TitleExtractor.
(* ===================================================================== *)
(** * performance/performance_monitor.py *)
(* ===================================================================== *)

Module PerformanceMonitor.

(** The dataclass [PerformanceMetrics]. *)
Record PerformanceMetrics := {
  processing_time : Q;
  memory_usage_mb : Q;
  cpu_usage_percent : Q;
  files_processed : nat;
  avg_time_per_file : Q;
  peak_memory_mb : Q
}.

(** What the monitor reads from the clock and from the process, once
    when the context is entered and once when it is left: [time.time()],
    the resident set size in bytes and the user CPU time. *)
Record reading := {
  time : Q;
  rss : Q;
  cpu_user : Q
}.

(** The monitor: its two limits and [metrics_history]. *)
Record t := {
  max_processing_time : Q;
  max_memory_mb : Q;
  metrics_history : list PerformanceMetrics
}.

(** [PerformanceMonitor(max_processing_time, max_memory_mb)] *)
Definition init (max_processing_time max_memory_mb : Q) : t :=
  {| max_processing_time := max_processing_time;
     max_memory_mb := max_memory_mb;
     metrics_history := [] |}.

(** The messages [check_compliance] collects, by kind. *)
Inductive violation :=
| time_exceeded (processing_time limit : Q)
| memory_exceeded (peak_memory_mb limit : Q).

Definition check_compliance (self : t) (metrics : PerformanceMetrics)
  : list violation :=
  let violations := [] in
  let violations :=
    if Py.Qltb (max_processing_time self) (processing_time metrics)
    then violations ++ [time_exceeded (processing_time metrics) (max_processing_time self)]
    else violations in
  let violations :=
    if Py.Qltb (max_memory_mb self) (peak_memory_mb metrics)
    then violations ++ [memory_exceeded (peak_memory_mb metrics) (max_memory_mb self)]
    else violations in
  violations.

(** The [finally] part of [monitor_extraction], run when the context
    is left: the metrics of the run, which are appended to the
    history. *)
Definition metrics_of (start finish : reading) (file_count : Z) : PerformanceMetrics :=
  let start_time := time start in
  let start_memory := (rss start / 1024 / 1024)%Q in
  let end_time := time finish in
  let end_memory := (rss finish / 1024 / 1024)%Q in
  let processing_time := (end_time - start_time)%Q in
  let avg_time_per_file := (processing_time / inject_Z (Z.max 1 file_count))%Q in
  let cpu_usage :=
    ((cpu_user finish - cpu_user start) / Qmax 0.01 processing_time * 100)%Q in
  {| processing_time := processing_time;
     memory_usage_mb := end_memory;
     cpu_usage_percent := cpu_usage;
     files_processed := Z.to_nat file_count;
     avg_time_per_file := avg_time_per_file;
     peak_memory_mb := Qmax start_memory end_memory |}.

Definition monitor_exit (self : t) (start finish : reading) (file_count : Z) : t :=
  let metrics := metrics_of start finish file_count in
  {| max_processing_time := max_processing_time self;
     max_memory_mb := max_memory_mb self;
     metrics_history := metrics_history self ++ [metrics] |}.

(** The dictionary of [get_performance_summary]; the empty dictionary
    is [None]. *)
Record summary := {
  latest_processing_time : Q;
  latest_memory_mb : Q;
  summary_avg_time_per_file : Q;
  summary_cpu_usage_percent : Q;
  summary_files_processed : nat;
  time_compliant : bool;
  memory_compliant : bool
}.

Definition get_performance_summary (self : t) : option summary :=
  match metrics_history self with
  | [] => None
  | m :: history =>
      let latest := List.last history m in
      Some {| latest_processing_time := processing_time latest;
              latest_memory_mb := memory_usage_mb latest;
              summary_avg_time_per_file := avg_time_per_file latest;
              summary_cpu_usage_percent := cpu_usage_percent latest;
              summary_files_processed := files_processed latest;
              time_compliant :=
                Py.Qleb (processing_time latest) (max_processing_time self);
              memory_compliant :=
                Py.Qleb (peak_memory_mb latest) (max_memory_mb self) |}
  end.

End PerformanceMonitor.

(** ** The size optimizer *)

Module SizeOptimizer.
Import PyStr ExtractorConfig.

(** The built-in exception the interpreter raises for a membership test
    or an item assignment on a value that does not support it. *)
Definition TypeError : exn := External (lit "TypeError").

(** [d.update(new)] *)
Definition update (d : dict) (new : list (String.string * value)) : dict :=
  items_of (dict_of new) ∪ d.

(** [optimize_config_for_performance(base_config)]: the dictionary it
    returns.  A section that is present but is not a dictionary makes
    the membership test, the item assignment or the call of [update]
    raise. *)
Definition optimize_config_for_performance (base_config : dict) : result dict :=
  let optimized := base_config in
  optimized ←
    match optimized !! lit "extraction" with
    | None => Ok optimized
    | Some (Atom _) => Raise TypeError
    | Some (Dict extraction) =>
        extraction ←
          match extraction !! lit "clustering" with
          | None => Ok extraction
          | Some (Atom _) => Raise AttributeError
          | Some (Dict clustering) =>
              Ok (<[lit "clustering" :=
                      Dict (update clustering
                              [("max_clusters", int 3); ("n_init", int 3);
                               ("cluster_ratio", int 5)]%string)]> extraction)
          end;
        Ok (<[lit "extraction" :=
                Dict (<[lit "max_workers" := int 6]> extraction)]> optimized)
    end;
  match optimized !! lit "extraction" with
  | None => Ok optimized
  | Some (Atom _) => Raise TypeError
  | Some (Dict extraction) =>
      match extraction !! lit "text_limits" with
      | None => Ok optimized
      | Some (Atom _) => Raise AttributeError
      | Some (Dict text_limits) =>
          Ok (<[lit "extraction" :=
                  Dict (<[lit "text_limits" :=
                            Dict (update text_limits
                                    [("max_simple_heading", int 80);
                                     ("max_complex_heading", int 120);
                                     ("max_form_heading", int 60)]%string)]>
                          extraction)]>
                optimized)
      end
  end.

End SizeOptimizer.

(* ===================================================================== *)
(** * pdf_extractor_modular.py: processing a batch *)
(* ===================================================================== *)

Module ModularPDFExtractor.
Import PyStr.

(** The built-in exception [ThreadPoolExecutor] raises for a number of
    workers that is not positive. *)
Definition ValueError : exn := External (lit "ValueError").

(** What is written to the output file: the result without the keys
    that start with an underscore. *)
Record saved := {
  saved_title : str;
  saved_outline : list Heading.t
}.

Definition save_result (result : PdfExtractor.extraction) : saved :=
  {| saved_title := PdfExtractor.title result;
     saved_outline := PdfExtractor.outline result |}.

(** The dictionary [performance_data]; the empty dictionary is
    [None]. *)
Record performance_data := {
  data_processing_time : Q;
  data_memory_usage_mb : Q;
  data_avg_time_per_file : Q;
  time_compliant : bool;
  memory_compliant : bool;
  speed_compliant : bool
}.

(** [self.config] as the first statements of [__init__] set it: the
    custom configuration merged into the defaults, and optimized when
    performance is monitored. *)
Definition init_config (config : ExtractorConfig.value)
    (enable_performance_monitoring : bool) : result (gmap str ExtractorConfig.value) :=
  self_config ← ExtractorConfig.create_config config;
  if enable_performance_monitoring
  then SizeOptimizer.optimize_config_for_performance self_config
  else Ok self_config.

Section WithCollaborators.
Context {path : Type}.

(** [extract_structure], the writing of the output file for an input
    path, which may fail, and the [print] of the [except] clause, which
    may fail too. *)
Context (extract_structure : path -> result PdfExtractor.extraction).
Context (write_output : path -> saved -> result ()).
Context (print_error : path -> exn -> result ()).

(** [self.performance_monitor], if monitoring is enabled, and the
    readings taken when its context is entered and left; the two
    readings of the clock [process_files] takes itself. *)
Context (start finish : PerformanceMonitor.reading).
Context (start_time end_time : Q).

Definition process_single_file (pdf_path : path) : result bool :=
  try_except
    (result ← extract_structure pdf_path;
     _ ← write_output pdf_path (save_result result);
     Ok true)
    (fun e => _ ← print_error pdf_path e; Ok false).

(** [list(executor.map(f, l))]: the results in the order of the inputs,
    or the first exception in that order. *)
Fixpoint pool_map {A B} (f : A -> result B) (l : list A) : result (list B) :=
  match l with
  | [] => Ok []
  | x :: l' => y ← f x; ys ← pool_map f l'; Ok (y :: ys)
  end.

Definition collect (monitor : PerformanceMonitor.t) : option performance_data :=
  match PerformanceMonitor.metrics_history monitor with
  | [] => None
  | m :: history =>
      let latest_metrics := List.last history m in
      Some {| data_processing_time := PerformanceMonitor.processing_time latest_metrics;
              data_memory_usage_mb := PerformanceMonitor.memory_usage_mb latest_metrics;
              data_avg_time_per_file :=
                PerformanceMonitor.avg_time_per_file latest_metrics;
              time_compliant :=
                Py.Qleb (PerformanceMonitor.processing_time latest_metrics) 30.0;
              memory_compliant :=
                Py.Qleb (PerformanceMonitor.memory_usage_mb latest_metrics) 512.0;
              speed_compliant :=
                Py.Qleb (PerformanceMonitor.avg_time_per_file latest_metrics) 5.0 |}
  end.

(** [process_files(input_paths, output_dir)]: what it returns or
    raises, and the monitor afterwards.  [max_workers] is
    [self.config['extraction']['max_workers']], an integer; the pool
    refuses a number of workers that is not positive.  An exception of
    [process_single_file] leaves [process_files]; the context of the
    monitor is left in the [finally] clause, after the returned values
    have been computed or the exception raised. *)
Definition process_files (max_workers : Z)
    (performance_monitor : option PerformanceMonitor.t)
    (input_paths : list path)
  : result (nat * Q * option performance_data) * option PerformanceMonitor.t :=
  (if (max_workers <=? 0)%Z then Raise ValueError
   else
     results ← pool_map process_single_file input_paths;
     let successful_files := length (List.filter (fun b : bool => b) results) in
     let total_time := (end_time - start_time)%Q in
     let performance_data :=
       match performance_monitor with
       | Some monitor => collect monitor
       | None => None
       end in
     Ok (successful_files, total_time, performance_data),
   match performance_monitor with
   | Some monitor =>
       Some (PerformanceMonitor.monitor_exit monitor start finish
               (Z.of_nat (length input_paths)))
   | None => None
   end).

End WithCollaborators.
End ModularPDFExtractor.

(* ===================================================================== *)
(** * Vocabulary of the statements *)
(* ===================================================================== *)

Import PyStr Re.

(** [matches r prev s prev' s']: [r] matches the text between the
    position [(prev, s)] and the position [(prev', s')]. *)
Inductive matches : re -> option char -> str -> option char -> str -> Prop :=
| M_Eps prev s : matches Eps prev s prev s
| M_Chr (p : char -> bool) prev c s :
    p c = true -> matches (Chr p) prev (c :: s) (Some c) s
| M_Seq a b p0 s0 p1 s1 p2 s2 :
    matches a p0 s0 p1 s1 -> matches b p1 s1 p2 s2 ->
    matches (Seq a b) p0 s0 p2 s2
| M_Alt_l a b p0 s0 p1 s1 :
    matches a p0 s0 p1 s1 -> matches (Alt a b) p0 s0 p1 s1
| M_Alt_r a b p0 s0 p1 s1 :
    matches b p0 s0 p1 s1 -> matches (Alt a b) p0 s0 p1 s1
| M_Star_done a prev s : matches (Star a) prev s prev s
| M_Star_more a p0 s0 p1 s1 p2 s2 :
    matches a p0 s0 p1 s1 -> matches (Star a) p1 s1 p2 s2 ->
    matches (Star a) p0 s0 p2 s2
| M_Bol s : matches Bol None s None s
| M_Eol prev s : at_end s = true -> matches Eol prev s prev s
| M_WordB (w : char -> bool) prev s :
    xorb (is_word_opt w prev) (is_word_opt w (head s)) = true ->
    matches (WordB w) prev s prev s.

(** The loop of the matcher for a star. *)
Definition star_loop (a : re) (k : option char -> str -> bool) :=
  fix loop (n : nat) (prev : option char) (s : str) {struct n} : bool :=
    match n with
    | O => k prev s
    | S n' =>
        go a (fun p' s' => (length s' <? length s) && loop n' p' s') prev s
        || k prev s
    end.

(** A star over a character class, as a plain recursion on the text. *)
Fixpoint star_chr (p : char -> bool) (k : option char -> str -> bool)
    (prev : option char) (s : str) : bool :=
  k prev s ||
  match s with
  | c :: s' => p c && star_chr p k (Some c) s'
  | [] => false
  end.

(** The text after the longest run of characters of a class. *)
Fixpoint skip (p : char -> bool) (s : str) : str :=
  match s with
  | c :: s' => if p c then skip p s' else s
  | [] => []
  end.

(** The text after a leading number and its dot, if the text starts with
    one. *)
Definition after_number (U : UnicodeDB) (s : str) : option str :=
  match s with
  | c :: s' =>
      if isdecimal U c then
        match skip (isdecimal U) s' with
        | c' :: t => if (46 =? c')%N then Some t else None
        | [] => None
        end
      else None
  | [] => None
  end.

(** The character class of the Japanese test of [_detect_text_language]. *)
Definition japanese_class (c : char) : bool :=
  in_range 0x3040 0x309F c || in_range 0x30A0 0x30FF c || in_range 0x4E00 0x9FAF c.

(** [clamp(lo, hi, x)] *)
Definition clamp (lo hi x : Q) : Q := Qmax lo (Qmin hi x).

(** The median of the scores: the middle one of the scores in ascending
    order, the mean of the two middle ones when their number is even. *)
Definition median (scores : list Q) : Q :=
  let sorted_scores := Py.stable_sort Py.Qleb scores in
  let n := length sorted_scores in
  if Nat.even n
  then ((nth (n / 2 - 1) sorted_scores 0 + nth (n / 2) sorted_scores 0) / 2)%Q
  else nth (n / 2) sorted_scores 0%Q.

(** The threshold computed from the median of the scores:
    [clamp(0.3, 0.8, median(scores) * 0.8)], and 0.5 for no scores. *)
Definition median_threshold (scores : list Q) : Q :=
  match scores with
  | [] => 0.5%Q
  | _ => clamp 0.3 0.8 (median scores * 0.8)
  end.

(** The precision estimate of the metrics before it is rounded:
    [min(1.0, 0.8 + 0.2 * (1 - selected_count / total_candidates))] in
    the arithmetic of floats. *)
Definition precision_estimate (selected_count total_candidates : nat) : Q :=
  Qmin 1.0
    (Py.fadd (Py.fl 0.8)
       (Py.fmul (Py.fl 0.2)
          (Py.fsub 1
             (Py.int_truediv (Z.of_nat selected_count)
                (Z.of_nat total_candidates))))).

(** The recall estimate before it is rounded:
    [min(1.0, selected_count / max(1, total_candidates * 0.7))] in the
    arithmetic of floats. *)
Definition recall_estimate (selected_count total_candidates : nat) : Q :=
  let scaled :=
    Py.fmul (Py.float_of_int (Z.of_nat total_candidates)) (Py.fl 0.7) in
  Qmin 1.0
    (if Py.Qltb 1 scaled
     then Py.fdiv (Py.float_of_int (Z.of_nat selected_count)) scaled
     else Py.int_truediv (Z.of_nat selected_count) 1).

(** The F1 estimate before it is rounded. *)
Definition f1_estimate (precision recall : Q) : Q :=
  if Py.Qltb 0 (Py.fadd precision recall)
  then Py.fdiv (Py.fmul 2 (Py.fmul precision recall)) (Py.fadd precision recall)
  else 0.0%Q.

(** The quality boost a candidate carries is not negative. *)
Definition boost_nonneg (c : Heading.t) : Prop :=
  match Heading.quality_boost c with
  | Some b => (0 <= b)%Q
  | None => True
  end.

(** [a] stands immediately before [b] in [l]. *)
Definition adjacent {A} (a b : A) (l : list A) : Prop :=
  exists l1 l2, l = l1 ++ a :: b :: l2.

(** The groups the loop of [_reconstruct_text_blocks] forms from the
    current group and the lines still to come. *)
Fixpoint regroup (config : Config.t) (current_group rest : list LineInfo.t)
  : list (list LineInfo.t) :=
  match rest with
  | [] => [current_group]
  | line :: rest' =>
      if HeadingExtractor.merges config (List.last current_group line) line
      then regroup config (current_group ++ [line]) rest'
      else current_group :: regroup config [line] rest'
  end.

(** The three conditions of the merge test, with the relaxed thresholds
    when both lines are larger than the title font threshold. *)
Definition merge_conditions (config : Config.t)
    (prev_line current_line : LineInfo.t) : Prop :=
  let delta := Qabs (LineInfo.size current_line - LineInfo.size prev_line) in
  let gap := Qabs (LineInfo.y_pos current_line - LineInfo.y_pos prev_line) in
  let both_large :=
    (Config.title_font_threshold config < LineInfo.size current_line)%Q
    /\ (Config.title_font_threshold config < LineInfo.size prev_line)%Q in
  ((both_large ->
      (delta < Config.large_font_tolerance config)%Q
      /\ (gap < Config.large_font_distance config)%Q)
   /\ (~ both_large ->
      (delta < Config.font_size_tolerance config)%Q
      /\ (gap < Config.grouping_distance config)%Q))
  /\ LineInfo.bold current_line = LineInfo.bold prev_line.

(** [stats.get(id, [])] on the dictionary of clusters. *)
Fixpoint dict_lookup {V} (stats : list (Z * list V)) (id : Z) : list V :=
  match stats with
  | [] => []
  | (k, ts) :: stats' => if (k =? id)%Z then ts else dict_lookup stats' id
  end.

(** The members of cluster [id] among labelled items, in their order. *)
Definition members_of {V} (pairs : list (Z * V)) (id : Z) : list V :=
  List.map snd (List.filter (fun p => (fst p =? id)%Z) pairs).

Definition add_pair {V} (stats : list (Z * list V)) (p : Z * V)
  : list (Z * list V) :=
  let '(cluster, t) := p in HeadingExtractor.dict_append stats cluster t.

(** What the clusters [ids] contribute: each one all of its members, if
    its score is at least 5, or none of them. *)
Definition contribution (U : UnicodeDB) (config : Config.t)
    (all_texts : list Frag.t) (clusters : list Z) (ids : list Z) : list Frag.t :=
  flat_map
    (fun id =>
       let texts := members_of (combine clusters all_texts) id in
       if (5 <=? HeadingExtractor.cluster_score U config texts)%Z then texts else [])
    ids.

(** [a] comes no later than [b] in the document: an earlier page, or the
    same page and not lower on it. *)
Definition before_or_at (a b : Frag.t) : Prop :=
  (Frag.page a < Frag.page b)%Z
  \/ (Frag.page a = Frag.page b
      /\ (LevelDeterminer.y_of a <= LevelDeterminer.y_of b)%Q).

(** ** Vocabulary of the component properties *)

(** A word: a non-empty string without white space. *)
Definition is_word (U : UnicodeDB) (w : str) : Prop :=
  w <> [] /\ forallb (fun c => negb (isspace U c)) w = true.

(** The text [filter_candidates] tests: the candidate's text, stripped. *)
Definition tested_text (U : UnicodeDB) (c : Frag.t) : str :=
  strip U (Frag.text c).

(** What every block of page [page_num] (counted from 0) satisfies. *)
Definition block_shape (U : UnicodeDB) (page_num : nat) (f : Frag.t) : Prop :=
  Frag.page f = (Z.of_nat page_num + 1)%Z
  /\ strip U (Frag.text f) = Frag.text f
  /\ 5 < length (Frag.text f)
  /\ Frag.length f = length (Frag.text f).

(** The shape of a heading text the filter lets through: at least eight
    characters, the first one alphanumeric, and no full stop, exclamation
    mark or question mark at the end. *)
Definition heading_text_shape (U : UnicodeDB) (text : str) : Prop :=
  8 <= length text
  /\ (exists c rest, text = c :: rest /\ isalnum_c U c = true)
  /\ Forall (fun p => endswith text p = false) [lit "."; lit "!"; lit "?"].

(** The longest text the document filters accept for a profile; the
    branch of a technical document reads a key that may be missing. *)
Definition profile_max_length (config : Config.t) (profile : doc_profile)
  : option nat :=
  if is_form profile then Some (Config.max_form_heading config)
  else if is_academic profile then Some (Config.max_academic_heading config)
  else if is_technical profile then Config.max_technical_heading config
  else Some (Config.max_simple_heading config).

(** The key [_deduplicate_candidates] compares candidates by. *)
Definition text_key (U : UnicodeDB) (c : Heading.t) : str :=
  lower U (strip U (Heading.text c)).

(** An outline entry without the keys [size] and [bold], as
    [build_hierarchy] writes it, and whose quality boost, if it has one,
    is one the multilingual pass gives (between 0 and 0.5). *)
Definition plain_entry (h : Heading.t) : Prop :=
  Heading.size h = None /\ Heading.bold h = None
  /\ match Heading.quality_boost h with
     | Some b => (0 <= b)%Q /\ (b <= 0.5)%Q
     | None => True
     end.

(** The candidates the scoring pass receives. *)
Definition scored_of (U : UnicodeDB) (raw : list Heading.t) : list Heading.t :=
  AccuracyEnhancer._apply_multilingual_enhancement U
    (AccuracyEnhancer._apply_recall_enhancement U
       (AccuracyEnhancer._apply_precision_filters U raw)).

(** The value at the end of a path of keys. *)
Fixpoint lookup_path (config : ExtractorConfig.dict) (path : list String.string)
  : option ExtractorConfig.value :=
  match path with
  | [] => None
  | [key] => config !! lit key
  | key :: path' =>
      match config !! lit key with
      | Some (ExtractorConfig.Dict items) => lookup_path items path'
      | _ => None
      end
  end.

(** The nesting depth of a configuration value. *)
Fixpoint depth (v : ExtractorConfig.value) : nat :=
  match v with
  | ExtractorConfig.Atom _ => 0
  | ExtractorConfig.Dict items => S (map_fold (fun _ v acc => Nat.max (depth v) acc) 0 items)
  end.

(** The dictionary a merge returns, the default where it raises. *)
Definition merged_config (default_config : gmap str ExtractorConfig.value)
    (custom_config : ExtractorConfig.value) : gmap str ExtractorConfig.value :=
  match ExtractorConfig.merge_configs default_config custom_config with
  | Ok merged => merged
  | Raise _ => default_config
  end.

(** What the merge leaves under a key, given the value of the default
    and the value of the custom configuration there. *)
Definition merged_value (under_default custom : option ExtractorConfig.value)
  : option ExtractorConfig.value :=
  match custom with
  | None => under_default
  | Some (ExtractorConfig.Dict c) =>
      match under_default with
      | Some (ExtractorConfig.Dict m) =>
          Some (ExtractorConfig.Dict (merged_config m (ExtractorConfig.Dict c)))
      | _ => Some (ExtractorConfig.Dict c)
      end
  | Some (ExtractorConfig.Atom a) => Some (ExtractorConfig.Atom a)
  end.

(** The settings [optimize_config_for_performance] writes. *)
Definition clustering_overrides : list (String.string * ExtractorConfig.value) :=
  [("max_clusters", ExtractorConfig.int 3); ("n_init", ExtractorConfig.int 3);
   ("cluster_ratio", ExtractorConfig.int 5)]%string.

Definition text_limits_overrides : list (String.string * ExtractorConfig.value) :=
  [("max_simple_heading", ExtractorConfig.int 80);
   ("max_complex_heading", ExtractorConfig.int 120);
   ("max_form_heading", ExtractorConfig.int 60)]%string.

(** A section before and after the optimizer: absent and still absent,
    or a dictionary and the same dictionary updated. *)
Definition section_updated (before after : option ExtractorConfig.value)
    (overrides : list (String.string * ExtractorConfig.value)) : Prop :=
  match before with
  | None => after = None
  | Some (ExtractorConfig.Atom _) => False
  | Some (ExtractorConfig.Dict d) =>
      after = Some (ExtractorConfig.Dict (SizeOptimizer.update d overrides))
  end.

(** The stripped texts of the spans of a page that are not blank, in
    reading order. *)
Definition page_span_texts (U : UnicodeDB) (page : page_t) : list str :=
  flat_map
    (fun block : block_t =>
       match block with
       | Some lines =>
           flat_map
             (fun line : line_t =>
                List.filter (fun text => negb (length text =? 0))
                  (List.map (fun span => strip U (Span.text span)) line))
             lines
       | None => []
       end)
    page.

(** The sum of the counts of a dictionary of counts. *)
Definition total_count {K} (stats : list (K * nat)) : nat :=
  list_sum (List.map snd stats).

(** What a loop of the analyzer keeps of the counts: the keys stay
    distinct and the total grows by the characters of [texts]. *)
Definition counts_grow (before after : list (Profile.font_key * nat))
    (texts : list str) : Prop :=
  (List.NoDup (List.map fst before) -> List.NoDup (List.map fst after))
  /\ total_count after = total_count before + list_sum (List.map (@length char) texts).

(** ** Sample inputs *)

Definition frag_of (text : String.string) (page : Z) (y : Q) : Frag.t :=
  Frag.mk (lit text) 14 true page (length (lit text)) (Some (72, y, 300, y + 20)%Q).

Definition frag_overview : Frag.t := frag_of "Project Overview" 1 100.
Definition frag_methods : Frag.t := frag_of "2. Methods" 2 100.

Definition generic_profile : doc_profile :=
  {| is_form := false; is_academic := false; is_technical := false |}.

Definition sample_candidates : list Frag.t :=
  [frag_of "1. Introduction" 1 100; frag_of "Name:" 1 120;
   frag_of "  1. Introduction " 1 140; frag_overview;
   frag_of "However, this is body text" 2 10; frag_of "Overview Project" 2 50;
   frag_of "Page 12" 2 700; frag_of "Results and Discussion" 3 50].

Definition sample_filtered : list Frag.t :=
  [frag_of "1. Introduction" 1 100; frag_overview;
   frag_of "Results and Discussion" 3 50].

Definition line_of (text : String.string) (size : Q) (bold : bool) (y : Q)
  : LineInfo.t :=
  LineInfo.mk (lit text) size bold (Some (72, y, 300, y + size)%Q) y.

Definition span_line (text : String.string) (size : Q) (flags : Z) (y : Q) : line_t :=
  [Span.mk (lit text) size flags (72, y, 300, y + size)%Q].

(** A page of three headings, each followed by a line of body text far
    enough below not to be merged. *)
Definition six_line_doc : doc_t :=
  [[Some [span_line "1. Introduction" 16 16 100;
          span_line "This is body text of the first section" 11 0 200;
          span_line "2. Methods" 16 16 300;
          span_line "More body text follows in this part" 11 0 400;
          span_line "3. Results" 16 16 500;
          span_line "Final body text of the document" 11 0 600]]].

Definition identity_scaler (features : list (list Q)) : result (list (list Q)) :=
  Ok features.

Definition alternating_labels (n_clusters random_state n_init : Z)
    (features : list (list Q)) : result (list Z) :=
  Ok (List.map (fun i => Z.of_nat (i mod 2)) (List.seq 0 (length features))).

Definition six_line_texts : list Frag.t :=
  Eval vm_compute in
    match HeadingExtractor.all_texts_from ascii_db
            (Config.get_default_config ascii_db) 0 six_line_doc with
    | Ok l => l
    | Raise _ => []
    end.

(** A page with the heading "1. Introduction" (16 points, bold) and a
    line of body text below it. *)
Definition introduction_doc : doc_t :=
  [[Some [span_line "1. Introduction" 16 16 100;
          span_line "This is the body text that follows the heading." 11 0 200]]].

Definition form_profile : doc_profile :=
  {| is_form := true; is_academic := false; is_technical := false |}.

Definition technical_profile : doc_profile :=
  {| is_form := false; is_academic := false; is_technical := true |}.

Definition boosted_heading : Heading.t :=
  Heading.mk H1 [0x7b2c; 49; 0x7ae0; 32; 0x6982; 0x8981]%N 0 None None
    (Some japanese) (Some 0.5%Q).

(** The outline [extract_headings] gives for [six_line_doc]. *)
Definition six_line_outline : list Heading.t :=
  Eval vm_compute in
    match HeadingExtractor.extract_headings ascii_db
            (Config.get_default_config ascii_db) identity_scaler
            alternating_labels six_line_doc generic_profile with
    | Ok outline => outline
    | Raise _ => []
    end.

(** Outline entries as [build_hierarchy] writes them: a heading with a
    section word on the first page, a numbered heading on the second and
    a heading with neither on the fifth. *)
Definition frag_budget : Frag.t := frag_of "Quarterly Budget Planning" 5 50.

Definition plain_outline : list Heading.t :=
  LevelDeterminer.build_hierarchy ascii_db [frag_overview; frag_methods; frag_budget].

Definition heading_methods : Heading.t :=
  Heading.mk H1 (lit "2. Methods") 1 None None None None.

Definition heading_budget : Heading.t :=
  Heading.mk H1 (lit "Quarterly Budget Planning") 4 None None None None.

(** A line of body text of 55 characters in a regular face. *)
Definition frag_long_plain : Frag.t :=
  let text := lit "This line of plain text runs well past fifty characters" in
  Frag.mk text 11 false 1 (length text) None.

(** A custom configuration that asks for two workers and eight
    clusters, what [create_config] makes of it and what the optimizer
    returns for that. *)
Definition custom_workers : ExtractorConfig.value :=
  ExtractorConfig.dict_of
    [("extraction",
      ExtractorConfig.dict_of
        [("max_workers", ExtractorConfig.int 2);
         ("clustering",
          ExtractorConfig.dict_of [("max_clusters", ExtractorConfig.int 8)])])]%string.

Definition custom_workers_config : gmap str ExtractorConfig.value :=
  match ExtractorConfig.create_config custom_workers with
  | Ok config => config
  | Raise _ => ∅
  end.

Definition custom_workers_optimized : gmap str ExtractorConfig.value :=
  match ModularPDFExtractor.init_config custom_workers true with
  | Ok optimized => optimized
  | Raise _ => ∅
  end.

(** The profile of an invitation, and a first page whose text is one
    line. *)
Definition party_profile : Profile.t :=
  {| Profile.text_sample := lit "You are invited to a Birthday Party";
     Profile.font_stats := [];
     Profile.structure :=
       {| Profile.is_form := false; Profile.is_academic := false;
          Profile.is_technical := false; Profile.has_toc := false;
          Profile.has_numbered_sections := false;
          Profile.avg_text_per_page := 35; Profile.font_variety := 0 |};
     Profile.page_count := 1 |}.

Definition one_line_text (page : page_t) : str :=
  lit "You are invited to a Birthday Party".

(** Two outline entries of the first page, and the second of them with
    a negative quality boost. *)
Definition heading_overview : Heading.t :=
  Heading.mk H1 (lit "Project Overview") 0 None None None None.

Definition heading_introduction : Heading.t :=
  Heading.mk H1 (lit "1. Introduction") 0 None None None None.

Definition debited_heading : Heading.t :=
  Heading.mk H1 (lit "1. Introduction") 0 None None None (Some (-100)%Q).

(** A directory of files none of which can be opened, and a standard
    output that encodes UTF-8 with the error handler [strict]: it
    refuses a lone surrogate, which is what decoding a file name that is
    not UTF-8 leaves in a path. *)
Definition unreadable_file (pdf_path : str) : result doc_t :=
  Raise (External (lit "FileDataError")).

Definition is_surrogate (c : char) : bool := in_range 0xD800 0xDFFF c.

Definition strict_utf8_print (pdf_path : str) (e : exn) : result () :=
  if existsb is_surrogate pdf_path
  then Raise (External (lit "UnicodeEncodeError"))
  else Ok ().

Definition surrogate_path : str := lit "report-" ++ [0xDCE9%N] ++ lit ".pdf".

(** What [extract_structure] returns for [six_line_doc]. *)
Definition six_line_structure : PdfExtractor.extraction :=
  Eval vm_compute in
    match
      PdfExtractor.extract_structure ascii_db (Config.get_default_config ascii_db)
        identity_scaler alternating_labels
        (fun doc : doc_t => Ok doc) (fun _ => Ok ()) (fun _ => Ok generic_profile)
        (fun _ _ => Ok []) (fun _ _ => Ok ()) true None six_line_doc
    with
    | Ok r => r
    | Raise _ => PdfExtractor.empty_extraction
    end.

(* ===================================================================== *)
(** * Properties *)
(* ===================================================================== *)

(** ** The matcher and the relation it decides *)

Lemma go_Star a k prev s : go (Star a) k prev s = star_loop a k (length s) prev s.
Proof. reflexivity. Qed.

Lemma star_loop_sound (a : re) (k : option char -> str -> bool) :
  (forall k' prev s, go a k' prev s = true ->
     exists p' s', matches a prev s p' s' /\ k' p' s' = true) ->
  forall n prev s, star_loop a k n prev s = true ->
    exists p' s', matches (Star a) prev s p' s' /\ k p' s' = true.
Proof.
  intros IHa. induction n as [|n IH]; intros prev s H; cbn [star_loop] in H.
  - exists prev, s. split; [constructor|exact H].
  - apply orb_true_iff in H as [H|H].
    + apply IHa in H as (p1 & s1 & Ha & H).
      apply andb_true_iff in H as [_ H].
      apply IH in H as (p2 & s2 & Hs & Hk).
      exists p2, s2. split; [|exact Hk]. econstructor; eassumption.
    + exists prev, s. split; [constructor|exact H].
Qed.

Lemma go_sound (r : re) :
  forall k prev s, go r k prev s = true ->
    exists p' s', matches r prev s p' s' /\ k p' s' = true.
Proof.
  induction r as [|p|a IHa b IHb|a IHa b IHb|a IHa| | |w]; intros k prev s H.
  - exists prev, s. split; [constructor|exact H].
  - cbn [go] in H. destruct s as [|c s]; [discriminate|].
    apply andb_true_iff in H as [Hc H]. exists (Some c), s. split; [now constructor|exact H].
  - cbn [go] in H. apply IHa in H as (p1 & s1 & Ha & H).
    apply IHb in H as (p2 & s2 & Hb & H).
    exists p2, s2. split; [econstructor; eassumption|exact H].
  - cbn [go] in H. apply orb_true_iff in H as [H|H].
    + apply IHa in H as (p1 & s1 & Ha & H). exists p1, s1. split; [now apply M_Alt_l|exact H].
    + apply IHb in H as (p1 & s1 & Hb & H). exists p1, s1. split; [now apply M_Alt_r|exact H].
  - rewrite go_Star in H. eapply star_loop_sound; eassumption.
  - cbn [go] in H. destruct prev; [discriminate|].
    exists None, s. split; [constructor|exact H].
  - cbn [go] in H. apply andb_true_iff in H as [He H].
    exists prev, s. split; [now constructor|exact H].
  - cbn [go] in H. apply andb_true_iff in H as [Hx H].
    exists prev, s. split; [now constructor|exact H].
Qed.

(** A match ends inside the text it started in, and one that consumes
    nothing leaves the position as it was. *)
Lemma matches_suffix r p0 s0 p1 s1 :
  matches r p0 s0 p1 s1 ->
  length s1 <= length s0 /\ (length s1 = length s0 -> p1 = p0 /\ s1 = s0).
Proof.
  induction 1; cbn [length];
    repeat match goal with H : _ /\ _ |- _ => destruct H end;
    (split; [lia|]); intros E; auto; try lia.
  all: repeat match goal with
         | H : length ?x = length ?y -> _ |- _ =>
             let Hx := fresh in
             assert (Hx : length x = length y) by lia;
             specialize (H Hx); destruct H as [? ?]; clear Hx
         end; split; congruence.
Qed.

Lemma star_loop_mono (a : re) (k1 k2 : option char -> str -> bool) :
  (forall (k k' : option char -> str -> bool),
     (forall p s, k p s = true -> k' p s = true) ->
     forall p s, go a k p s = true -> go a k' p s = true) ->
  (forall p s, k1 p s = true -> k2 p s = true) ->
  forall n m p s, n <= m ->
    star_loop a k1 n p s = true -> star_loop a k2 m p s = true.
Proof.
  intros Ha Hk. induction n as [|n IH]; intros m p s Hnm H; cbn [star_loop] in H.
  - destruct m; cbn [star_loop]; [auto|]. apply orb_true_iff. right. auto.
  - destruct m as [|m]; [lia|]. cbn [star_loop].
    apply orb_true_iff in H as [H|H]; apply orb_true_iff; [left|right; auto].
    revert H. apply Ha. intros p' s' H.
    apply andb_true_iff in H as [Hl H]. apply andb_true_iff. split; [exact Hl|].
    apply IH; [lia|exact H].
Qed.

Lemma go_mono (r : re) :
  forall (k k' : option char -> str -> bool),
    (forall p s, k p s = true -> k' p s = true) ->
    forall p s, go r k p s = true -> go r k' p s = true.
Proof.
  induction r as [|c|a IHa b IHb|a IHa b IHb|a IHa| | |w]; intros k k' Hk p s H;
    cbn [go] in *.
  - auto.
  - destruct s; [discriminate|]. apply andb_true_iff in H as [Hc H].
    apply andb_true_iff. auto.
  - revert H. apply IHa. intros p1 s1. apply IHb. exact Hk.
  - apply orb_true_iff in H as [H|H]; apply orb_true_iff; eauto.
  - change (star_loop a k (length s) p s = true) in H.
    change (star_loop a k' (length s) p s = true).
    eapply star_loop_mono; eauto.
  - destruct p; auto.
  - apply andb_true_iff in H as [He H]. apply andb_true_iff. auto.
  - apply andb_true_iff in H as [He H]. apply andb_true_iff. auto.
Qed.

Lemma go_complete r p0 s0 p1 s1 :
  matches r p0 s0 p1 s1 ->
  forall k, k p1 s1 = true -> go r k p0 s0 = true.
Proof.
  intros Hm. induction Hm; intros k Hk; cbn [go].
  - exact Hk.
  - match goal with H : _ = true |- _ => now rewrite H, Hk end.
  - apply IHHm1. apply IHHm2. exact Hk.
  - apply orb_true_iff. left. now apply IHHm.
  - apply orb_true_iff. right. now apply IHHm.
  - change (star_loop a k (length s) prev s = true).
    destruct (length s); cbn [star_loop]; [exact Hk|].
    apply orb_true_iff. now right.
  - change (star_loop a k (length s0) p0 s0 = true).
    destruct (matches_suffix _ _ _ _ _ Hm1) as [Hle Heq].
    destruct (Nat.eq_dec (length s1) (length s0)) as [E|E].
    + destruct (Heq E) as [-> ->]. exact (IHHm2 k Hk).
    + specialize (IHHm2 k Hk).
      change (star_loop a k (length s1) p1 s1 = true) in IHHm2.
      destruct (length s0) as [|n] eqn:En;
        [exfalso; apply E; now apply Nat.le_0_r in Hle|]. cbn [star_loop].
      assert (Hlt : length s1 < S n) by (apply Nat.le_neq; split; assumption).
      apply orb_true_iff. left. apply IHHm1.
      apply andb_true_iff. split.
      * apply Nat.ltb_lt. rewrite En. exact Hlt.
      * eapply (star_loop_mono a k k (go_mono a) (fun _ _ H => H));
          [|exact IHHm2].
        exact (proj1 (Nat.lt_succ_r _ _) Hlt).
  - exact Hk.
  - match goal with H : _ = true |- _ => now rewrite H, Hk end.
  - match goal with H : _ = true |- _ => now rewrite H, Hk end.
Qed.

(** The matcher decides the relation. *)
Theorem go_matches (r : re) (k : option char -> str -> bool) prev s :
  go r k prev s = true <->
  exists p' s', matches r prev s p' s' /\ k p' s' = true.
Proof.
  split; [apply go_sound|].
  intros (p' & s' & Hm & Hk). eapply go_complete; eassumption.
Qed.

(** ** The matcher on the shapes the patterns are built from *)

Section Matcher.

Lemma search_from_Chr (p : char -> bool) (prev : option char) (s : str) :
  search_from (Chr p) prev s = existsb p s.
Proof.
  revert prev. induction s as [|c s IH]; intros prev; simpl.
  - reflexivity.
  - rewrite IH. unfold accept. now rewrite andb_true_r.
Qed.

Lemma search_Chr (p : char -> bool) (s : str) :
  search (Chr p) s = existsb p s.
Proof. apply search_from_Chr. Qed.

Lemma go_Star_Chr p k prev s :
  go (Star (Chr p)) k prev s = star_chr p k prev s.
Proof.
  cbn [go].
  generalize (Nat.le_refl (length s)).
  generalize (length s) at 2 3 as n.
  intros n. revert prev s. induction n as [|n IH]; intros prev s Hn.
  - destruct s; simpl in *; [now rewrite orb_false_r | lia].
  - destruct s as [|c s]; simpl.
    + now rewrite orb_false_r.
    + rewrite (orb_comm _ (k prev (c :: s))). f_equal. f_equal.
      assert ((length s <? S (length s)) = true) as -> by (apply Nat.ltb_lt; lia).
      simpl. apply IH. simpl in Hn. lia.
Qed.

Lemma go_Plus_Chr p k prev s :
  go (Plus (Chr p)) k prev s =
  match s with
  | c :: s' => p c && star_chr p k (Some c) s'
  | [] => false
  end.
Proof.
  unfold Plus. cbn [go]. destruct s as [|c s]; [reflexivity|].
  f_equal. apply go_Star_Chr.
Qed.

End Matcher.

(** ** Stable sorting *)

Section SortFacts.
Context {A : Type} (le : A -> A -> bool).

Lemma insert_sorted_perm (x : A) (l : list A) :
  Permutation (x :: l) (Py.insert_sorted le x l).
Proof.
  induction l as [|y l IH]; simpl.
  - reflexivity.
  - destruct (le x y).
    + reflexivity.
    + rewrite perm_swap. now constructor.
Qed.

Lemma stable_sort_perm (l : list A) : Permutation l (Py.stable_sort le l).
Proof.
  induction l as [|x l IH]; simpl.
  - constructor.
  - rewrite <- insert_sorted_perm. now constructor.
Qed.

Lemma stable_sort_length (l : list A) : length (Py.stable_sort le l) = length l.
Proof. symmetry. apply Permutation_length, stable_sort_perm. Qed.

Hypothesis le_total : forall x y, le x y = false -> le y x = true.

Lemma insert_sorted_HdRel (a x : A) (l : list A) :
  le a x = true -> HdRel (fun u v => le u v = true) a l ->
  HdRel (fun u v => le u v = true) a (Py.insert_sorted le x l).
Proof.
  intros Hax Hl. destruct l as [|y l]; simpl.
  - now constructor.
  - destruct (le x y); constructor; [assumption|].
    now inversion Hl.
Qed.

Lemma insert_sorted_Sorted (x : A) (l : list A) :
  Sorted (fun u v => le u v = true) l ->
  Sorted (fun u v => le u v = true) (Py.insert_sorted le x l).
Proof.
  induction 1 as [|y l Hs IH Hhd]; simpl.
  - repeat constructor.
  - destruct (le x y) eqn:E.
    + constructor; [now constructor | now constructor].
    + constructor; [assumption|].
      apply insert_sorted_HdRel; [now apply le_total | assumption].
Qed.

Lemma stable_sort_Sorted (l : list A) :
  Sorted (fun u v => le u v = true) (Py.stable_sort le l).
Proof.
  induction l as [|x l IH]; simpl.
  - constructor.
  - now apply insert_sorted_Sorted.
Qed.

Hypothesis le_trans : forall x y z, le x y = true -> le y z = true -> le x z = true.

Lemma stable_sort_StronglySorted (l : list A) :
  StronglySorted (fun u v => le u v = true) (Py.stable_sort le l).
Proof.
  apply Sorted_StronglySorted; [|apply stable_sort_Sorted].
  intros x y z. apply le_trans.
Qed.

End SortFacts.

(** A filter keeps a sorted list sorted. *)
Lemma StronglySorted_filter {A} (R : A -> A -> Prop) (f : A -> bool) (l : list A) :
  StronglySorted R l -> StronglySorted R (List.filter f l).
Proof.
  induction 1 as [|x l Hs IH Hall]; simpl.
  - constructor.
  - destruct (f x); [|assumption].
    constructor; [assumption|].
    rewrite List.Forall_forall in Hall |- *. intros y Hy.
    apply Hall. apply filter_In in Hy. tauto.
Qed.

(** ** Facts on rationals as floats *)

Lemma Qleb_true a b : Py.Qleb a b = true <-> (a <= b)%Q.
Proof. apply Qle_bool_iff. Qed.

Lemma Qltb_true a b : Py.Qltb a b = true <-> (a < b)%Q.
Proof.
  unfold Py.Qltb. destruct (Qle_bool b a) eqn:E; simpl.
  - apply Qle_bool_iff in E. split; [discriminate|].
    intros H. exfalso. exact (Qlt_not_le _ _ H E).
  - split; [intros _|reflexivity].
    apply Qnot_le_lt. intros H. apply Qle_bool_iff in H. congruence.
Qed.

Lemma Qltb_false a b : Py.Qltb a b = false <-> (b <= a)%Q.
Proof.
  unfold Py.Qltb. rewrite negb_false_iff. apply Qle_bool_iff.
Qed.

Lemma Qleb_false a b : Py.Qleb a b = false <-> (b < a)%Q.
Proof.
  rewrite <- Qltb_true. unfold Py.Qltb, Py.Qleb.
  now destruct (Qle_bool a b).
Qed.

Lemma Qleb_total a b : Py.Qleb a b = false -> Py.Qleb b a = true.
Proof. rewrite Qleb_false, Qleb_true. apply Qlt_le_weak. Qed.

Lemma Qleb_trans a b c : Py.Qleb a b = true -> Py.Qleb b c = true -> Py.Qleb a c = true.
Proof. rewrite !Qleb_true. apply Qle_trans. Qed.

Section Language.
Context (U : UnicodeDB).
Import AccuracyEnhancer.

(** C10. The Japanese test runs first and its class contains the
    ideographs U+4E00 to U+9FAF: a text with any character of the three
    Japanese ranges is labelled [japanese], and a text is labelled
    [chinese] exactly when it has no character of those ranges and has
    one in U+9FB0 to U+9FFF. *)
Theorem detect_language_japanese_shadows_chinese (text : str) :
  ((exists c, In c text /\ japanese_class c = true) ->
   _detect_text_language U text = japanese)
  /\ (_detect_text_language U text = chinese <->
      (forall c, In c text -> japanese_class c = false)
      /\ (exists c, In c text /\ in_range 0x9FB0 0x9FFF c = true)).
Proof.
  unfold _detect_text_language, re_japanese, re_chinese, re_korean, re_arabic,
    re_european.
  rewrite !search_Chr. fold japanese_class.
  destruct (existsb japanese_class text) eqn:Ej.
  - split; [reflexivity|]. split; [discriminate|].
    intros [Hno _]. apply existsb_exists in Ej as (c & Hc & Hj).
    rewrite (Hno c Hc) in Hj. discriminate.
  - assert (Hno : forall c, In c text -> japanese_class c = false).
    { intros c Hc. destruct (japanese_class c) eqn:E; [|reflexivity].
      assert (existsb japanese_class text = true) by (apply existsb_exists; eauto).
      congruence. }
    split.
    + intros (c & Hc & Hj). rewrite (Hno c Hc) in Hj. discriminate.
    + destruct (existsb (in_range 0x4E00 0x9FFF) text) eqn:Ec.
      * split; [intros _|reflexivity]. split; [exact Hno|].
        apply existsb_exists in Ec as (c & Hc & Hr). exists c. split; [exact Hc|].
        specialize (Hno c Hc). unfold japanese_class, in_range in *.
        apply orb_false_iff in Hno as [_ Hno].
        apply andb_true_iff in Hr as [H1 H2].
        rewrite H1 in Hno. simpl in Hno.
        apply N.leb_le in H1, H2. apply N.leb_gt in Hno.
        apply andb_true_iff. split; apply N.leb_le; lia.
      * split.
        -- intros H. exfalso. revert H.
           repeat match goal with
             | |- context [if ?b then _ else _] => destruct b
             end; discriminate.
        -- intros [_ (c & Hc & Hr)]. exfalso.
           assert (existsb (in_range 0x4E00 0x9FFF) text = true); [|congruence].
           apply existsb_exists. exists c. split; [exact Hc|].
           unfold in_range in *. apply andb_true_iff in Hr as [H1 H2].
           apply N.leb_le in H1, H2.
           apply andb_true_iff. split; apply N.leb_le; lia.
Qed.

End Language.

Section Structural.
Context (U : UnicodeDB).
Import LevelDeterminer.

(** C1. The text "I. Introduction", the example the source gives for the
    roman-numeral pattern, matches that pattern and the lettered pattern
    before it, and [_get_structural_level] answers H2, not H1: the five
    patterns are not mutually exclusive and the order decides. *)
Theorem structural_level_roman_numeral_shadowed :
  match_ (re_roman U) (lit "I. Introduction") = true
  /\ match_ (re_lettered U) (lit "I. Introduction") = true
  /\ _get_structural_level U (lit "I. Introduction") = Some H2.
Proof. repeat split; vm_compute; reflexivity. Qed.

End Structural.

Section TopLevel.
Import PdfExtractor.
Context (U : UnicodeDB) (config : Config.t).
Context (fit_transform : list (list Q) -> result (list (list Q))).
Context (fit_predict : Z -> Z -> Z -> list (list Q) -> result (list Z)).
Context {path : Type}.
Context (fitz_open : path -> result doc_t).
Context (doc_close : doc_t -> result ()).
Context (analyze_document : doc_t -> result doc_profile).
Context (extract_title : doc_t -> doc_profile -> result str).
Context (print_error : path -> exn -> result ()).
Context (enable_accuracy_enhancement : bool).
Context (layoutlmv3_enhancer : option layoutlmv3).


(** The outline of a successful extraction is what the accuracy stage
    makes of the raw headings, and without the multimodal enhancer the raw
    headings are the hierarchy built from the filtered candidates. *)
Lemma extract_body_outline (pdf_path : path) (r : extraction) :
  extract_body U config fit_transform fit_predict fitz_open doc_close
    analyze_document extract_title enable_accuracy_enhancement
    layoutlmv3_enhancer pdf_path = Ok r ->
  exists raw_headings,
    outline r = (accuracy_stage U enable_accuracy_enhancement raw_headings).1
    /\ (layoutlmv3_enhancer = None ->
        exists filtered_candidates,
          raw_headings = LevelDeterminer.build_hierarchy U filtered_candidates).
Proof.
  unfold extract_body.
  destruct (fitz_open pdf_path) as [doc|]; cbn [mbind result_bind]; [|discriminate].
  destruct (analyze_document doc) as [prof|]; cbn [mbind result_bind]; [|discriminate].
  destruct layoutlmv3_enhancer as [enhancer|].
  - destruct (enhance_document_analysis enhancer doc prof) as [prof'|];
      cbn [mbind result_bind]; [|discriminate].
    destruct (extract_title doc prof') as [title|]; cbn [mbind result_bind];
      [|discriminate].
    destruct (HeadingExtractor.extract_headings _ _ _ _ _ _) as [raw|];
      cbn [mbind result_bind]; [|discriminate].
    destruct (enhance_heading_detection enhancer raw doc prof') as [raw'|];
      cbn [mbind result_bind]; [|discriminate].
    destruct (doc_close doc); cbn [mbind result_bind]; [|discriminate].
    intros [= <-]. exists raw'. split; [reflexivity|discriminate].
  - cbn [mbind result_bind].
    destruct (extract_title doc prof) as [title|]; cbn [mbind result_bind];
      [|discriminate].
    unfold HeadingExtractor.extract_headings.
    destruct (HeadingExtractor._get_ml_heading_candidates _ _ _ _ _) as [cands|];
      cbn [mbind result_bind]; [|discriminate].
    destruct (HeadingExtractor._apply_filtering _ _ _ _) as [filtered|];
      cbn [mbind result_bind]; [|discriminate].
    destruct (doc_close doc); cbn [mbind result_bind]; [|discriminate].
    intros [= <-]. eexists. split; [reflexivity|]. intros _. eexists. reflexivity.
Qed.

End TopLevel.

(** ** Rounding *)

Lemma round_half_even_between (x : Q) :
  (Qfloor x <= Py.round_half_even x <= Qfloor x + 1)%Z.
Proof.
  unfold Py.round_half_even.
  repeat match goal with |- context [if ?b then _ else _] => destruct b end; lia.
Qed.

Lemma round_half_even_bounds (lo hi : Z) (x : Q) :
  (inject_Z lo <= x)%Q -> (x <= inject_Z hi)%Q ->
  (lo <= Py.round_half_even x <= hi)%Z.
Proof.
  intros Hlo Hhi.
  pose proof (round_half_even_between x) as [Hf Hc].
  split.
  - apply Qfloor_resp_le in Hlo. rewrite Qfloor_Z in Hlo. lia.
  - destruct (Qlt_le_dec x (inject_Z hi)) as [Hlt|Hge].
    + assert (Qfloor x < hi)%Z; [|lia].
      rewrite Zlt_Qlt. eapply Qle_lt_trans; [apply Qfloor_le|exact Hlt].
    + assert (Hx : (x == inject_Z hi)%Q) by (apply Qle_antisym; assumption).
      unfold Py.round_half_even.
      assert (Hfl : Qfloor x = hi) by (rewrite Hx; apply Qfloor_Z).
      rewrite Hfl.
      assert (Hr : Py.Qltb (x - inject_Z hi) (1 # 2) = true).
      { apply Qltb_true. rewrite Hx. lra. }
      rewrite Hr. lia.
Qed.

(** ** Doubles *)

Lemma pow2_pos (e : Z) : (0 < 2 ^ e)%Q.
Proof. apply Qpower_0_lt. reflexivity. Qed.

Lemma pow2_succ (e : Z) : (2 ^ (e + 1) == 2 * 2 ^ e)%Q.
Proof. rewrite Qpower_plus by discriminate. change (2 ^ 1)%Q with 2%Q. ring. Qed.

Lemma pow2_le (a b : Z) : (a <= b)%Z -> (2 ^ a <= 2 ^ b)%Q.
Proof. intros H. apply Qpower_le_compat_l; [exact H|]. unfold Qle; simpl; lia. Qed.

Lemma pow2_lt_inv (a b : Z) : (2 ^ a < 2 ^ b)%Q -> (a < b)%Z.
Proof.
  intros H. destruct (Z_lt_le_dec a b) as [Hlt|Hge]; [exact Hlt|].
  apply pow2_le in Hge. exfalso. apply (Qlt_not_le _ _ H Hge).
Qed.

Lemma Zpow2_Q (a : Z) : (0 <= a)%Z -> (inject_Z (2 ^ a) == 2 ^ a)%Q.
Proof. intros H. apply (Zpower_Qpower 2 a H). Qed.

Lemma Qabs_num_den (x : Q) :
  (Qabs x * inject_Z (Zpos (Qden x)) == inject_Z (Z.abs (Qnum x)))%Q.
Proof.
  destruct x as [n d]. unfold Qabs, Qeq, Qmult, inject_Z. simpl. lia.
Qed.

Lemma ilog2_spec (x : Q) :
  ~ (x == 0)%Q ->
  (2 ^ Py.ilog2 x <= Qabs x)%Q /\ (Qabs x < 2 ^ (Py.ilog2 x + 1))%Q.
Proof.
  intros Hx.
  assert (Habs : (0 < Qabs x)%Q).
  { destruct x as [xn xd]. unfold Qeq in Hx. unfold Qlt, Qabs. simpl in *. lia. }
  set (n := Z.abs (Qnum x)). set (d := Zpos (Qden x)).
  assert (Hn : (0 < n)%Z).
  { subst n. destruct x as [xn xd]. unfold Qeq in Hx. simpl in *. lia. }
  assert (Hd : (0 < d)%Z) by (subst d; lia).
  destruct (Z.log2_spec n Hn) as [Ha1 Ha2].
  destruct (Z.log2_spec d Hd) as [Hb1 Hb2].
  pose proof (Z.log2_nonneg n) as Ha0. pose proof (Z.log2_nonneg d) as Hb0.
  set (a := Z.log2 n) in *. set (b := Z.log2 d) in *.
  pose proof (Qabs_num_den x) as E. fold n d in E.
  assert (Qa1 : (2 ^ a <= inject_Z n)%Q).
  { rewrite <- Zpow2_Q by exact Ha0. rewrite <- Zle_Qle. exact Ha1. }
  assert (Qa2 : (inject_Z n < 2 ^ (a + 1))%Q).
  { rewrite <- Zpow2_Q by lia. rewrite <- Zlt_Qlt.
    replace (a + 1)%Z with (Z.succ a) by lia. exact Ha2. }
  assert (Qb1 : (2 ^ b <= inject_Z d)%Q).
  { rewrite <- Zpow2_Q by exact Hb0. rewrite <- Zle_Qle. exact Hb1. }
  assert (Qb2 : (inject_Z d < 2 ^ (b + 1))%Q).
  { rewrite <- Zpow2_Q by lia. rewrite <- Zlt_Qlt.
    replace (b + 1)%Z with (Z.succ b) by lia. exact Hb2. }
  (* the two candidates *)
  assert (Hlo : (2 ^ (a - b - 1) <= Qabs x)%Q).
  { assert (E1 : (2 ^ a == 2 ^ (a - b - 1) * 2 ^ (b + 1))%Q).
    { rewrite <- Qpower_plus by discriminate. f_equiv. lia. }
    pose proof (pow2_pos (a - b - 1)) as P1. pose proof (pow2_pos (b + 1)) as P2.
    pose proof (pow2_pos b) as P3.
    apply Qnot_lt_le. intros Hc.
    assert ((Qabs x * inject_Z d < 2 ^ (a - b - 1) * 2 ^ (b + 1))%Q); [|lra].
    apply Qle_lt_trans with (Qabs x * 2 ^ (b + 1))%Q.
    - apply Qmult_le_l; [exact Habs|]. apply Qlt_le_weak, Qb2.
    - apply Qmult_lt_r; [exact P2|exact Hc]. }
  assert (Hhi : (Qabs x < 2 ^ (a - b + 1))%Q).
  { assert (E1 : (2 ^ (a + 1) == 2 ^ (a - b + 1) * 2 ^ b)%Q).
    { rewrite <- Qpower_plus by discriminate. f_equiv. lia. }
    pose proof (pow2_pos (a - b + 1)) as P1. pose proof (pow2_pos b) as P3.
    apply Qnot_le_lt. intros Hc.
    assert ((2 ^ (a - b + 1) * 2 ^ b <= Qabs x * inject_Z d)%Q); [|lra].
    apply Qle_trans with (Qabs x * 2 ^ b)%Q.
    - apply Qmult_le_r; [exact P3|exact Hc].
    - apply Qmult_le_l; [exact Habs|exact Qb1]. }
  unfold Py.ilog2. fold n d a b. cbv zeta.
  destruct (Py.Qltb (Qabs x) (2 ^ (a - b))) eqn:Ek.
  - apply Qltb_true in Ek. split; [exact Hlo|].
    replace (a - b - 1 + 1)%Z with (a - b)%Z by lia. exact Ek.
  - apply Qltb_false in Ek. split; [exact Ek|exact Hhi].
Qed.

Lemma ilog2_unique (x : Q) (k : Z) :
  (2 ^ k <= Qabs x)%Q -> (Qabs x < 2 ^ (k + 1))%Q -> Py.ilog2 x = k.
Proof.
  intros H1 H2.
  assert (Hx : ~ (x == 0)%Q).
  { intros E. rewrite E in H1. pose proof (pow2_pos k). 
    change (Qabs 0) with 0%Q in H1. lra. }
  destruct (ilog2_spec x Hx) as [S1 S2].
  assert (2 ^ k < 2 ^ (Py.ilog2 x + 1))%Q by (eapply Qle_lt_trans; eassumption).
  assert (2 ^ Py.ilog2 x < 2 ^ (k + 1))%Q by (eapply Qle_lt_trans; eassumption).
  apply pow2_lt_inv in H, H0. lia.
Qed.

Lemma round_half_even_Z (m : Z) : Py.round_half_even (inject_Z m) = m.
Proof.
  unfold Py.round_half_even. rewrite Qfloor_Z.
  assert (H : Py.Qltb (inject_Z m - inject_Z m) (1 # 2) = true).
  { apply Qltb_true. lra. }
  rewrite H. reflexivity.
Qed.

Lemma round_half_even_mono (x y : Q) :
  (x <= y)%Q -> (Py.round_half_even x <= Py.round_half_even y)%Z.
Proof.
  intros Hxy.
  pose proof (Qfloor_resp_le _ _ Hxy) as Hf.
  pose proof (round_half_even_between x) as [_ Hx].
  pose proof (round_half_even_between y) as [Hy _].
  destruct (Z_lt_le_dec (Qfloor x) (Qfloor y)) as [Hlt|Hge]; [lia|].
  assert (E : Qfloor x = Qfloor y) by lia.
  unfold Py.round_half_even. rewrite E.
  set (f := Qfloor y).
  destruct (Py.Qltb (x - inject_Z f) (1 # 2)) eqn:X1;
    destruct (Py.Qltb (y - inject_Z f) (1 # 2)) eqn:Y1;
    destruct (Py.Qltb (1 # 2) (x - inject_Z f)) eqn:X2;
    destruct (Py.Qltb (1 # 2) (y - inject_Z f)) eqn:Y2;
    try lia;
    repeat match goal with
           | H : Py.Qltb _ _ = true |- _ => apply Qltb_true in H
           | H : Py.Qltb _ _ = false |- _ => apply Qltb_false in H
           end;
    try (exfalso; lra); destruct (Z.even f); lia.
Qed.

Lemma round_half_even_comp (x y : Q) :
  (x == y)%Q -> Py.round_half_even x = Py.round_half_even y.
Proof.
  intros E. apply Z.le_antisymm; apply round_half_even_mono; rewrite E; apply Qle_refl.
Qed.

(** The rounding of a positive number, written out. *)
Lemma fl_pos (x : Q) :
  (0 < x)%Q ->
  Py.fl x = (inject_Z (Py.round_half_even (Qabs x / 2 ^ (Py.ilog2 x - 52)))
          * 2 ^ (Py.ilog2 x - 52))%Q.
Proof.
  intros Hx. unfold Py.fl.
  assert (E1 : Py.Qeqb x 0 = false).
  { unfold Py.Qeqb. destruct (Qeq_bool x 0) eqn:E; [|reflexivity].
    apply Qeq_bool_eq in E. rewrite E in Hx. exfalso. revert Hx. apply Qlt_irrefl. }
  assert (E2 : Py.Qltb x 0 = false) by (apply Qltb_false; lra).
  rewrite E1, E2. reflexivity.
Qed.

Lemma mantissa_bounds (x : Q) :
  ~ (x == 0)%Q ->
  (2 ^ 52 <= Py.round_half_even (Qabs x / 2 ^ (Py.ilog2 x - 52)) <= 2 ^ 53)%Z.
Proof.
  intros Hx. destruct (ilog2_spec x Hx) as [S1 S2].
  set (i := Py.ilog2 x) in *. pose proof (pow2_pos (i - 52)) as P.
  assert (E1 : (2 ^ i == 2 ^ 52 * 2 ^ (i - 52))%Q).
  { rewrite <- Qpower_plus by discriminate. f_equiv. lia. }
  assert (E2 : (2 ^ (i + 1) == 2 ^ 53 * 2 ^ (i - 52))%Q).
  { rewrite <- Qpower_plus by discriminate. f_equiv. lia. }
  apply round_half_even_bounds.
  - apply Qle_shift_div_l; [exact P|].
    rewrite (Zpow2_Q 52) by lia. rewrite <- E1. exact S1.
  - apply Qle_shift_div_r; [exact P|].
    rewrite (Zpow2_Q 53) by lia. rewrite <- E2. apply Qlt_le_weak, S2.
Qed.

Lemma fl_pos_bounds (x : Q) :
  (0 < x)%Q -> (2 ^ Py.ilog2 x <= Py.fl x)%Q /\ (Py.fl x <= 2 ^ (Py.ilog2 x + 1))%Q.
Proof.
  intros Hx. rewrite (fl_pos x Hx).
  assert (Hne : ~ (x == 0)%Q) by (intros E; rewrite E in Hx; revert Hx; apply Qlt_irrefl).
  destruct (mantissa_bounds x Hne) as [M1 M2].
  set (i := Py.ilog2 x) in *. set (m := Py.round_half_even _) in *.
  pose proof (pow2_pos (i - 52)) as P.
  assert (E1 : (2 ^ i == 2 ^ 52 * 2 ^ (i - 52))%Q).
  { rewrite <- Qpower_plus by discriminate. f_equiv. lia. }
  assert (E2 : (2 ^ (i + 1) == 2 ^ 53 * 2 ^ (i - 52))%Q).
  { rewrite <- Qpower_plus by discriminate. f_equiv. lia. }
  rewrite Zle_Qle in M1, M2. rewrite (Zpow2_Q 52) in M1 by lia.
  rewrite (Zpow2_Q 53) in M2 by lia.
  split.
  - rewrite E1. apply Qmult_le_compat_r; [exact M1|apply Qlt_le_weak, P].
  - rewrite E2. apply Qmult_le_compat_r; [exact M2|apply Qlt_le_weak, P].
Qed.

Lemma fl_nonneg (x : Q) : (0 <= x)%Q -> (0 <= Py.fl x)%Q.
Proof.
  intros Hx. destruct (Qle_lt_or_eq _ _ Hx) as [Hlt|Heq].
  - destruct (fl_pos_bounds x Hlt) as [H _].
    eapply Qle_trans; [|exact H]. apply Qlt_le_weak, pow2_pos.
  - unfold Py.fl. assert (E : Py.Qeqb x 0 = true).
    { apply Qeq_bool_iff. symmetry. exact Heq. }
    rewrite E. apply Qle_refl.
Qed.

Lemma fl_mono (x y : Q) : (0 <= x)%Q -> (x <= y)%Q -> (Py.fl x <= Py.fl y)%Q.
Proof.
  intros Hx Hxy. destruct (Qle_lt_or_eq _ _ Hx) as [Hlt|Heq].
  - assert (Hy : (0 < y)%Q) by lra.
    assert (Hnx : ~ (x == 0)%Q) by (intros E; rewrite E in Hlt; revert Hlt; apply Qlt_irrefl).
    assert (Hny : ~ (y == 0)%Q) by (intros E; rewrite E in Hy; revert Hy; apply Qlt_irrefl).
    destruct (ilog2_spec x Hnx) as [X1 X2]. destruct (ilog2_spec y Hny) as [Y1 Y2].
    rewrite (Qabs_pos x) in X1, X2 by lra. rewrite (Qabs_pos y) in Y1, Y2 by lra.
    assert (Hi : (Py.ilog2 x <= Py.ilog2 y)%Z).
    { assert (2 ^ Py.ilog2 x < 2 ^ (Py.ilog2 y + 1))%Q by lra.
      apply pow2_lt_inv in H. lia. }
    destruct (Z_lt_le_dec (Py.ilog2 x) (Py.ilog2 y)) as [Hl|Hg].
    + destruct (fl_pos_bounds x Hlt) as [_ B1].
      destruct (fl_pos_bounds y Hy) as [B2 _].
      eapply Qle_trans; [exact B1|]. eapply Qle_trans; [|exact B2].
      apply pow2_le. lia.
    + assert (E : Py.ilog2 x = Py.ilog2 y) by lia.
      rewrite (fl_pos x Hlt), (fl_pos y Hy). rewrite E.
      pose proof (pow2_pos (Py.ilog2 y - 52)) as P.
      apply Qmult_le_compat_r; [|apply Qlt_le_weak, P].
      rewrite <- Zle_Qle. apply round_half_even_mono.
      rewrite (Qabs_pos x), (Qabs_pos y) by lra.
      apply Qmult_le_compat_r; [exact Hxy|].
      apply Qlt_le_weak, Qinv_lt_0_compat, P.
  - unfold Py.fl at 1. assert (E : Py.Qeqb x 0 = true).
    { apply Qeq_bool_iff. symmetry. exact Heq. }
    rewrite E. apply fl_nonneg. lra.
Qed.

Lemma fl_comp (x y : Q) : (0 <= x)%Q -> (x == y)%Q -> (Py.fl x == Py.fl y)%Q.
Proof.
  intros Hx E. assert (Hy : (0 <= y)%Q) by (rewrite <- E; exact Hx).
  apply Qle_antisym; apply fl_mono; try assumption; rewrite E; apply Qle_refl.
Qed.

(** A number of 53 significant bits is a double. *)
Lemma fl_fixed (m e : Z) :
  (2 ^ 52 <= m <= 2 ^ 53)%Z ->
  (Py.fl (inject_Z m * 2 ^ e) == inject_Z m * 2 ^ e)%Q.
Proof.
  intros [M1 M2]. set (z := (inject_Z m * 2 ^ e)%Q).
  pose proof (pow2_pos e) as P.
  assert (Q1 : (2 ^ 52 <= inject_Z m)%Q).
  { rewrite <- (Zpow2_Q 52) by lia. rewrite <- Zle_Qle. exact M1. }
  assert (Q2 : (inject_Z m <= 2 ^ 53)%Q).
  { rewrite <- (Zpow2_Q 53) by lia. rewrite <- Zle_Qle. exact M2. }
  assert (P52 : (0 < 2 ^ 52)%Q) by apply pow2_pos.
  assert (Hz : (0 < z)%Q).
  { subst z. apply Qmult_lt_0_compat; [lra|exact P]. }
  assert (Ez : (Qabs z == z)%Q) by (apply Qabs_pos; lra).
  rewrite (fl_pos z Hz).
  destruct (Z.eq_dec m (2 ^ 53)%Z) as [Em|Nm].
  - assert (Ei : Py.ilog2 z = (e + 53)%Z).
    { apply ilog2_unique; rewrite Ez; subst z; rewrite Em;
        rewrite (Zpow2_Q 53) by lia; rewrite <- Qpower_plus by discriminate.
      - apply pow2_le. lia.
      - apply Qpower_lt_compat_l; [lia|reflexivity]. }
    rewrite Ei. replace (e + 53 - 52)%Z with (e + 1)%Z by lia.
    assert (Er : (Qabs z / 2 ^ (e + 1) == inject_Z (2 ^ 52))%Q).
    { rewrite Ez. subst z. rewrite Em. rewrite (Zpow2_Q 53), (Zpow2_Q 52) by lia.
      rewrite <- Qpower_plus by discriminate.
      unfold Qdiv. rewrite <- Qpower_opp. rewrite <- Qpower_plus by discriminate.
      f_equiv. lia. }
    rewrite (round_half_even_comp _ _ Er), round_half_even_Z.
    subst z. rewrite Em. rewrite (Zpow2_Q 53), (Zpow2_Q 52) by lia.
    rewrite <- !Qpower_plus by discriminate. f_equiv. lia.
  - assert (M3 : (m < 2 ^ 53)%Z) by lia.
    assert (Q3 : (inject_Z m < 2 ^ 53)%Q).
    { rewrite <- (Zpow2_Q 53) by lia. rewrite <- Zlt_Qlt. exact M3. }
    assert (Ei : Py.ilog2 z = (e + 52)%Z).
    { apply ilog2_unique; rewrite Ez; subst z.
      - replace (e + 52)%Z with (52 + e)%Z by lia.
        rewrite Qpower_plus by discriminate.
        apply Qmult_le_compat_r; [exact Q1|lra].
      - replace (e + 52 + 1)%Z with (53 + e)%Z by lia.
        rewrite Qpower_plus by discriminate.
        apply Qmult_lt_r; [exact P|exact Q3]. }
    rewrite Ei. replace (e + 52 - 52)%Z with e by lia.
    assert (Er : (Qabs z / 2 ^ e == inject_Z m)%Q).
    { rewrite Ez. subst z. field. lra. }
    rewrite (round_half_even_comp _ _ Er), round_half_even_Z. reflexivity.
Qed.

Lemma fl_idem (x : Q) : (0 <= x)%Q -> (Py.fl (Py.fl x) == Py.fl x)%Q.
Proof.
  intros Hx. destruct (Qle_lt_or_eq _ _ Hx) as [Hlt|Heq].
  - rewrite (fl_pos x Hlt). apply fl_fixed. apply mantissa_bounds.
    intros E. rewrite E in Hlt. revert Hlt. apply Qlt_irrefl.
  - assert (E : Py.fl x = 0%Q).
    { unfold Py.fl. assert (E : Py.Qeqb x 0 = true).
      { apply Qeq_bool_iff. symmetry. exact Heq. }
      rewrite E. reflexivity. }
    rewrite E. reflexivity.
Qed.

Lemma fl_le_1 (x : Q) : (0 <= x)%Q -> (x <= 1)%Q -> (Py.fl x <= 1)%Q.
Proof.
  intros H0 H1. eapply Qle_trans; [apply fl_mono; [exact H0|exact H1]|].
  vm_compute. discriminate.
Qed.

Lemma round3_bounds (lo hi : Z) (x : Q) :
  (0 <= lo)%Z -> (lo # 1000 <= x)%Q -> (x <= hi # 1000)%Q ->
  (Py.fl (lo # 1000) <= Py.round3 x)%Q /\ (Py.round3 x <= Py.fl (hi # 1000))%Q.
Proof.
  intros H0 Hlo Hhi. unfold Py.round3.
  destruct (round_half_even_bounds lo hi (x * 1000)) as [H1 H2].
  - unfold Qle in *. simpl in *. lia.
  - unfold Qle in *. simpl in *. lia.
  - split; apply fl_mono; unfold Qle; simpl; lia.
Qed.

Lemma round3_unit (x : Q) :
  (0 <= x)%Q -> (x <= 1)%Q -> (0 <= Py.round3 x)%Q /\ (Py.round3 x <= 1)%Q.
Proof.
  intros H0 H1. destruct (round3_bounds 0 1000 x) as [R0 R1]; [lia| | |].
  - eapply Qle_trans; [|exact H0]. unfold Qle; simpl; lia.
  - eapply Qle_trans; [exact H1|]. unfold Qle; simpl; lia.
  - split.
    + eapply Qle_trans; [|exact R0]. vm_compute. discriminate.
    + eapply Qle_trans; [exact R1|]. vm_compute. discriminate.
Qed.

Lemma round3_zero : (Py.round3 0.0 == 0)%Q.
Proof. reflexivity. Qed.

Section Metrics.
Import AccuracyEnhancer.

Lemma ratio_bounds (s t : nat) :
  0 < s -> s <= t ->
  (0 < inject_Z (Z.of_nat s) / inject_Z (Z.of_nat t))%Q
  /\ (inject_Z (Z.of_nat s) / inject_Z (Z.of_nat t) <= 1)%Q.
Proof.
  intros Hs Hst.
  assert (Ht : (0 < inject_Z (Z.of_nat t))%Q).
  { change 0%Q with (inject_Z 0). rewrite <- Zlt_Qlt. lia. }
  split.
  - apply Qlt_shift_div_l; [exact Ht|]. rewrite Qmult_0_l.
    change 0%Q with (inject_Z 0). rewrite <- Zlt_Qlt. lia.
  - apply Qle_shift_div_r; [exact Ht|]. rewrite Qmult_1_l.
    rewrite <- Zle_Qle. lia.
Qed.

(** The sum before the cap, [0.8 + 0.2 * (1 - selected / total)] in
    floats, is at least the double 0.8. *)
Lemma precision_sum_bounds (s t : nat) :
  0 < s -> s <= t ->
  let x :=
    (Py.fl 0.8
     + Py.fmul (Py.fl 0.2)
         (Py.fsub 1 (Py.int_truediv (Z.of_nat s) (Z.of_nat t))))%Q in
  (0 <= x)%Q /\ (Py.fl 0.8 <= Py.fl x)%Q.
Proof.
  intros Hs Hst. destruct (ratio_bounds s t Hs Hst) as [H0 H1]. cbv zeta.
  unfold Py.fmul, Py.fsub, Py.int_truediv.
  set (q := Py.fl (inject_Z (Z.of_nat s) / inject_Z (Z.of_nat t))).
  assert (Hq : (0 <= q)%Q /\ (q <= 1)%Q).
  { subst q. split; [apply fl_nonneg|apply fl_le_1]; lra. }
  destruct Hq as [Hq0 Hq1].
  set (u := Py.fl (1 - q)).
  assert (Hu : (0 <= u)%Q) by (subst u; apply fl_nonneg; lra).
  assert (H02 : (0 <= Py.fl 0.2)%Q) by (vm_compute; discriminate).
  assert (H08 : (0 <= Py.fl 0.8)%Q) by (vm_compute; discriminate).
  set (v := Py.fl (Py.fl 0.2 * u)).
  assert (Hv : (0 <= v)%Q).
  { subst v. apply fl_nonneg. apply Qmult_le_0_compat; assumption. }
  split; [lra|].
  eapply Qle_trans; [|apply (fl_mono (Py.fl 0.8)); [exact H08|lra]].
  rewrite fl_idem; [apply Qle_refl|]. unfold Qle; simpl; lia.
Qed.

Lemma precision_estimate_bounds (s t : nat) :
  0 < s -> s <= t ->
  (Py.fl 0.8 <= precision_estimate s t)%Q /\ (precision_estimate s t <= 1)%Q.
Proof.
  intros Hs Hst. unfold precision_estimate.
  destruct (precision_sum_bounds s t Hs Hst) as [_ H].
  split.
  - apply Q.min_glb; [vm_compute; discriminate|exact H].
  - eapply Qle_trans; [apply Q.le_min_l|]. lra.
Qed.

Lemma metrics_precision {A B} (selected : list A) (all_candidates : list B) :
  precision_score (_calculate_accuracy_metrics selected all_candidates) =
  Py.round3 (if 0 <? length selected
             then precision_estimate (length selected)
                    (Nat.max 1 (length all_candidates))
             else 0.0%Q).
Proof.
  unfold _calculate_accuracy_metrics, precision_estimate.
  cbn [precision_score]. reflexivity.
Qed.

End Metrics.

Lemma Permutation_filter {A} (f : A -> bool) (l l' : list A) :
  Permutation l l' -> Permutation (List.filter f l) (List.filter f l').
Proof.
  induction 1 as [|x l l' _ IH|x y l|l l' l'' _ IH1 _ IH2]; simpl.
  - constructor.
  - destruct (f x); [now constructor|assumption].
  - destruct (f x), (f y); try reflexivity. apply perm_swap.
  - now transitivity (List.filter f l').
Qed.

Lemma StronglySorted_weaken {A} (R S : A -> A -> Prop) (l : list A) :
  (forall a b, R a b -> S a b) -> StronglySorted R l -> StronglySorted S l.
Proof.
  intros HRS. induction 1 as [|x l Hs IH Hall]; constructor; [assumption|].
  eapply List.Forall_impl; [|exact Hall]. intros b. apply HRS.
Qed.

Section Selection.
Import AccuracyEnhancer.

Lemma final_candidates_length {A} (candidates : list A) (scores : list Q) :
  length (final_candidates_of candidates scores) <= length candidates.
Proof.
  unfold final_candidates_of, candidate_score_pairs.
  rewrite length_map.
  etransitivity; [apply filter_length_le|].
  rewrite stable_sort_length, length_combine. lia.
Qed.

Lemma final_candidates_perm {A} (candidates : list A) (scores : list Q) :
  Permutation (final_candidates_of candidates scores)
    (List.map fst
       (List.filter
          (fun pair => Py.Qleb (_calculate_dynamic_threshold_from_scores scores) (snd pair))
          (combine candidates scores))).
Proof.
  unfold final_candidates_of, candidate_score_pairs.
  apply Permutation_map, Permutation_filter. symmetry. apply stable_sort_perm.
Qed.

Lemma median_score_sorted (scores : list Q) :
  exists sorted,
    Permutation scores sorted
    /\ StronglySorted Qle sorted
    /\ median_score scores = nth (length scores / 2) sorted 0%Q.
Proof.
  exists (Py.stable_sort Py.Qleb scores). split; [apply stable_sort_perm|].
  split; [|reflexivity].
  eapply StronglySorted_weaken; [|apply (stable_sort_StronglySorted Py.Qleb)].
  - intros a b. apply Qleb_true.
  - apply Qleb_total.
  - apply Qleb_trans.
Qed.

Lemma nth_sorted_le (l : list Q) (i j : nat) :
  StronglySorted Qle l -> i <= j -> j < length l ->
  (nth i l 0 <= nth j l 0)%Q.
Proof.
  intros H. revert i j. induction H as [|a l Hs IH Ha]; intros i j Hij Hj.
  - simpl in Hj. lia.
  - destruct j as [|j].
    + assert (i = 0) by lia. subst i. apply Qle_refl.
    + simpl in Hj. destruct i as [|i].
      * cbn [nth]. eapply (proj1 (List.Forall_forall _ _) Ha).
        apply nth_In. lia.
      * cbn [nth]. apply IH; lia.
Qed.

Lemma median_score_odd (scores : list Q) :
  Nat.odd (length scores) = true -> median_score scores = median scores.
Proof.
  intros Ho. unfold median, median_score. rewrite stable_sort_length.
  rewrite <- Nat.negb_odd, Ho. reflexivity.
Qed.

(** For an even number of scores the code takes the upper of the two
    middle ones. *)
Lemma median_le_median_score (scores : list Q) :
  (median scores <= median_score scores)%Q.
Proof.
  unfold median, median_score. rewrite stable_sort_length.
  destruct (Nat.even (length scores)) eqn:Ee; [|apply Qle_refl].
  destruct scores as [|s scores]; [vm_compute; discriminate|].
  assert (Hs : StronglySorted Qle (Py.stable_sort Py.Qleb (s :: scores))).
  { eapply StronglySorted_weaken; [|apply (stable_sort_StronglySorted Py.Qleb)].
    - intros a b. apply Qleb_true.
    - apply Qleb_total.
    - apply Qleb_trans. }
  assert (Hn : length (s :: scores) / 2
               < length (Py.stable_sort Py.Qleb (s :: scores))).
  { rewrite stable_sort_length. apply Nat.div_lt; simpl; lia. }
  pose proof (nth_sorted_le _ (length (s :: scores) / 2 - 1)
                (length (s :: scores) / 2) Hs (Nat.le_sub_l _ _) Hn) as Hle.
  set (a := nth _ _ _) in *. set (b := nth _ _ _) in *.
  apply Qle_shift_div_r; [reflexivity|lra].
Qed.

Lemma clamp_mono (lo hi x y : Q) : (x <= y)%Q -> (clamp lo hi x <= clamp lo hi y)%Q.
Proof.
  intros H. unfold clamp. apply Q.max_le_compat_l, Q.min_le_compat_l, H.
Qed.

Lemma median_threshold_le (scores : list Q) :
  (median_threshold scores <= _calculate_dynamic_threshold_from_scores scores)%Q.
Proof.
  destruct scores as [|s scores]; [apply Qle_refl|].
  unfold median_threshold, _calculate_dynamic_threshold_from_scores.
  apply clamp_mono. apply Qmult_le_compat_r; [apply median_le_median_score|].
  unfold Qle; simpl; lia.
Qed.

(** C2, corrected.  The dynamic threshold is 0.5 for no scores and
    otherwise [clamp(0.3, 0.8, m * 0.8)], where [m] is the element at
    index [len // 2] of the scores in ascending order; the final
    candidates are, up to order, exactly the candidates paired with a
    score at or above the threshold; for the scores 0.2, 0.5, 0.9 the
    threshold is 0.4 and the second and third candidate survive.  That
    [m] is the median of the scores when their number is odd; when it is
    even [m] is the upper of the two middle scores and so not below the
    median, and the threshold is not below the one computed from the
    median: for the scores 0.525 and 0.665 it is 0.532, where the median
    gives 0.476. *)
Theorem dynamic_threshold_selects_at_or_above :
  _calculate_dynamic_threshold_from_scores [] = 0.5%Q
  /\ (forall s scores,
        _calculate_dynamic_threshold_from_scores (s :: scores) =
        clamp 0.3 0.8 (median_score (s :: scores) * 0.8))
  /\ (forall scores, exists sorted,
        Permutation scores sorted /\ StronglySorted Qle sorted
        /\ median_score scores = nth (length scores / 2) sorted 0%Q)
  /\ (forall (A : Type) (candidates : list A) (scores : list Q),
        Permutation (final_candidates_of candidates scores)
          (List.map fst
             (List.filter
                (fun pair =>
                   Py.Qleb (_calculate_dynamic_threshold_from_scores scores) (snd pair))
                (combine candidates scores))))
  /\ (_calculate_dynamic_threshold_from_scores [0.2; 0.5; 0.9] == 0.4)%Q
  /\ (forall (A : Type) (a b c : A),
        final_candidates_of [a; b; c] [0.2; 0.5; 0.9]%Q = [c; b])
  /\ (forall scores,
        Nat.odd (length scores) = true -> median_score scores = median scores)
  /\ (forall scores, (median scores <= median_score scores)%Q)
  /\ (forall scores,
        (median_threshold scores
         <= _calculate_dynamic_threshold_from_scores scores)%Q)
  /\ (_calculate_dynamic_threshold_from_scores [0.525; 0.665] == 0.532)%Q
  /\ (median_threshold [0.525; 0.665] == 0.476)%Q.
Proof.
  split; [reflexivity|]. split; [reflexivity|].
  split; [apply median_score_sorted|].
  split; [intros A; apply final_candidates_perm|].
  split; [reflexivity|]. split; [intros A a b c; reflexivity|].
  split; [apply median_score_odd|].
  split; [apply median_le_median_score|].
  split; [apply median_threshold_le|].
  split; vm_compute; reflexivity.
Qed.

(** C9. In the metrics [_apply_quality_scoring] reports, when at least
    one candidate is selected [precision_score] lies in [0.8, 1] and is
    [min(1.0, 0.8 + 0.2 * (1 - selected / total))], computed in floats
    and rounded to three places as [round] does, and it is 0 exactly
    when no candidate is selected.  For 3 selected of 16 the sum is the
    double just above 0.9625 and the score is 0.963. *)
Theorem precision_score_is_zero_or_at_least_four_fifths
    (U : UnicodeDB) (candidates : list Heading.t) :
  let r := _apply_quality_scoring U candidates in
  let p := precision_score r.2 in
  (r.1 <> [] ->
     (0.8 <= p)%Q /\ (p <= 1)%Q
     /\ p = Py.round3 (precision_estimate (length r.1) (length candidates)))
  /\ ((p == 0)%Q <-> r.1 = [])
  /\ (0.9625 < precision_estimate 3 16)%Q
  /\ Py.round3 (precision_estimate 3 16) = Py.fl 0.963.
Proof.
  intros r p. subst p r. unfold _apply_quality_scoring. cbn [fst snd].
  set (scores := List.map _ candidates).
  pose proof (final_candidates_length candidates scores) as Hlen.
  rewrite metrics_precision.
  split; [|split; [|split; vm_compute; reflexivity]].
  - intros Hne.
    destruct (final_candidates_of candidates scores) as [|x final]; [congruence|].
    assert (Hpos : 0 < length (x :: final)) by (simpl; lia).
    assert (Hmax : Nat.max 1 (length candidates) = length candidates) by lia.
    rewrite Hmax.
    assert (Hlt : (0 <? length (x :: final)) = true) by (apply Nat.ltb_lt; exact Hpos).
    rewrite Hlt.
    destruct (precision_estimate_bounds _ _ Hpos Hlen) as [Hlo Hhi].
    destruct (round3_bounds 800 1000
                (precision_estimate (length (x :: final)) (length candidates)))
      as [Rlo Rhi]; [lia| | |].
    { eapply Qle_trans; [|exact Hlo]. vm_compute. discriminate. }
    { eapply Qle_trans; [exact Hhi|]. unfold Qle. simpl. lia. }
    split; [|split; [|reflexivity]].
    + eapply Qle_trans; [|exact Rlo]. vm_compute. discriminate.
    + eapply Qle_trans; [exact Rhi|]. vm_compute. discriminate.
  - destruct (final_candidates_of candidates scores) as [|x final].
    + split; [reflexivity|]. intros _. apply round3_zero.
    + assert (Hpos : 0 < length (x :: final)) by (simpl; lia).
      assert (Hmax : Nat.max 1 (length candidates) = length candidates) by lia.
      rewrite Hmax.
      assert (Hlt : (0 <? length (x :: final)) = true)
        by (apply Nat.ltb_lt; exact Hpos).
      rewrite Hlt.
      destruct (precision_estimate_bounds _ _ Hpos Hlen) as [Hlo Hhi].
      destruct (round3_bounds 800 1000
                  (precision_estimate (length (x :: final)) (length candidates)))
        as [Rlo Rhi]; [lia| | |].
      { eapply Qle_trans; [|exact Hlo]. vm_compute. discriminate. }
      { eapply Qle_trans; [exact Hhi|]. unfold Qle. simpl. lia. }
      split; [|discriminate]. intros H0. exfalso.
      rewrite H0 in Rlo. revert Rlo. vm_compute. intros H. apply H. reflexivity.
Qed.

End Selection.

Section QualityScore.
Context (U : UnicodeDB).
Import AccuracyEnhancer.

(** The loop over the weights, unrolled: the key [content] the weight
    [content_semantic] is looked up under is not among the scores. *)
Lemma weighted_total_unfold (s m t p b : Q) :
  weighted_total
    [(lit "structural", s); (lit "semantic", m); (lit "typography", t);
     (lit "position", p); (lit "multilingual", b)]
  = (0 + 0.35 * s + 0.25 * 0 + 0.20 * t + 0.15 * p + 0.05 * b)%Q.
Proof. reflexivity. Qed.

Lemma Qmin_one_nonneg (x : Q) : (0 <= x)%Q -> (0 <= Qmin 1.0 x)%Q.
Proof. intros H. apply Q.min_glb; [unfold Qle; simpl; lia|exact H]. Qed.

Lemma Qmin_one_le (x : Q) : (Qmin 1.0 x <= 1)%Q.
Proof. eapply Qle_trans; [apply Q.le_min_l|]. unfold Qle. simpl. lia. Qed.

Lemma _score_structural_patterns_nonneg (c : Heading.t) :
  (0 <= _score_structural_patterns U c)%Q.
Proof.
  unfold _score_structural_patterns. apply Qmin_one_nonneg.
  repeat match goal with |- context [if ?b then _ else _] => destruct b end;
    unfold Qle; simpl; lia.
Qed.

Lemma _score_typography_nonneg (c : Heading.t) (all : list Heading.t) :
  (0 <= _score_typography c all)%Q.
Proof.
  unfold _score_typography.
  destruct (List.map get_size all).
  - destruct (get_bold c); [apply Qmin_one_nonneg|];
      repeat match goal with |- context [if ?b then _ else _] => destruct b end;
      unfold Qle; simpl; lia.
  - cbv zeta.
    repeat match goal with |- context [if ?b then _ else _] => destruct b end;
      unfold Qle; simpl; lia.
Qed.

Lemma _score_position_nonneg (c : Heading.t) : (0 <= _score_position c)%Q.
Proof.
  unfold _score_position.
  repeat match goal with |- context [if ?b then _ else _] => destruct b end;
    unfold Qle; simpl; lia.
Qed.

Lemma quality_score_bounds (candidate : Heading.t)
    (all_candidates : list Heading.t) :
  boost_nonneg candidate ->
  (0 <= _calculate_quality_score U candidate all_candidates)%Q
  /\ (_calculate_quality_score U candidate all_candidates <= 1)%Q.
Proof.
  intros Hb. unfold _calculate_quality_score. split; [|apply Qmin_one_le].
  apply Qmin_one_nonneg. unfold component_scores.
  rewrite weighted_total_unfold.
  pose proof (_score_structural_patterns_nonneg candidate) as Hs.
  pose proof (_score_typography_nonneg candidate all_candidates) as Ht.
  pose proof (_score_position_nonneg candidate) as Hp.
  assert (Hq : (0 <= default 0 (Heading.quality_boost candidate))%Q).
  { unfold boost_nonneg in Hb. destruct (Heading.quality_boost candidate); simpl.
    - exact Hb.
    - apply Qle_refl. }
  set (s := _score_structural_patterns U candidate) in *.
  set (t := _score_typography candidate all_candidates) in *.
  set (p := _score_position candidate) in *.
  set (b := default 0%Q (Heading.quality_boost candidate)) in *.
  lra.
Qed.

(** Every boost the multilingual pass writes is one of 0, 0.2, 0.3, 0.5. *)
Lemma enhance_one_boost_nonneg (c : Heading.t) :
  boost_nonneg c -> boost_nonneg (enhance_one U c).
Proof.
  intros Hc. unfold enhance_one, boost_nonneg, set_text. cbn [Heading.quality_boost].
  destruct (in_multilingual_patterns _); [|exact Hc].
  unfold _enhance_with_language_patterns, boost_of. cbn [Heading.quality_boost].
  repeat match goal with |- context [if ?b then _ else _] => destruct b end;
    unfold Qle; simpl; lia.
Qed.

Lemma Forall_filter_keeps {A} (P : A -> Prop) (f : A -> bool) (l : list A) :
  Forall P l -> Forall P (List.filter f l).
Proof.
  induction 1 as [|x l Hx Hl IH]; cbn; [constructor|].
  destruct (f x); [now constructor|assumption].
Qed.

Lemma dedup_loop_keeps (P : Heading.t -> Prop) (seen : gset str) (l : list Heading.t) :
  Forall P l -> Forall P (dedup_loop U seen l).
Proof.
  intros H. revert seen. induction H as [|x l Hx Hl IH]; intros seen; cbn [dedup_loop].
  - constructor.
  - destruct (bool_decide _); [apply IH|constructor; [exact Hx|apply IH]].
Qed.

(** The candidates the scoring pass receives when the outline of
    [build_hierarchy] enters the enhancer. *)
Lemma scored_candidates_boost_nonneg (candidates : list Frag.t) :
  Forall boost_nonneg
    (_apply_multilingual_enhancement U
       (_apply_recall_enhancement U
          (_apply_precision_filters U
             (LevelDeterminer.build_hierarchy U candidates)))).
Proof.
  unfold _apply_multilingual_enhancement, _apply_recall_enhancement,
    _deduplicate_candidates, _apply_precision_filters.
  apply List.Forall_map.
  eapply List.Forall_impl; [intros c; apply enhance_one_boost_nonneg|].
  apply dedup_loop_keeps.
  unfold _find_relaxed_typography_headings, _recover_structural_patterns,
    _reconstruct_cross_page_headings. rewrite !app_nil_r.
  apply Forall_filter_keeps.
  unfold LevelDeterminer.build_hierarchy.
  destruct candidates as [|c candidates]; [constructor|].
  apply List.Forall_map, List.Forall_forall. intros x _. exact I.
Qed.

(** C6, corrected.  [_calculate_quality_score] lies in [0, 1] for every
    candidate whose quality boost, if it has one, is not negative, and
    for every candidate set; and the candidates the scoring pass receives
    from the pipeline are such candidates, so every score it computes
    there lies in [0, 1].  For every candidate, whatever its boost, the
    score is at most 1: the total is capped with [min] and has no lower
    bound. *)
Theorem quality_score_in_unit_interval :
  (forall (candidate : Heading.t) (all_candidates : list Heading.t),
      boost_nonneg candidate ->
      (0 <= _calculate_quality_score U candidate all_candidates)%Q
      /\ (_calculate_quality_score U candidate all_candidates <= 1)%Q)
  /\ (forall candidates : list Frag.t,
        let scored :=
          _apply_multilingual_enhancement U
            (_apply_recall_enhancement U
               (_apply_precision_filters U
                  (LevelDeterminer.build_hierarchy U candidates))) in
        Forall
          (fun candidate =>
             (0 <= _calculate_quality_score U candidate scored)%Q
             /\ (_calculate_quality_score U candidate scored <= 1)%Q)
          scored)
  /\ (forall (candidate : Heading.t) (all_candidates : list Heading.t),
        (_calculate_quality_score U candidate all_candidates <= 1)%Q).
Proof.
  split; [apply quality_score_bounds|]. split.
  - intros candidates scored.
    eapply List.Forall_impl; [|apply scored_candidates_boost_nonneg].
    intros c Hc. now apply quality_score_bounds.
  - intros candidate all_candidates. apply Qmin_one_le.
Qed.

End QualityScore.

Section Filter.
Context (U : UnicodeDB) (config : Config.t) (profile : doc_profile).
Import HeadingFilter.

Lemma filter_step_inv st c st' :
  filter_step U config profile st c = Ok st' ->
  (keeps U config profile st.2 c = Ok true
   /\ st' = (st.1 ++ [c], {[strip U (Frag.text c)]} ∪ st.2))
  \/ (keeps U config profile st.2 c = Ok false /\ st' = st).
Proof.
  unfold filter_step.
  destruct (keeps U config profile st.2 c) as [[|]|e]; simpl; intros H;
    inversion H; subst; auto.
Qed.

(** What a run of the loop appends, it appends again when run on the
    appended candidates alone: the candidates it skipped left the state
    as it was. *)
Lemma filter_loop_replay (candidates : list Frag.t) st st' :
  foldM (filter_step U config profile) st candidates = Ok st' ->
  exists kept, st'.1 = st.1 ++ kept /\ foldM (filter_step U config profile) st kept = Ok st'.
Proof.
  revert st. induction candidates as [|c candidates IH]; intros st H.
  - simpl in H. inversion H; subst. exists []. rewrite app_nil_r. auto.
  - cbn [foldM] in H.
    destruct (filter_step U config profile st c) as [s1|e] eqn:E;
      cbn [mbind result_bind] in H; [|discriminate].
    destruct (IH _ H) as (kept & Hk & Hrun).
    destruct (filter_step_inv _ _ _ E) as [[Hkeep Hs1]|[Hkeep Hs1]].
    + exists (c :: kept). split.
      * rewrite Hk, Hs1. cbn [fst]. now rewrite <- app_assoc.
      * cbn [foldM]. rewrite E. exact Hrun.
    + exists kept. subst s1. auto.
Qed.

(** C3. [filter_candidates] is idempotent: when it returns [filtered]
    for a candidate list and a profile, it returns [filtered] again for
    [filtered] and the same profile. *)
Theorem filter_candidates_idempotent (candidates filtered : list Frag.t) :
  filter_candidates U config candidates profile = Ok filtered ->
  filter_candidates U config filtered profile = Ok filtered.
Proof.
  unfold filter_candidates at 1.
  destruct candidates as [|c candidates].
  - intros [= <-]. reflexivity.
  - destruct (foldM (filter_step U config profile) ([], ∅) (c :: candidates))
      as [st'|e] eqn:E; cbn [mbind result_bind]; [|discriminate].
    intros [= <-].
    destruct (filter_loop_replay _ _ _ E) as (kept & Hk & Hrun).
    cbn [fst app] in Hk. rewrite Hk. unfold filter_candidates.
    destruct kept as [|k kept]; [reflexivity|].
    rewrite Hrun. cbn [mbind result_bind]. now rewrite Hk.
Qed.

(** The loop raises only for the missing configuration key. *)
Lemma keeps_total seen c :
  (is_form profile = true \/ is_academic profile = true
   \/ is_technical profile = false
   \/ Config.max_technical_heading config <> None) ->
  exists b, keeps U config profile seen c = Ok b.
Proof.
  intros Hcfg. unfold keeps.
  repeat match goal with
         | |- context [if ?b then _ else _] => destruct b eqn:?; eauto
         end.
  assert (Hpass : exists b, _passes_document_filters config
                    (strip U (Frag.text c)) (lower U (strip U (Frag.text c)))
                    profile = Ok b).
  { unfold _passes_document_filters. cbv zeta.
    destruct (is_form profile) eqn:Ef; [eauto|].
    destruct (is_academic profile) eqn:Ea; [eauto|].
    destruct (is_technical profile) eqn:Et; [|eauto].
    match goal with |- context [if ?b then _ else _] => destruct b end; [eauto|].
    destruct (Config.max_technical_heading config); [eauto|].
    destruct Hcfg as [?|[?|[?|?]]]; congruence. }
  destruct Hpass as [b ->]. simpl.
  destruct b; simpl; [|eauto].
  unfold _has_good_heading_structure.
  destruct (strip U (Frag.text c)) as [|c0 s] eqn:Es.
  - simpl in *. discriminate.
  - repeat match goal with
           | |- context [if ?b then _ else _] => destruct b; simpl; eauto
           end.
Qed.

Lemma filter_candidates_total (candidates : list Frag.t) :
  (is_form profile = true \/ is_academic profile = true
   \/ is_technical profile = false
   \/ Config.max_technical_heading config <> None) ->
  exists filtered, filter_candidates U config candidates profile = Ok filtered.
Proof.
  intros Hcfg. unfold filter_candidates.
  assert (H : forall l st, exists st', foldM (filter_step U config profile) st l = Ok st').
  { induction l as [|c l IH]; intros st; cbn [foldM]; [eauto|].
    destruct (keeps_total st.2 c Hcfg) as [b Hb].
    assert (Hs : exists s1, filter_step U config profile st c = Ok s1)
      by (unfold filter_step; rewrite Hb; cbn [mbind result_bind]; eauto).
    destruct Hs as [s1 ->]. cbn [mbind result_bind]. apply IH. }
  destruct candidates as [|c l]; [eauto|].
  destruct (H (c :: l) ([], ∅)) as [st' ->]. cbn [mbind result_bind]. eauto.
Qed.

End Filter.

Section Reconstruction.
Context (U : UnicodeDB) (config : Config.t).
Import HeadingExtractor.

Lemma reconstruct_loop_regroup (page_num : nat) (rest : list LineInfo.t) st :
  let st' := fold_left (reconstruct_step U config page_num) rest st in
  st'.1 ++ block_of U st'.2 page_num =
  st.1 ++ flat_map (fun g => block_of U g page_num) (regroup config st.2 rest).
Proof.
  revert st. induction rest as [|line rest IH]; intros [texts group]; cbn zeta.
  - cbn [fold_left regroup flat_map fst snd]. now rewrite app_nil_r.
  - cbn [fold_left regroup]. rewrite IH. unfold reconstruct_step. cbn [fst snd].
    destruct (merges config (List.last group line) line); cbn [fst snd flat_map].
    + reflexivity.
    + now rewrite <- app_assoc.
Qed.

Lemma regroup_concat (current_group rest : list LineInfo.t) :
  concat (regroup config current_group rest) = current_group ++ rest.
Proof.
  revert current_group. induction rest as [|line rest IH]; intros g; cbn [regroup].
  - cbn. now rewrite !app_nil_r.
  - destruct (merges _ _ _); cbn [concat]; rewrite IH.
    + now rewrite <- app_assoc.
    + reflexivity.
Qed.

Lemma regroup_nonempty (current_group rest : list LineInfo.t) :
  current_group <> [] -> Forall (fun g => g <> []) (regroup config current_group rest).
Proof.
  revert current_group. induction rest as [|line rest IH]; intros g Hg; cbn [regroup].
  - now constructor.
  - destruct (merges _ _ _).
    + apply IH. now destruct g.
    + constructor; [exact Hg|]. now apply IH.
Qed.

Lemma adjacent_snoc {A} (a b x : A) (l : list A) :
  adjacent a b (l ++ [x]) ->
  adjacent a b l \/ (exists l', l = l' ++ [a]) /\ b = x.
Proof.
  intros (l1 & l2 & H).
  induction l2 as [|y l2' _] using List.rev_ind.
  - right.
    replace (l1 ++ [a; b]) with ((l1 ++ [a]) ++ [b]) in H by now rewrite <- app_assoc.
    apply app_inj_tail in H as [-> ->]. eauto.
  - left. exists l1, l2'.
    replace (l1 ++ a :: b :: l2' ++ [y]) with ((l1 ++ a :: b :: l2') ++ [y]) in H
      by now rewrite <- app_assoc.
    now apply app_inj_tail in H as [-> _].
Qed.

Lemma last_snoc {A} (l : list A) (a d : A) : List.last (l ++ [a]) d = a.
Proof. apply last_last. Qed.

(** Inside a group, neighbours passed the test. *)
Lemma regroup_inside (current_group rest : list LineInfo.t) :
  (forall a b, adjacent a b current_group -> merges config a b = true) ->
  forall g a b, In g (regroup config current_group rest) -> adjacent a b g ->
  merges config a b = true.
Proof.
  revert current_group. induction rest as [|line rest IH]; intros cur Hcur g a b;
    cbn [regroup].
  - intros [<-|[]]. apply Hcur.
  - destruct (merges config (List.last cur line) line) eqn:E.
    + apply IH. intros a' b' Hadj.
      apply adjacent_snoc in Hadj as [Hadj|[[l' ->] ->]]; [now apply Hcur|].
      now rewrite last_snoc in E.
    + intros [<-|Hin]; [apply Hcur|].
      revert Hin. apply IH. intros a' b' (l1 & l2 & H).
      destruct l1 as [|? [|? ?]]; discriminate H.
Qed.

(** The first group begins with the current group. *)
Lemma regroup_head (current_group rest : list LineInfo.t) :
  exists more groups, regroup config current_group rest = (current_group ++ more) :: groups.
Proof.
  revert current_group. induction rest as [|line rest IH]; intros cur; cbn [regroup].
  - exists [], []. now rewrite app_nil_r.
  - destruct (merges _ _ _).
    + destruct (IH (cur ++ [line])) as (more & groups & ->).
      exists (line :: more), groups. now rewrite <- app_assoc.
    + exists [], (regroup config [line] rest). now rewrite app_nil_r.
Qed.

(** Where one group ends and the next begins, the test failed. *)
Lemma regroup_boundary (current_group rest : list LineInfo.t) :
  forall gs1 g1 a b g2 gs2,
    regroup config current_group rest = gs1 ++ (g1 ++ [a]) :: (b :: g2) :: gs2 ->
    merges config a b = false.
Proof.
  revert current_group. induction rest as [|line rest IH]; intros cur gs1 g1 a b g2 gs2;
    cbn [regroup].
  - intros H. destruct gs1 as [|? [|? ?]]; discriminate H.
  - destruct (merges config (List.last cur line) line) eqn:E.
    + apply IH.
    + destruct gs1 as [|g gs1]; cbn [app].
      * destruct (regroup_head [line] rest) as (more & groups & Hh).
        rewrite Hh. intros H. simplify_eq/=.
        now rewrite last_snoc in E.
      * intros H. simplify_eq/=. eapply IH. eassumption.
Qed.

End Reconstruction.

Section ReconstructionClaim.
Context (U : UnicodeDB) (config : Config.t).
Import HeadingExtractor.

Lemma merges_iff (prev_line current_line : LineInfo.t) :
  merges config prev_line current_line = true <->
  merge_conditions config prev_line current_line.
Proof.
  unfold merges, merge_conditions. cbv zeta.
  set (thr := Config.title_font_threshold config).
  assert (Hboth :
    Py.Qltb thr (LineInfo.size current_line) && Py.Qltb thr (LineInfo.size prev_line)
    = true <->
    (thr < LineInfo.size current_line)%Q /\ (thr < LineInfo.size prev_line)%Q).
  { now rewrite andb_true_iff, !Qltb_true. }
  destruct (Py.Qltb thr (LineInfo.size current_line)
            && Py.Qltb thr (LineInfo.size prev_line)) eqn:E;
    rewrite !andb_true_iff, eqb_true_iff, !Qltb_true.
  - assert (Hb := proj1 Hboth eq_refl). split.
    + intros [[H1 H2] H3]. split; [split|exact H3]; [auto|].
      intros Hn. contradiction.
    + intros [[H _] H3]. split; [auto|exact H3].
  - assert (Hn : ~ ((thr < LineInfo.size current_line)%Q
                    /\ (thr < LineInfo.size prev_line)%Q)).
    { intros H. apply Hboth in H. discriminate H. }
    split.
    + intros [[H1 H2] H3]. split; [split|exact H3]; [|auto].
      intros Hb. contradiction.
    + intros [[_ H] H3]. split; [auto|exact H3].
Qed.


End ReconstructionClaim.

Section ClusterStats.
Import HeadingExtractor.
Context {V : Type}.

Lemma dict_lookup_append (stats : list (Z * list V)) (k : Z) (v : V) (id : Z) :
  dict_lookup (dict_append stats k v) id =
  if (k =? id)%Z then dict_lookup stats k ++ [v] else dict_lookup stats id.
Proof.
  induction stats as [|[k' ts] stats IH]; cbn [dict_append dict_lookup].
  - reflexivity.
  - destruct (Z.eqb_spec k' k) as [->|Hne]; cbn [dict_lookup].
    + destruct (Z.eqb_spec k id); reflexivity.
    + rewrite IH. destruct (Z.eqb_spec k' id) as [->|Hne'].
      * destruct (Z.eqb_spec k id); [congruence|reflexivity].
      * reflexivity.
Qed.

Lemma dict_append_keys (stats : list (Z * list V)) (k : Z) (v : V) :
  List.map fst (dict_append stats k v) =
  List.map fst stats ++ (if existsb (Z.eqb k) (List.map fst stats) then [] else [k]).
Proof.
  induction stats as [|[k' ts] stats IH]; cbn [dict_append List.map existsb fst app].
  - reflexivity.
  - rewrite (Z.eqb_sym k k').
    destruct (Z.eqb_spec k' k) as [->|Hne]; cbn [List.map fst orb].
    + now rewrite app_nil_r.
    + now rewrite IH.
Qed.

Lemma fold_lookup (pairs : list (Z * V)) (stats : list (Z * list V)) (id : Z) :
  dict_lookup (fold_left add_pair pairs stats) id =
  dict_lookup stats id ++ members_of pairs id.
Proof.
  revert stats. induction pairs as [|[k v] pairs IH]; intros stats; cbn [fold_left].
  - unfold members_of. cbn. now rewrite app_nil_r.
  - rewrite IH. cbn [add_pair]. rewrite dict_lookup_append.
    unfold members_of. cbn [List.filter fst].
    destruct (Z.eqb_spec k id) as [->|Hne].
    + cbn [List.map snd]. now rewrite <- app_assoc.
    + reflexivity.
Qed.

Lemma fold_keys_NoDup (pairs : list (Z * V)) (stats : list (Z * list V)) :
  List.NoDup (List.map fst stats) ->
  List.NoDup (List.map fst (fold_left add_pair pairs stats)).
Proof.
  revert stats. induction pairs as [|[k v] pairs IH]; intros stats Hnd; cbn [fold_left].
  - exact Hnd.
  - apply IH. cbn [add_pair]. rewrite dict_append_keys.
    destruct (existsb (Z.eqb k) (List.map fst stats)) eqn:E.
    + now rewrite app_nil_r.
    + apply List.NoDup_app; [exact Hnd|repeat constructor; intros []|].
      intros x Hx [Hk|[]]. subst x.
      assert (existsb (Z.eqb k) (List.map fst stats) = true); [|congruence].
      apply existsb_exists. exists k. split; [exact Hx|apply Z.eqb_refl].
Qed.

Lemma fold_keys_In (pairs : list (Z * V)) (stats : list (Z * list V)) (id : Z) :
  In id (List.map fst (fold_left add_pair pairs stats)) <->
  In id (List.map fst stats) \/ In id (List.map fst pairs).
Proof.
  revert stats. induction pairs as [|[k v] pairs IH]; intros stats; cbn [fold_left].
  - cbn. tauto.
  - rewrite IH. cbn [add_pair List.map fst]. rewrite dict_append_keys, in_app_iff.
    destruct (existsb (Z.eqb k) (List.map fst stats)) eqn:E; cbn [In].
    + apply existsb_exists in E as (x & Hx & Hk). apply Z.eqb_eq in Hk. subst x.
      split; [tauto|]. intros [H|[<-|H]]; tauto.
    + tauto.
Qed.

Lemma dict_lookup_NoDup (stats : list (Z * list V)) :
  List.NoDup (List.map fst stats) ->
  stats = List.map (fun id => (id, dict_lookup stats id)) (List.map fst stats).
Proof.
  induction stats as [|[k ts] stats IH]; cbn [List.map fst dict_lookup]; intros Hnd.
  - reflexivity.
  - inversion Hnd as [|? ? Hnotin Hnd']; subst.
    rewrite Z.eqb_refl. f_equal.
    rewrite (IH Hnd') at 1. apply map_ext_in. intros id Hid.
    destruct (Z.eqb_spec k id) as [->|Hne]; [contradiction|reflexivity].
Qed.

End ClusterStats.

Lemma flat_map_map {A B C} (f : B -> list C) (g : A -> B) (l : list A) :
  flat_map f (List.map g l) = flat_map (fun x => f (g x)) l.
Proof. induction l as [|x l IH]; cbn; [reflexivity|now rewrite IH]. Qed.

Lemma map_fst_combine {A B} (l : list A) (l' : list B) :
  length l = length l' -> List.map fst (combine l l') = l.
Proof.
  revert l'. induction l as [|x l IH]; intros [|y l'] H; cbn in *;
    try reflexivity; try discriminate.
  f_equal. apply IH. lia.
Qed.

Section ClusteringClaim.
Context (U : UnicodeDB) (config : Config.t).
Context (fit_transform : list (list Q) -> result (list (list Q))).
Context (fit_predict : Z -> Z -> Z -> list (list Q) -> result (list Z)).
Import HeadingExtractor.

Lemma _select_heading_candidates_spec (all_texts : list Frag.t) (clusters : list Z) :
  length clusters = length all_texts ->
  exists ids,
    List.NoDup ids
    /\ (forall id, In id ids <-> In id clusters)
    /\ _select_heading_candidates U config all_texts clusters
       = Ok (contribution U config all_texts clusters ids).
Proof.
  intros Hlen. unfold _select_heading_candidates.
  assert ((length all_texts <? length clusters) = false) as ->
    by (apply Nat.ltb_ge; lia).
  unfold cluster_stats. fold (@add_pair Frag.t).
  set (pairs := combine clusters all_texts).
  set (stats := fold_left add_pair pairs []).
  assert (Hnd : List.NoDup (List.map fst stats))
    by (apply fold_keys_NoDup; constructor).
  exists (List.map fst stats). split; [exact Hnd|]. split.
  - intros id. unfold stats. rewrite fold_keys_In. cbn [List.map In].
    unfold pairs. rewrite map_fst_combine by exact Hlen. tauto.
  - f_equal. rewrite (dict_lookup_NoDup stats Hnd) at 1.
    rewrite flat_map_map. unfold contribution.
    apply flat_map_ext. intros id. cbv beta iota zeta.
    unfold stats. rewrite fold_lookup. reflexivity.
Qed.

(** C5. With fewer than five blocks in the document, all blocks are
    returned.  Otherwise, with [k = min(max_clusters, count //
    cluster_ratio)]: if [k < min_clusters] all blocks are returned;
    else, for the labels the clustering gives, the result is the
    concatenation over the distinct clusters of either all members of the
    cluster (score at least 5) or none. *)
Theorem clustering_falls_back_or_selects_whole_clusters
    (doc : doc_t) (all_texts : list Frag.t) :
  all_texts_from U config 0 doc = Ok all_texts ->
  (length all_texts < 5 ->
   _get_ml_heading_candidates U config fit_transform fit_predict doc = Ok all_texts)
  /\ (5 <= length all_texts ->
      forall features_scaled,
        fit_transform (List.map (features_of U) all_texts) = Ok features_scaled ->
        Config.cluster_ratio config <> 0%Z ->
        let k := Z.min (Config.max_clusters config)
                   (Z.of_nat (length all_texts) / Config.cluster_ratio config) in
        ((k < Config.min_clusters config)%Z ->
         _get_ml_heading_candidates U config fit_transform fit_predict doc
         = Ok all_texts)
        /\ ((Config.min_clusters config <= k)%Z ->
            forall clusters,
              fit_predict k (Config.random_state config) (Config.n_init config)
                features_scaled = Ok clusters ->
              length clusters = length all_texts ->
              exists ids,
                List.NoDup ids
                /\ (forall id, In id ids <-> In id clusters)
                /\ _get_ml_heading_candidates U config fit_transform fit_predict doc
                   = Ok (contribution U config all_texts clusters ids))).
Proof.
  intros Hall. unfold _get_ml_heading_candidates. rewrite Hall.
  cbn [mbind result_bind]. split.
  - intros Hlt. apply Nat.ltb_lt in Hlt. now rewrite Hlt.
  - intros Hge scaled Hscaled Hratio.
    set (k := Z.min (Config.max_clusters config)
                (Z.of_nat (length all_texts) / Config.cluster_ratio config)).
    assert ((length all_texts <? 5) = false) as -> by (apply Nat.ltb_ge; lia).
    unfold _cluster_headings. rewrite Hscaled. cbn [mbind result_bind].
    unfold n_clusters_of.
    assert ((Config.cluster_ratio config =? 0)%Z = false) as ->
      by (apply Z.eqb_neq; exact Hratio).
    cbn [mbind result_bind]. fold k. split.
    + intros Hk. apply Z.ltb_lt in Hk. now rewrite Hk.
    + intros Hk clusters Hfit Hlen.
      assert ((k <? Config.min_clusters config)%Z = false) as ->
        by (apply Z.ltb_ge; lia).
      rewrite Hfit. cbn [mbind result_bind].
      now apply _select_heading_candidates_spec.
Qed.

End ClusteringClaim.

Section OutlineOrder.
Context (U : UnicodeDB).
Import LevelDeterminer AccuracyEnhancer.

Lemma position_le_iff (a b : Frag.t) :
  position_le a b = true <-> before_or_at a b.
Proof.
  unfold position_le, before_or_at.
  now rewrite orb_true_iff, andb_true_iff, Z.ltb_lt, Z.eqb_eq, Qleb_true.
Qed.

Lemma position_le_total (a b : Frag.t) :
  position_le a b = false -> position_le b a = true.
Proof.
  intros H. apply position_le_iff.
  assert (Hn : ~ before_or_at a b).
  { intros Hb. apply position_le_iff in Hb. congruence. }
  unfold before_or_at in *.
  destruct (Z.lt_trichotomy (Frag.page a) (Frag.page b)) as [Hlt|[Heq|Hgt]].
  - tauto.
  - right. split; [congruence|].
    destruct (Qlt_le_dec (y_of b) (y_of a)) as [Hy|Hy]; [now apply Qlt_le_weak|].
    tauto.
  - now left.
Qed.

Lemma position_le_trans (a b c : Frag.t) :
  position_le a b = true -> position_le b c = true -> position_le a c = true.
Proof.
  rewrite !position_le_iff. unfold before_or_at.
  intros [Hab|[Hab Hyab]] [Hbc|[Hbc Hybc]].
  - left. lia.
  - left. lia.
  - left. lia.
  - right. split; [congruence|]. eapply Qle_trans; eassumption.
Qed.

Lemma build_hierarchy_sorted (candidates : list Frag.t) :
  exists sorted,
    Permutation candidates sorted
    /\ StronglySorted before_or_at sorted
    /\ build_hierarchy U candidates = List.map (entry_of U sorted) sorted.
Proof.
  exists (Py.stable_sort position_le candidates).
  split; [apply stable_sort_perm|]. split.
  - eapply StronglySorted_weaken;
      [|apply (stable_sort_StronglySorted position_le)].
    + intros a b. apply position_le_iff.
    + apply position_le_total.
    + apply position_le_trans.
  - unfold build_hierarchy. destruct candidates; reflexivity.
Qed.

Lemma In_combine_map {A B} (f : A -> B) (l : list A) (p : A * B) :
  In p (combine l (List.map f l)) -> snd p = f (fst p).
Proof.
  induction l as [|x l IH]; cbn; [intros []|].
  intros [<-|H]; [reflexivity|auto].
Qed.

Lemma quality_scoring_sorted (candidates : list Heading.t) :
  exists pairs,
    (_apply_quality_scoring U candidates).1 = List.map fst pairs
    /\ Forall (fun p => snd p = _calculate_quality_score U (fst p) candidates) pairs
    /\ StronglySorted (fun a b => (snd b <= snd a)%Q) pairs.
Proof.
  unfold _apply_quality_scoring, final_candidates_of. cbn [fst].
  set (scores := List.map _ candidates).
  set (thr := _calculate_dynamic_threshold_from_scores scores).
  exists (List.filter (fun pair => Py.Qleb thr (snd pair))
            (candidate_score_pairs candidates scores)).
  split; [reflexivity|]. split.
  - apply List.Forall_forall. intros p Hp. apply filter_In in Hp as [Hp _].
    unfold candidate_score_pairs in Hp.
    apply (Permutation_in _ (Permutation_sym (stable_sort_perm _ _))) in Hp.
    now apply In_combine_map in Hp.
  - apply StronglySorted_filter. unfold candidate_score_pairs.
    eapply StronglySorted_weaken;
      [|apply (stable_sort_StronglySorted (fun a b : Heading.t * Q => Py.Qleb (snd b) (snd a)))].
    + intros a b. apply Qleb_true.
    + intros a b. apply Qleb_total.
    + intros a b c Hab Hbc. eapply Qleb_trans; eassumption.
Qed.

End OutlineOrder.

Section StructuralPatterns.
Context (U : UnicodeDB).
Import LevelDeterminer.

(** No character of the database is both a decimal digit and white
    space. *)
Hypothesis digit_not_space :
  forall c, uni_isdecimal U c = true -> uni_isspace U c = false.

Lemma isdecimal_not_isspace (c : char) :
  isdecimal U c = true -> isspace U c = false.
Proof.
  unfold isdecimal, isspace. destruct (is_ascii c); [|apply digit_not_space].
  unfold in_range. intros H. apply andb_true_iff in H as [H1 H2].
  apply N.leb_le in H1, H2.
  apply orb_false_iff. split; apply andb_false_iff.
  - right. apply N.leb_gt. lia.
  - right. apply N.leb_gt. lia.
Qed.

Lemma AZ_not_isdecimal (c : char) :
  in_range 65 90 c = true -> isdecimal U c = false.
Proof.
  unfold isdecimal, is_ascii, in_range. intros H.
  apply andb_true_iff in H as [H1 H2]. apply N.leb_le in H1, H2.
  assert ((c <? 128)%N = true) as -> by (apply N.ltb_lt; lia).
  apply andb_false_iff. right. apply N.leb_gt. lia.
Qed.

(** A continuation that rejects every text starting in the class can
    only be entered after the whole run. *)
Lemma star_chr_skip p k prev s :
  (forall prev c s', p c = true -> k prev (c :: s') = false) ->
  star_chr p k prev s = true ->
  exists prev', k prev' (skip p s) = true.
Proof.
  intros Hk. revert prev. induction s as [|c s IH]; intros prev; cbn [star_chr skip].
  - rewrite orb_false_r. eauto.
  - destruct (p c) eqn:E.
    + rewrite (Hk prev c s E). cbn [orb andb]. apply IH.
    + rewrite andb_false_l, orb_false_r. eauto.
Qed.

Lemma go_dot_rejects_digits (k : option char -> str -> bool) prev c s' :
  isdecimal U c = true -> go dot k prev (c :: s') = false.
Proof.
  intros Hc. cbn [go dot Ch]. destruct (N.eqb_spec 46 c) as [<-|]; [|reflexivity].
  discriminate Hc.
Qed.

Lemma go_spaces_reject_digits (k : option char -> str -> bool) prev c s' :
  isdecimal U c = true -> go (Plus (sp U)) k prev (c :: s') = false.
Proof.
  intros Hc. unfold sp. rewrite go_Plus_Chr.
  now rewrite (isdecimal_not_isspace c Hc).
Qed.

Lemma number_dot_then (k : option char -> str -> bool) (s : str) :
  go (Plus (d U)) (go dot k) None s = true ->
  exists t, after_number U s = Some t /\ exists prev, k prev t = true.
Proof.
  unfold d. rewrite go_Plus_Chr. destruct s as [|c s']; [discriminate|].
  intros H. apply andb_true_iff in H as [Hc H].
  apply star_chr_skip in H as [prev H];
    [|intros; now apply go_dot_rejects_digits].
  unfold after_number. rewrite Hc.
  destruct (skip (isdecimal U) s') as [|c' t]; [discriminate H|].
  cbn [go dot Ch] in H. apply andb_true_iff in H as [H46 H].
  rewrite H46. eauto.
Qed.

Lemma re_numbered_shape (s : str) :
  match_ (re_numbered U) s = true ->
  exists c t, after_number U s = Some (c :: t) /\ isspace U c = true.
Proof.
  unfold match_, re_numbered. cbn [seq go].
  intros H. apply number_dot_then in H as (t & Ht & prev & H).
  unfold sp in H. rewrite go_Plus_Chr in H.
  destruct t as [|c t]; [discriminate|].
  apply andb_true_iff in H as [Hc _]. eauto.
Qed.

Lemma re_numbered2_shape (s : str) :
  match_ (re_numbered2 U) s = true ->
  exists c t, after_number U s = Some (c :: t) /\ isdecimal U c = true
    /\ exists c' t', skip (isdecimal U) t = c' :: t' /\ isspace U c' = true.
Proof.
  unfold match_, re_numbered2. cbn [seq go].
  intros H. apply number_dot_then in H as (t & Ht & prev & H).
  unfold d in H. rewrite go_Plus_Chr in H.
  destruct t as [|c t]; [discriminate|].
  apply andb_true_iff in H as [Hc H].
  exists c, t. split; [exact Ht|]. split; [exact Hc|].
  apply star_chr_skip in H as [prev' H];
    [|intros; now apply go_spaces_reject_digits].
  unfold sp in H. rewrite go_Plus_Chr in H.
  destruct (skip (isdecimal U) t) as [|c' t']; [discriminate|].
  apply andb_true_iff in H as [Hc' _]. eauto.
Qed.

Lemma re_numbered3_shape (s : str) :
  match_ (re_numbered3 U) s = true ->
  exists c t, after_number U s = Some (c :: t) /\ isdecimal U c = true
    /\ exists t', skip (isdecimal U) t = 46%N :: t'.
Proof.
  unfold match_, re_numbered3. cbn [seq go].
  intros H. apply number_dot_then in H as (t & Ht & prev & H).
  unfold d in H. rewrite go_Plus_Chr in H.
  destruct t as [|c t]; [discriminate|].
  apply andb_true_iff in H as [Hc H].
  exists c, t. split; [exact Ht|]. split; [exact Hc|].
  apply star_chr_skip in H as [prev' H];
    [|intros; now apply go_dot_rejects_digits].
  destruct (skip (isdecimal U) t) as [|c' t']; [discriminate|].
  cbn [go dot Ch] in H. apply andb_true_iff in H as [H46 _].
  apply N.eqb_eq in H46. subst c'. eauto.
Qed.

Lemma after_number_first_digit (s t : str) :
  after_number U s = Some t -> exists c s', s = c :: s' /\ isdecimal U c = true.
Proof.
  unfold after_number. destruct s as [|c s']; [discriminate|].
  destruct (isdecimal U c) eqn:E; [eauto|discriminate].
Qed.

Lemma re_lettered_first (s : str) :
  match_ (re_lettered U) s = true ->
  exists c s', s = c :: s' /\ in_range 65 90 c = true.
Proof.
  unfold match_, re_lettered. cbn [seq go AZ].
  destruct s as [|c s']; [discriminate|].
  intros H. apply andb_true_iff in H as [Hc _]. eauto.
Qed.

Lemma re_roman_first (s : str) :
  match_ (re_roman U) s = true ->
  exists c s', s = c :: s' /\ in_range 65 90 c = true.
Proof.
  unfold match_, re_roman. cbn [seq go]. unfold IVX. rewrite go_Plus_Chr.
  destruct s as [|c s']; [discriminate|].
  intros H. apply andb_true_iff in H as [Hc _]. exists c, s'. split; [reflexivity|].
  repeat (apply orb_true_iff in Hc as [Hc|Hc]);
    apply N.eqb_eq in Hc; subst c; reflexivity.
Qed.

(** The three numbered patterns exclude one another and the two letter
    patterns; the lettered and the roman pattern are the one pair that
    overlaps. *)
Lemma structural_patterns_exclusive (text : str) :
  let m r := match_ r text = true in
  ~ (m (re_numbered U) /\ m (re_numbered2 U))
  /\ ~ (m (re_numbered U) /\ m (re_numbered3 U))
  /\ ~ (m (re_numbered2 U) /\ m (re_numbered3 U))
  /\ (m (re_numbered U) \/ m (re_numbered2 U) \/ m (re_numbered3 U) ->
      ~ m (re_lettered U) /\ ~ m (re_roman U)).
Proof.
  cbv zeta. repeat split.
  - intros [H1 H2].
    apply re_numbered_shape in H1 as (c & t & Ha & Hs).
    apply re_numbered2_shape in H2 as (c2 & t2 & Ha2 & Hd & _).
    rewrite Ha in Ha2. injection Ha2 as <- <-.
    rewrite (isdecimal_not_isspace c Hd) in Hs. discriminate.
  - intros [H1 H3].
    apply re_numbered_shape in H1 as (c & t & Ha & Hs).
    apply re_numbered3_shape in H3 as (c2 & t2 & Ha2 & Hd & _).
    rewrite Ha in Ha2. injection Ha2 as <- <-.
    rewrite (isdecimal_not_isspace c Hd) in Hs. discriminate.
  - intros [H2 H3].
    apply re_numbered2_shape in H2 as (c & t & Ha & _ & c' & t' & Hsk & Hs).
    apply re_numbered3_shape in H3 as (c2 & t2 & Ha2 & _ & t3 & Hsk3).
    rewrite Ha in Ha2. injection Ha2 as <- <-.
    rewrite Hsk in Hsk3. injection Hsk3 as -> _. discriminate Hs.
  - intros Hl. apply re_lettered_first in Hl as (c & s' & -> & Hc).
    assert (Hn : exists t, after_number U (c :: s') = Some t).
    { destruct H as [H|[H|H]].
      - apply re_numbered_shape in H as (? & ? & ? & _); eauto.
      - apply re_numbered2_shape in H as (? & ? & ? & _); eauto.
      - apply re_numbered3_shape in H as (? & ? & ? & _); eauto. }
    destruct Hn as [t Ht].
    apply after_number_first_digit in Ht as (c0 & s0 & [= <- <-] & Hd).
    rewrite (AZ_not_isdecimal c Hc) in Hd. discriminate.
  - intros Hl. apply re_roman_first in Hl as (c & s' & -> & Hc).
    assert (Hn : exists t, after_number U (c :: s') = Some t).
    { destruct H as [H|[H|H]].
      - apply re_numbered_shape in H as (? & ? & ? & _); eauto.
      - apply re_numbered2_shape in H as (? & ? & ? & _); eauto.
      - apply re_numbered3_shape in H as (? & ? & ? & _); eauto. }
    destruct Hn as [t Ht].
    apply after_number_first_digit in Ht as (c0 & s0 & [= <- <-] & Hd).
    rewrite (AZ_not_isdecimal c Hc) in Hd. discriminate.
Qed.

(** The level is the one of the first pattern of the list that
    matches. *)
Lemma _get_structural_level_first_match (text : str) :
  _get_structural_level U text =
  option_map snd
    (List.find (fun rl : re * level => match_ (fst rl) text)
       [(re_numbered U, H1); (re_numbered2 U, H2); (re_numbered3 U, H3);
        (re_lettered U, H2); (re_roman U, H1)]).
Proof.
  unfold _get_structural_level. cbn [List.find fst].
  repeat match goal with |- context [if ?b then _ else _] => destruct b end;
    reflexivity.
Qed.

(** Unless the text matches both the lettered and the roman pattern, the
    level is the one of any pattern that matches, whatever the order. *)
Lemma structural_level_of_any_match (text : str) (r : re) (l : level) :
  In (r, l)
    [(re_numbered U, H1); (re_numbered2 U, H2); (re_numbered3 U, H3);
     (re_lettered U, H2); (re_roman U, H1)] ->
  match_ r text = true ->
  ~ (match_ (re_lettered U) text = true /\ match_ (re_roman U) text = true) ->
  _get_structural_level U text = Some l.
Proof.
  intros Hin Hm Hlr.
  destruct (structural_patterns_exclusive text) as (H12 & H13 & H23 & Hnum).
  cbv zeta in *. unfold _get_structural_level.
  destruct (match_ (re_numbered U) text) eqn:E1;
  destruct (match_ (re_numbered2 U) text) eqn:E2;
  destruct (match_ (re_numbered3 U) text) eqn:E3;
  destruct (match_ (re_lettered U) text) eqn:E4;
  destruct (match_ (re_roman U) text) eqn:E5;
  try (exfalso; tauto);
  try (exfalso; destruct Hnum as [? ?]; [tauto|congruence]);
  cbn [In] in Hin;
  repeat (destruct Hin as [Hin|Hin]; [injection Hin as <- <-; congruence|]);
  destruct Hin.
Qed.

End StructuralPatterns.

Section OutlineOrderClaim.
Context (U : UnicodeDB).
Import LevelDeterminer AccuracyEnhancer PdfExtractor.

(** C8, as amended. [build_hierarchy] emits the entries of the
    candidates in the order of (page, vertical position); this is the
    final outline when accuracy enhancement is off, and when it is on
    the final outline is in descending order of quality score. *)
Theorem outline_order_by_stage :
  (forall candidates : list Frag.t, exists sorted,
      Permutation candidates sorted
      /\ StronglySorted before_or_at sorted
      /\ HeadingExtractor._build_heading_hierarchy U candidates
         = List.map (entry_of U sorted) sorted)
  /\ (forall raw_headings, (accuracy_stage U false raw_headings).1 = raw_headings)
  /\ (forall raw_headings, exists scored pairs,
        (accuracy_stage U true raw_headings).1 = List.map fst pairs
        /\ Forall (fun p => snd p = _calculate_quality_score U (fst p) scored) pairs
        /\ StronglySorted (fun a b => (snd b <= snd a)%Q) pairs).
Proof.
  split; [apply build_hierarchy_sorted|]. split; [reflexivity|].
  intros raw. unfold accuracy_stage, enhance_heading_detection. cbn [fst].
  eexists. apply quality_scoring_sorted.
Qed.

End OutlineOrderClaim.


(** ** Splitting and joining on white space *)

Section SplitFacts.
Context (U : UnicodeDB).

Lemma split_loop_app_word (w cur s : str) :
  forallb (fun c => negb (isspace U c)) w = true ->
  split_loop U cur (w ++ s) = split_loop U (rev w ++ cur) s.
Proof.
  revert cur. induction w as [|c w IH]; intros cur Hw; [reflexivity|].
  cbn in Hw. apply andb_true_iff in Hw as [Hc Hw].
  cbn [app split_loop rev]. destruct (isspace U c); [discriminate|].
  rewrite IH by assumption. rewrite <- app_assoc. reflexivity.
Qed.

Lemma split_loop_words (cur s : str) :
  forallb (fun c => negb (isspace U c)) cur = true ->
  Forall (is_word U) (split_loop U cur s).
Proof.
  revert cur. induction s as [|c s IH]; intros cur Hcur.
  - cbn. destruct cur as [|x cur]; constructor; [|constructor].
    split.
    + intros E. apply (f_equal (@length _)) in E.
      rewrite length_rev in E. discriminate.
    + rewrite forallb_forall in *. intros y Hy. apply Hcur.
      apply in_rev. exact Hy.
  - cbn [split_loop]. destruct (isspace U c) eqn:Ec.
    + destruct cur as [|x cur]; [apply IH; reflexivity|].
      constructor; [|apply IH; reflexivity].
      split.
      * intros E. apply (f_equal (@length _)) in E.
        rewrite length_rev in E. discriminate.
      * rewrite forallb_forall in *. intros y Hy. apply Hcur.
        apply in_rev. exact Hy.
    + apply IH. cbn. rewrite Ec. exact Hcur.
Qed.

Lemma split_words (s : str) : Forall (is_word U) (split U s).
Proof. apply split_loop_words. reflexivity. Qed.

Lemma split_loop_app_space (cur a b : str) :
  split_loop U cur (a ++ lit " " ++ b) = split_loop U cur a ++ split U b.
Proof.
  revert cur. induction a as [|c a IH]; intros cur.
  - cbn. destruct cur; reflexivity.
  - cbn [app split_loop]. destruct (isspace U c).
    + destruct cur; rewrite IH; reflexivity.
    + apply IH.
Qed.

Lemma split_app_space (a b : str) :
  split U (a ++ lit " " ++ b) = split U a ++ split U b.
Proof. apply split_loop_app_space. Qed.

Lemma split_join_texts (texts : list str) :
  split U (join (lit " ") texts) = concat (List.map (split U) texts).
Proof.
  induction texts as [|t texts IH]; [reflexivity|].
  destruct texts as [|t' texts].
  - cbn. rewrite app_nil_r. reflexivity.
  - change (join (lit " ") (t :: t' :: texts))
      with (t ++ lit " " ++ join (lit " ") (t' :: texts)).
    rewrite split_app_space, IH. reflexivity.
Qed.

Lemma split_word (w : str) : is_word U w -> split U w = [w].
Proof.
  intros [Hne Hw]. unfold split.
  rewrite <- (app_nil_r w) at 1. rewrite split_loop_app_word by assumption.
  cbn. rewrite app_nil_r. destruct (rev w) eqn:E.
  - apply (f_equal (@rev _)) in E. rewrite rev_involutive in E. contradiction.
  - rewrite <- E, rev_involutive. reflexivity.
Qed.

Lemma concat_split_words (ws : list str) :
  Forall (is_word U) ws -> concat (List.map (split U) ws) = ws.
Proof.
  induction 1 as [|w ws Hw _ IH]; [reflexivity|].
  cbn. rewrite split_word by assumption. rewrite IH. reflexivity.
Qed.

Lemma split_join (ws : list str) :
  Forall (is_word U) ws -> split U (join (lit " ") ws) = ws.
Proof. intros H. rewrite split_join_texts. apply concat_split_words, H. Qed.

Lemma split_lstrip (s : str) : split U (lstrip U s) = split U s.
Proof.
  induction s as [|c s IH]; [reflexivity|].
  cbn [lstrip]. destruct (isspace U c) eqn:Ec; [|reflexivity].
  rewrite IH. unfold split. cbn [split_loop]. rewrite Ec. reflexivity.
Qed.

Lemma split_loop_trailing (cur s ws : str) :
  forallb (isspace U) ws = true ->
  split_loop U cur (s ++ ws) = split_loop U cur s.
Proof.
  intros Hws. revert cur. induction s as [|c s IH]; intros cur.
  - cbn [app]. revert cur. induction ws as [|w ws IHw]; intros cur; [reflexivity|].
    cbn in Hws. apply andb_true_iff in Hws as [Hw Hws].
    cbn [split_loop]. rewrite Hw. destruct cur.
    + apply IHw, Hws.
    + rewrite IHw by assumption. reflexivity.
  - cbn [app split_loop]. destruct (isspace U c); [destruct cur|]; rewrite IH; reflexivity.
Qed.

Lemma lstrip_decompose (s : str) :
  exists ws, forallb (isspace U) ws = true /\ s = ws ++ lstrip U s.
Proof.
  induction s as [|c s [ws [Hws E]]].
  - exists []. split; reflexivity.
  - cbn [lstrip]. destruct (isspace U c) eqn:Ec.
    + exists (c :: ws). split; [cbn; rewrite Ec; exact Hws|].
      cbn. rewrite <- E. reflexivity.
    + exists []. split; reflexivity.
Qed.

Lemma forallb_rev {A} (f : A -> bool) (l : list A) :
  forallb f (rev l) = forallb f l.
Proof.
  induction l as [|x l IH]; [reflexivity|].
  cbn. rewrite forallb_app, IH. cbn. rewrite andb_true_r. apply andb_comm.
Qed.

Lemma split_rstrip (s : str) : split U (rstrip U s) = split U s.
Proof.
  unfold rstrip. destruct (lstrip_decompose (rev s)) as [ws [Hws E]].
  apply (f_equal (@rev _)) in E. rewrite rev_involutive, rev_app_distr in E.
  rewrite E at 2. unfold split. rewrite split_loop_trailing; [reflexivity|].
  rewrite forallb_rev. exact Hws.
Qed.

Lemma split_strip (s : str) : split U (strip U s) = split U s.
Proof. unfold strip. rewrite split_rstrip. apply split_lstrip. Qed.

(** The first and the last character of a joined list of words. *)
Lemma lstrip_nonspace (s : str) :
  match s with c :: _ => isspace U c = false | [] => True end ->
  lstrip U s = s.
Proof. destruct s as [|c s]; [reflexivity|]. cbn. intros ->. reflexivity. Qed.

Lemma join_words_head (ws : list str) :
  Forall (is_word U) ws ->
  match join (lit " ") ws with c :: _ => isspace U c = false | [] => True end.
Proof.
  intros H. destruct H as [|w ws [Hne Hw] H]; [exact I|].
  destruct w as [|c w]; [contradiction|].
  cbn in Hw. apply andb_true_iff in Hw as [Hc _].
  apply negb_true_iff in Hc.
  destruct ws; cbn; exact Hc.
Qed.

Lemma rev_join (ws : list str) :
  rev (join (lit " ") ws) = join (lit " ") (rev (List.map (@rev _) ws)).
Proof.
  assert (Hsnoc : forall (l : list str) (x : str), l <> [] ->
            join (lit " ") (l ++ [x]) = join (lit " ") l ++ lit " " ++ x).
  { induction l as [|y l IH]; intros x Hne; [contradiction|].
    destruct l as [|z l]; [reflexivity|].
    change (join (lit " ") ((y :: z :: l) ++ [x]))
      with (y ++ lit " " ++ join (lit " ") ((z :: l) ++ [x])).
    rewrite IH by discriminate.
    change (join (lit " ") (y :: z :: l)) with (y ++ lit " " ++ join (lit " ") (z :: l)).
    rewrite <- !app_assoc. reflexivity. }
  induction ws as [|w ws IH]; [reflexivity|].
  destruct ws as [|w' ws].
  - cbn. reflexivity.
  - change (join (lit " ") (w :: w' :: ws))
      with (w ++ lit " " ++ join (lit " ") (w' :: ws)).
    rewrite !rev_app_distr, IH.
    change (rev (List.map (@rev _) (w :: w' :: ws)))
      with (rev (List.map (@rev _) (w' :: ws)) ++ [rev w]).
    rewrite Hsnoc.
    + rewrite <- !app_assoc. reflexivity.
    + intros E. apply (f_equal (@length _)) in E.
      rewrite length_rev, length_map in E. discriminate.
Qed.

Lemma is_word_rev (w : str) : is_word U w -> is_word U (rev w).
Proof.
  intros [Hne Hw]. split.
  - intros E. apply Hne. apply (f_equal (@rev _)) in E.
    rewrite rev_involutive in E. exact E.
  - rewrite forallb_rev. exact Hw.
Qed.

Lemma strip_join_words (ws : list str) :
  Forall (is_word U) ws -> strip U (join (lit " ") ws) = join (lit " ") ws.
Proof.
  intros H. unfold strip, rstrip.
  rewrite (lstrip_nonspace (join _ ws)) by (apply join_words_head, H).
  rewrite lstrip_nonspace; [apply rev_involutive|].
  rewrite rev_join. apply join_words_head.
  apply Forall_rev. apply List.Forall_map.
  eapply List.Forall_impl; [|exact H]. intros w. apply is_word_rev.
Qed.

End SplitFacts.

(** ** The shape of reconstructed texts *)

Section TextShape.
Context (U : UnicodeDB).
Import HeadingExtractor AccuracyEnhancer.

Lemma reconstruct_text_words (text_group : list LineInfo.t) :
  _reconstruct_fragmented_text U text_group
  = join (lit " ")
      (concat (List.map (fun line => split U (LineInfo.text line)) text_group)).
Proof.
  unfold _reconstruct_fragmented_text.
  destruct text_group as [|l g]; [reflexivity|].
  rewrite split_strip, split_join_texts, List.map_map. reflexivity.
Qed.

Lemma Forall_concat_words (texts : list str) :
  Forall (is_word U) (concat (List.map (split U) texts)).
Proof.
  induction texts as [|t texts IH]; [constructor|].
  cbn. apply Forall_app. split; [apply split_words|exact IH].
Qed.

Lemma reconstruct_text_strip (text_group : list LineInfo.t) :
  strip U (_reconstruct_fragmented_text U text_group)
  = _reconstruct_fragmented_text U text_group.
Proof.
  rewrite reconstruct_text_words. apply strip_join_words.
  rewrite <- (List.map_map LineInfo.text (split U)).
  apply Forall_concat_words.
Qed.

End TextShape.

(** ** What the heading filter keeps *)

Section FilterInvariants.
Context (U : UnicodeDB) (config : Config.t) (profile : doc_profile).
Import HeadingFilter.

Lemma bind_Ok_inv {A B} (m : result A) (k : A -> result B) (b : B) :
  mbind k m = Ok b -> exists a, m = Ok a /\ k a = Ok b.
Proof. destruct m as [a|e]; cbn; [eauto|discriminate]. Qed.

Lemma bind_Raise_inv {A B} (m : result A) (k : A -> result B) (e : exn) :
  mbind k m = Raise e -> m = Raise e \/ exists a, m = Ok a /\ k a = Raise e.
Proof. destruct m as [a|e']; cbn; [eauto|]. intros [= ->]. left. reflexivity. Qed.

Lemma keeps_true_inv seen c :
  keeps U config profile seen c = Ok true ->
  let text := tested_text U c in
  (text ∉ seen)
  /\ _is_noise_text U config text = false
  /\ _is_unlikely_heading U text = false
  /\ 8 <= length text
  /\ looks_like_fragments U config text = false
  /\ _passes_document_filters config text (lower U text) profile = Ok true
  /\ _has_good_heading_structure U config text = Ok true
  /\ _is_repetitive_content U text seen = false
  /\ _is_likely_heading_content U text = true.
Proof.
  unfold keeps, tested_text. intros H. cbn zeta.
  set (text := strip U (Frag.text c)) in *.
  destruct (bool_decide (text ∈ seen)) eqn:Eseen; [discriminate|].
  apply bool_decide_eq_false in Eseen.
  destruct (_is_noise_text U config text) eqn:En; [discriminate|].
  destruct (_is_unlikely_heading U text) eqn:Eu; [discriminate|].
  cbn [orb] in H.
  destruct (length text <? 8) eqn:El; [discriminate|].
  apply Nat.ltb_ge in El.
  destruct (looks_like_fragments U config text) eqn:Ef; [discriminate|].
  apply bind_Ok_inv in H as [passes [Ep H]].
  destruct passes; [|discriminate]. cbn [negb] in H.
  apply bind_Ok_inv in H as [good [Eg H]].
  injection H as H. apply andb_true_iff in H as [H Hl].
  apply andb_true_iff in H as [-> Hr]. apply negb_true_iff in Hr.
  repeat split; assumption.
Qed.

Lemma keeps_raise_inv seen c e :
  keeps U config profile seen c = Raise e ->
  e = KeyError (lit "max_technical_heading")
  /\ is_form profile = false /\ is_academic profile = false
  /\ is_technical profile = true
  /\ Config.max_technical_heading config = None.
Proof.
  unfold keeps. intros H.
  set (text := strip U (Frag.text c)) in *.
  destruct (bool_decide (text ∈ seen)); [discriminate|].
  destruct (_is_noise_text U config text || _is_unlikely_heading U text);
    [discriminate|].
  destruct (length text <? 8) eqn:El; [discriminate|].
  apply Nat.ltb_ge in El.
  destruct (looks_like_fragments U config text); [discriminate|].
  apply bind_Raise_inv in H as [H|[passes [Ep H]]].
  - unfold _passes_document_filters in H.
    destruct (is_form profile); [discriminate|].
    destruct (is_academic profile); [discriminate|].
    destruct (is_technical profile); [|discriminate].
    destruct (length text <? Config.min_text_length config); [discriminate|].
    destruct (Config.max_technical_heading config); [discriminate|].
    injection H as <-. repeat split; reflexivity.
  - destruct passes; [|discriminate]. cbn [negb] in H.
    apply bind_Raise_inv in H as [H|[good [_ H]]]; [|discriminate].
    unfold _has_good_heading_structure in H.
    destruct text as [|c0 text]; [cbn in El; lia|].
    repeat match type of H with
           | (if ?b then _ else _) = _ => destruct b
           end; discriminate.
Qed.

Lemma filter_step_raise_inv st c e :
  filter_step U config profile st c = Raise e ->
  keeps U config profile st.2 c = Raise e.
Proof.
  unfold filter_step. intros H.
  apply bind_Raise_inv in H as [H|[keep [_ H]]]; [exact H|discriminate].
Qed.

Lemma filter_loop_raise (candidates : list Frag.t) st e :
  foldM (filter_step U config profile) st candidates = Raise e ->
  exists seen c, keeps U config profile seen c = Raise e.
Proof.
  revert st. induction candidates as [|c candidates IH]; intros st H;
    [discriminate|].
  cbn [foldM] in H. apply bind_Raise_inv in H as [H|[st1 [_ H]]].
  - apply filter_step_raise_inv in H. eauto.
  - eapply IH, H.
Qed.

(** The invariant of the loop: what has been appended is a subsequence
    of what has been read, each text was tested against the texts seen
    before it, and the set of seen texts grows by the texts appended. *)
Lemma filter_loop_inv (candidates : list Frag.t) st st' :
  foldM (filter_step U config profile) st candidates = Ok st' ->
  exists kept,
    st'.1 = st.1 ++ kept
    /\ sublist kept candidates
    /\ (forall t, t ∈ st'.2 <-> In t (List.map (tested_text U) kept) \/ t ∈ st.2)
    /\ List.NoDup (List.map (tested_text U) kept)
    /\ Forall (fun c => tested_text U c ∉ st.2) kept
    /\ Forall (fun c => exists seen, keeps U config profile seen c = Ok true) kept.
Proof.
  revert st. induction candidates as [|c candidates IH]; intros st H.
  - injection H as <-. exists []. rewrite app_nil_r.
    repeat split; try constructor; cbn; tauto.
  - cbn [foldM] in H. apply bind_Ok_inv in H as [st1 [Hstep H]].
    apply filter_step_inv in Hstep as [[Hk ->]|[Hk ->]].
    + apply IH in H as (kept & E1 & Hsub & E2 & Hnd & Hnot & Hall).
      cbn [fst snd] in *. fold (tested_text U c) in *.
      exists (c :: kept). rewrite E1, <- app_assoc. split; [reflexivity|].
      split; [apply sublist_skip, Hsub|].
      split.
      { intros t. rewrite E2, elem_of_union, elem_of_singleton. cbn.
        intuition congruence. }
      split.
      { cbn. constructor; [|exact Hnd].
        rewrite List.Forall_forall in Hnot. intros Hin.
        apply in_map_iff in Hin as [x [Ex Hx]].
        apply Hnot in Hx. rewrite Ex in Hx.
        apply Hx, elem_of_union_l, elem_of_singleton. reflexivity. }
      split.
      { constructor.
        - apply keeps_true_inv in Hk. apply Hk.
        - eapply List.Forall_impl; [|exact Hnot].
          cbn. intros x Hx Hin. apply Hx, elem_of_union_r, Hin. }
      constructor; [eauto|exact Hall].
    + apply IH in H as (kept & E1 & Hsub & E2 & Hnd & Hnot & Hall).
      exists kept. repeat split; try assumption; try apply E2.
      apply sublist_cons, Hsub.
Qed.

Lemma filter_candidates_inv (candidates kept : list Frag.t) :
  filter_candidates U config candidates profile = Ok kept ->
  sublist kept candidates
  /\ List.NoDup (List.map (tested_text U) kept)
  /\ Forall (fun c => exists seen, keeps U config profile seen c = Ok true) kept.
Proof.
  unfold filter_candidates. destruct candidates as [|c candidates].
  - intros [= <-]. repeat split; constructor.
  - intros H. apply bind_Ok_inv in H as [st [H E]]. injection E as <-.
    apply filter_loop_inv in H as (k & E1 & Hsub & _ & Hnd & _ & Hall).
    cbn in E1. rewrite E1. repeat split; assumption.
Qed.

End FilterInvariants.

(** ** The candidates of a document *)

Section Candidates.
Context (U : UnicodeDB) (config : Config.t).
Context (fit_transform : list (list Q) -> result (list (list Q))).
Context (fit_predict : Z -> Z -> Z -> list (list Q) -> result (list Z)).
Import HeadingExtractor.

Lemma block_of_shape (g : list LineInfo.t) (page_num : nat) :
  Forall (block_shape U page_num) (block_of U g page_num).
Proof.
  unfold block_of. destruct g as [|first g]; [constructor|].
  destruct (5 <? _) eqn:E; [|constructor].
  apply Nat.ltb_lt in E.
  constructor; [|constructor].
  unfold block_shape. cbn [Frag.page Frag.text Frag.length].
  repeat split; try assumption. apply reconstruct_text_strip.
Qed.

Lemma reconstruct_blocks_shape (lines_info : list LineInfo.t) (page_num : nat)
    (blocks : list Frag.t) :
  _reconstruct_text_blocks U config lines_info page_num = Ok blocks ->
  Forall (block_shape U page_num) blocks.
Proof.
  unfold _reconstruct_text_blocks. destruct lines_info as [|first rest];
    [discriminate|].
  intros [= <-].
  pose proof (reconstruct_loop_regroup U config page_num rest ([], [first])) as E.
  cbn zeta in E. rewrite E. cbn [fst snd app].
  apply Forall_flat_map, List.Forall_forall. intros g _. apply block_of_shape.
Qed.

Lemma page_texts_shape (page_num : nat) (page : page_t) (blocks : list Frag.t) :
  page_texts U config page_num page = Ok blocks ->
  Forall (block_shape U page_num) blocks.
Proof.
  unfold page_texts. destruct (lines_info_of U page) as [|l ls].
  - intros [= <-]. constructor.
  - apply reconstruct_blocks_shape.
Qed.

Lemma all_texts_from_shape (pages : list page_t) (page_num : nat)
    (all_texts : list Frag.t) :
  all_texts_from U config page_num pages = Ok all_texts ->
  Forall (fun f => exists n, page_num <= n < page_num + length pages
                             /\ block_shape U n f) all_texts.
Proof.
  revert page_num all_texts.
  induction pages as [|page pages IH]; intros page_num all_texts H.
  - injection H as <-. constructor.
  - cbn [all_texts_from] in H.
    apply bind_Ok_inv in H as [blocks [Hb H]].
    apply bind_Ok_inv in H as [more [Hm H]]. injection H as <-.
    apply Forall_app. split.
    + apply page_texts_shape in Hb.
      eapply List.Forall_impl; [|exact Hb].
      intros f Hf. exists page_num. cbn [length]. split; [lia|exact Hf].
    + apply IH in Hm. eapply List.Forall_impl; [|exact Hm].
      intros f [n [Hn Hf]]. exists n. cbn [length]. split; [lia|exact Hf].
Qed.

Lemma members_of_In {V} (pairs : list (Z * V)) (id : Z) (x : V) :
  In x (members_of pairs id) -> In x (List.map snd pairs).
Proof.
  unfold members_of. intros H. apply in_map_iff in H as [p [<- Hp]].
  apply filter_In in Hp as [Hp _]. apply in_map, Hp.
Qed.

Lemma cluster_stats_members (all_texts : list Frag.t) (clusters : list Z) id texts x :
  In (id, texts) (cluster_stats all_texts clusters) -> In x texts -> In x all_texts.
Proof.
  unfold cluster_stats. fold (@add_pair Frag.t).
  set (pairs := combine clusters all_texts).
  set (stats := fold_left add_pair pairs []).
  assert (Hnd : List.NoDup (List.map fst stats))
    by (apply fold_keys_NoDup; constructor).
  intros Hin Hx. rewrite (dict_lookup_NoDup stats Hnd) in Hin.
  apply in_map_iff in Hin as [id' [E _]]. injection E as -> <-.
  unfold stats in Hx. rewrite fold_lookup in Hx. cbn [dict_lookup app] in Hx.
  apply members_of_In in Hx. apply in_map_iff in Hx as [[c y] [<- Hp]].
  apply in_combine_r in Hp. exact Hp.
Qed.

Lemma _select_heading_candidates_In (all_texts : list Frag.t) (clusters : list Z)
    (selected : list Frag.t) :
  _select_heading_candidates U config all_texts clusters = Ok selected ->
  forall x, In x selected -> In x all_texts.
Proof.
  unfold _select_heading_candidates.
  destruct (_ <? _); [discriminate|]. intros [= <-] x Hx.
  apply in_flat_map in Hx as [[id texts] [Hin Hx]].
  destruct (5 <=? _)%Z; [|contradiction].
  eapply cluster_stats_members; eassumption.
Qed.

Lemma _cluster_headings_In (all_texts selected : list Frag.t) :
  _cluster_headings U config fit_transform fit_predict all_texts = Ok selected ->
  forall x, In x selected -> In x all_texts.
Proof.
  unfold _cluster_headings. intros H.
  apply bind_Ok_inv in H as [scaled [_ H]].
  apply bind_Ok_inv in H as [n [_ H]].
  destruct (n <? _)%Z; [injection H as <-; auto|].
  apply bind_Ok_inv in H as [clusters [_ H]].
  eapply _select_heading_candidates_In, H.
Qed.

Lemma _get_ml_heading_candidates_shape (doc : doc_t) (candidates : list Frag.t) :
  _get_ml_heading_candidates U config fit_transform fit_predict doc = Ok candidates ->
  Forall (fun f => exists n, n < length doc /\ block_shape U n f) candidates.
Proof.
  unfold _get_ml_heading_candidates. intros H.
  apply bind_Ok_inv in H as [all_texts [Hall H]].
  apply all_texts_from_shape in Hall.
  assert (Hall' : Forall (fun f => exists n, n < length doc /\ block_shape U n f) all_texts).
  { eapply List.Forall_impl; [|exact Hall].
    intros f [n [Hn Hf]]. exists n. split; [lia|exact Hf]. }
  destruct (_ <? 5); [injection H as <-; exact Hall'|].
  apply List.Forall_forall. intros x Hx.
  rewrite List.Forall_forall in Hall'. apply Hall'.
  eapply _cluster_headings_In; eassumption.
Qed.

End Candidates.

(** ** The heading filter and the heading extractor *)

Section FilterTheorems.
Context (U : UnicodeDB) (config : Config.t) (profile : doc_profile).
Import HeadingFilter.

Lemma good_structure_shape (text : str) :
  8 <= length text ->
  _has_good_heading_structure U config text = Ok true ->
  heading_text_shape U text.
Proof.
  intros Hlen H. unfold _has_good_heading_structure in H.
  destruct text as [|c rest]; [discriminate|].
  destruct (negb (isalnum_c U c)) eqn:Ea; [discriminate|].
  apply negb_false_iff in Ea.
  destruct (_ && _); [discriminate|].
  destruct (existsb _ _) eqn:Ee; [discriminate|].
  split; [exact Hlen|]. split; [eauto|].
  apply List.Forall_forall. intros p Hp.
  destruct (endswith (c :: rest) p) eqn:E; [|reflexivity].
  rewrite <- Ee. symmetry. apply existsb_exists. eauto.
Qed.

Lemma passes_document_filters_inv (text : str) :
  _passes_document_filters config text (lower U text) profile = Ok true ->
  Config.min_text_length config <= length text
  /\ (exists m, profile_max_length config profile = Some m /\ length text <= m)
  /\ (is_form profile = true -> has_char text 58 = false).
Proof.
  unfold _passes_document_filters, profile_max_length.
  destruct (is_form profile); [|destruct (is_academic profile);
                                [|destruct (is_technical profile)]].
  - intros [= H]. apply negb_true_iff in H.
    repeat (apply orb_false_iff in H as [H ?]).
    apply Nat.ltb_ge in H. split; [exact H|]. split.
    + eexists. split; [reflexivity|]. apply Nat.ltb_ge. assumption.
    + intros _. assumption.
  - intros [= H]. apply negb_true_iff in H.
    repeat (apply orb_false_iff in H as [H ?]).
    apply Nat.ltb_ge in H. split; [exact H|]. split; [|discriminate].
    eexists. split; [reflexivity|]. apply Nat.ltb_ge. assumption.
  - destruct (_ <? _) eqn:E; [discriminate|]. apply Nat.ltb_ge in E.
    destruct (Config.max_technical_heading config) as [m|]; [|discriminate].
    intros [= H]. apply negb_true_iff in H.
    apply orb_false_iff in H as [H ?].
    split; [exact E|]. split; [|discriminate].
    exists m. split; [reflexivity|]. apply Nat.ltb_ge. assumption.
  - intros [= H]. apply negb_true_iff in H.
    repeat (apply orb_false_iff in H as [H ?]).
    apply Nat.ltb_ge in H. split; [exact H|]. split; [|discriminate].
    eexists. split; [reflexivity|]. apply Nat.ltb_ge. assumption.
Qed.

(** [filter_candidates] either returns a subsequence of its input in
    which no two candidates have the same stripped text, or raises
    [KeyError('max_technical_heading')]; it raises only for a profile that
    is technical and neither a form nor academic, under a configuration
    without that key.  The index [text[0]] of
    [_has_good_heading_structure] is never out of range. *)
Theorem filter_candidates_subsequence_or_key_error (candidates : list Frag.t) :
  match filter_candidates U config candidates profile with
  | Ok filtered =>
      sublist filtered candidates
      /\ List.NoDup (List.map (fun c => strip U (Frag.text c)) filtered)
  | Raise e =>
      e = KeyError (lit "max_technical_heading")
      /\ is_form profile = false /\ is_academic profile = false
      /\ is_technical profile = true
      /\ Config.max_technical_heading config = None
  end.
Proof.
  destruct (filter_candidates U config candidates profile) as [filtered|e] eqn:E.
  - apply filter_candidates_inv in E as (Hsub & Hnd & _). split; assumption.
  - unfold filter_candidates in E. destruct candidates as [|c candidates];
      [discriminate|].
    apply bind_Raise_inv in E as [E|[st [_ E]]]; [|discriminate].
    apply filter_loop_raise in E as (seen & x & E).
    eapply keeps_raise_inv, E.
Qed.

(** Every candidate [filter_candidates] returns has, once stripped, a
    text of at least eight characters that starts with a letter or a
    digit and does not end with [.], [!] or [?]; its length lies between
    [min_text_length] and the maximum of the document type; in a form it
    contains no colon. *)
Theorem filter_candidates_kept_texts (candidates filtered : list Frag.t) :
  filter_candidates U config candidates profile = Ok filtered ->
  Forall
    (fun c =>
       let text := strip U (Frag.text c) in
       heading_text_shape U text
       /\ Config.min_text_length config <= length text
       /\ (exists m, profile_max_length config profile = Some m /\ length text <= m)
       /\ (is_form profile = true -> has_char text 58 = false))
    filtered.
Proof.
  intros H. apply filter_candidates_inv in H as (_ & _ & Hall).
  eapply List.Forall_impl; [|exact Hall].
  intros c [seen Hk]. apply keeps_true_inv in Hk.
  cbn zeta in Hk. unfold tested_text in Hk.
  destruct Hk as (_ & _ & _ & Hlen & _ & Hp & Hg & _).
  cbn zeta. split; [apply good_structure_shape; assumption|].
  apply passes_document_filters_inv, Hp.
Qed.

End FilterTheorems.

Section ExtractHeadings.
Context (U : UnicodeDB) (config : Config.t).
Context (fit_transform : list (list Q) -> result (list (list Q))).
Context (fit_predict : Z -> Z -> Z -> list (list Q) -> result (list Z)).
Import HeadingExtractor.

Lemma sublist_In {A} (l1 l2 : list A) (x : A) :
  sublist l1 l2 -> In x l1 -> In x l2.
Proof.
  intros Hs Hx. apply list_elem_of_In. apply list_elem_of_In in Hx.
  eapply sublist_subseteq; eassumption.
Qed.

(** [extract_headings] returns outline entries whose page is a page of
    the document, counted from 0, and whose text has no white space at
    its ends, at least eight characters, an alphanumeric first character
    and no [.], [!] or [?] at the end; no two entries have the same
    text. *)
Theorem extract_headings_outline_shape (doc : doc_t) (profile : doc_profile)
    (outline : list Heading.t) :
  extract_headings U config fit_transform fit_predict doc profile = Ok outline ->
  Forall
    (fun h =>
       (0 <= Heading.page h < Z.of_nat (length doc))%Z
       /\ strip U (Heading.text h) = Heading.text h
       /\ heading_text_shape U (Heading.text h))
    outline
  /\ List.NoDup (List.map Heading.text outline).
Proof.
  unfold extract_headings, _apply_filtering, _build_heading_hierarchy.
  intros H.
  apply bind_Ok_inv in H as [candidates [Hc H]].
  apply bind_Ok_inv in H as [filtered [Hf H]]. injection H as <-.
  apply _get_ml_heading_candidates_shape in Hc.
  pose proof (filter_candidates_inv U config profile _ _ Hf) as (Hsub & Hnd & Hall).
  destruct (build_hierarchy_sorted U filtered) as (sorted & Hperm & _ & ->).
  assert (Hshape : Forall (fun f => (exists n, n < length doc /\ block_shape U n f)
                              /\ heading_text_shape U (Frag.text f)) filtered).
  { apply List.Forall_forall. intros f Hin.
    rewrite List.Forall_forall in Hc, Hall.
    pose proof (Hc f (sublist_In _ _ _ Hsub Hin)) as [n [Hn Hb]].
    split; [eauto|].
    destruct (Hall f Hin) as [seen Hk]. apply keeps_true_inv in Hk.
    cbn zeta in Hk. unfold tested_text in Hk.
    destruct Hb as (_ & Hs & _). rewrite Hs in Hk.
    destruct Hk as (_ & _ & _ & Hlen & _ & _ & Hg & _).
    eapply good_structure_shape; eassumption. }
  split.
  - apply List.Forall_map.
    eapply Permutation_Forall in Hshape; [|exact Hperm].
    eapply List.Forall_impl; [|exact Hshape].
    intros f [[n [Hn (Hp & Hs & _)]] Ht].
    cbn [LevelDeterminer.entry_of Heading.page Heading.text].
    rewrite Hp. split; [|split; assumption].
    apply Nat2Z.inj_lt in Hn.
    replace (Z.of_nat n + 1 - 1)%Z with (Z.of_nat n) by lia.
    split; [lia|exact Hn].
  - rewrite List.map_map. cbn [LevelDeterminer.entry_of Heading.text].
    eapply Permutation_NoDup; [apply Permutation_map, Hperm|].
    erewrite map_ext_in; [exact Hnd|].
    intros f Hin. rewrite List.Forall_forall in Hshape.
    destruct (Hshape f Hin) as [[n [_ (_ & Hs & _)]] _].
    unfold tested_text. symmetry. exact Hs.
Qed.

End ExtractHeadings.

(** ** Recall enhancement *)

Section Dedup.
Context (U : UnicodeDB).
Import AccuracyEnhancer.

Lemma dedup_loop_inv (candidates : list Heading.t) (seen : gset str) :
  let unique := dedup_loop U seen candidates in
  sublist unique candidates
  /\ List.NoDup (List.map (text_key U) unique)
  /\ Forall (fun c => text_key U c ∉ seen) unique
  /\ Forall (fun c => text_key U c ∈ seen
                      \/ In (text_key U c) (List.map (text_key U) unique))
       candidates.
Proof.
  revert seen. induction candidates as [|c candidates IH]; intros seen; cbn zeta.
  - cbn. repeat split; constructor.
  - cbn [dedup_loop]. fold (text_key U c).
    destruct (bool_decide (text_key U c ∈ seen)) eqn:E.
    + apply bool_decide_eq_true in E.
      destruct (IH seen) as (Hs & Hn & Hf & Ha).
      split; [apply sublist_cons, Hs|]. split; [exact Hn|]. split; [exact Hf|].
      constructor; [left; exact E|exact Ha].
    + apply bool_decide_eq_false in E.
      destruct (IH ({[text_key U c]} ∪ seen)) as (Hs & Hn & Hf & Ha).
      split; [apply sublist_skip, Hs|].
      split.
      { cbn. constructor; [|exact Hn].
        intros Hin. apply in_map_iff in Hin as [x [Ex Hx]].
        rewrite List.Forall_forall in Hf. apply (Hf x Hx).
        rewrite Ex. apply elem_of_union_l, elem_of_singleton. reflexivity. }
      split.
      { constructor; [exact E|].
        eapply List.Forall_impl; [|exact Hf].
        cbn. intros x Hx Hin. apply Hx, elem_of_union_r, Hin. }
      constructor; [right; left; reflexivity|].
      eapply List.Forall_impl; [|exact Ha].
      cbn. intros x [Hx|Hx]; [|right; right; exact Hx].
      apply elem_of_union in Hx as [Hx|Hx]; [|left; exact Hx].
      apply elem_of_singleton in Hx. right. left. symmetry. exact Hx.
Qed.

Lemma dedup_loop_fixed (candidates : list Heading.t) (seen : gset str) :
  List.NoDup (List.map (text_key U) candidates) ->
  Forall (fun c => text_key U c ∉ seen) candidates ->
  dedup_loop U seen candidates = candidates.
Proof.
  revert seen. induction candidates as [|c candidates IH]; intros seen Hn Hf;
    [reflexivity|].
  cbn [dedup_loop]. fold (text_key U c).
  inversion Hn as [|? ? Hc Hn']; subst. inversion Hf as [|? ? Hs Hf']; subst.
  rewrite bool_decide_eq_false_2 by exact Hs.
  f_equal. apply IH; [exact Hn'|].
  apply List.Forall_forall. intros x Hx Hin.
  apply elem_of_union in Hin as [Hin|Hin].
  - apply elem_of_singleton in Hin. apply Hc. rewrite <- Hin.
    apply in_map, Hx.
  - rewrite List.Forall_forall in Hf'. exact (Hf' x Hx Hin).
Qed.

Lemma recall_enhancement_sublist (candidates : list Heading.t) :
  sublist (_apply_recall_enhancement U candidates) candidates.
Proof.
  unfold _apply_recall_enhancement, _find_relaxed_typography_headings,
    _recover_structural_patterns, _reconstruct_cross_page_headings.
  rewrite !app_nil_r. apply (dedup_loop_inv candidates ∅).
Qed.

(** The recall enhancement adds no candidate: its three recovery steps
    return nothing, and what remains is the removal of duplicates.  The
    result is a subsequence of the input in which no two candidates have
    the same key (the text, stripped and in lower case), every key of
    the input is still present, and a second pass changes nothing. *)
Theorem recall_enhancement_only_removes_duplicates (candidates : list Heading.t) :
  let enhanced := _apply_recall_enhancement U candidates in
  enhanced = _deduplicate_candidates U candidates
  /\ sublist enhanced candidates
  /\ List.NoDup (List.map (text_key U) enhanced)
  /\ Forall (fun c => In (text_key U c) (List.map (text_key U) enhanced)) candidates
  /\ _apply_recall_enhancement U enhanced = enhanced.
Proof.
  cbn zeta. unfold _apply_recall_enhancement,
    _find_relaxed_typography_headings, _recover_structural_patterns,
    _reconstruct_cross_page_headings.
  rewrite !app_nil_r. unfold _deduplicate_candidates.
  destruct (dedup_loop_inv candidates ∅) as (Hs & Hn & Hf & Ha).
  cbn zeta in *.
  split; [reflexivity|]. split; [exact Hs|]. split; [exact Hn|]. split.
  - eapply List.Forall_impl; [|exact Ha].
    cbn. intros c [H|H]; [|exact H]. exfalso. revert H. apply not_elem_of_empty.
  - apply dedup_loop_fixed; assumption.
Qed.

End Dedup.

(** ** Scores of outline entries without typography *)

Section PlainEntries.
Context (U : UnicodeDB).
Import AccuracyEnhancer.

Lemma plain_entry_enhance_one (c : Heading.t) :
  plain_entry c -> plain_entry (enhance_one U c).
Proof.
  intros (Hs & Hb & Hq). unfold enhance_one, plain_entry, set_text.
  cbn [Heading.size Heading.bold Heading.quality_boost].
  destruct (in_multilingual_patterns _).
  - unfold _enhance_with_language_patterns, boost_of.
    cbn [Heading.size Heading.bold Heading.quality_boost].
    split; [exact Hs|]. split; [exact Hb|].
    repeat match goal with |- context [if ?b then _ else _] => destruct b end;
      split; unfold Qle; simpl; lia.
  - split; [exact Hs|]. split; [exact Hb|]. exact Hq.
Qed.

Lemma build_hierarchy_plain (candidates : list Frag.t) :
  Forall plain_entry (LevelDeterminer.build_hierarchy U candidates).
Proof.
  unfold LevelDeterminer.build_hierarchy.
  destruct candidates as [|c candidates]; [constructor|].
  apply List.Forall_map, List.Forall_forall. intros x _.
  repeat split.
Qed.

Lemma scored_of_plain (raw : list Heading.t) :
  Forall plain_entry raw -> Forall plain_entry (scored_of U raw).
Proof.
  intros H. unfold scored_of, _apply_multilingual_enhancement,
    _apply_recall_enhancement, _deduplicate_candidates, _apply_precision_filters.
  apply List.Forall_map.
  eapply List.Forall_impl; [intros c; apply plain_entry_enhance_one|].
  apply dedup_loop_keeps.
  unfold _find_relaxed_typography_headings, _recover_structural_patterns,
    _reconstruct_cross_page_headings. rewrite !app_nil_r.
  apply Forall_filter_keeps, H.
Qed.

Lemma plain_sizes (all : list Heading.t) :
  Forall plain_entry all ->
  List.map get_size all = repeat 12%Q (length all).
Proof.
  induction 1 as [|c all (Hs & _) _ IH]; [reflexivity|].
  cbn. rewrite IH. unfold get_size. rewrite Hs. reflexivity.
Qed.

Lemma Qmax_list_repeat (n : nat) : Py.Qmax_list 12 (repeat 12%Q n) = 12%Q.
Proof. induction n as [|n IH]; [reflexivity|]. cbn. exact IH. Qed.

(** Among entries without a [size] key every font size is the default
    12, so every candidate has the size ratio 1. *)
Lemma plain_typography (c : Heading.t) (all : list Heading.t) :
  plain_entry c -> Forall plain_entry all -> all <> [] ->
  _score_typography c all = 0.9%Q.
Proof.
  intros (Hs & _) Hall Hne. unfold _score_typography.
  rewrite (plain_sizes all Hall).
  destruct all as [|x all]; [contradiction|].
  cbn [length repeat]. cbv zeta. rewrite Qmax_list_repeat.
  unfold get_size. rewrite Hs. reflexivity.
Qed.

Lemma _score_structural_patterns_le_1 (c : Heading.t) :
  (_score_structural_patterns U c <= 1)%Q.
Proof. unfold _score_structural_patterns. apply Qmin_one_le. Qed.

Lemma _score_position_bounds (c : Heading.t) :
  (0.5 <= _score_position c)%Q /\ (_score_position c <= 0.9)%Q
  /\ ((2 < Heading.page c)%Z -> (_score_position c <= 0.7)%Q).
Proof.
  unfold _score_position.
  destruct (Heading.page c <=? 2)%Z eqn:E2;
    [apply Z.leb_le in E2|apply Z.leb_gt in E2];
    repeat match goal with |- context [if ?b then _ else _] => destruct b end;
    repeat split; try (intros; lia); unfold Qle; simpl; lia.
Qed.

Lemma plain_boost_bounds (c : Heading.t) :
  plain_entry c ->
  (0 <= default 0 (Heading.quality_boost c))%Q
  /\ (default 0 (Heading.quality_boost c) <= 0.5)%Q.
Proof.
  intros (_ & _ & Hq). destruct (Heading.quality_boost c); cbn.
  - exact Hq.
  - split; unfold Qle; simpl; lia.
Qed.

(** The score of a plain entry in a set of plain entries: the weighted
    sum itself, which stays below the cap. *)
Lemma plain_quality_score (c : Heading.t) (all : list Heading.t) :
  plain_entry c -> Forall plain_entry all -> all <> [] ->
  (_calculate_quality_score U c all ==
   0.35 * _score_structural_patterns U c + 0.18 + 0.15 * _score_position c
   + 0.05 * default 0 (Heading.quality_boost c))%Q.
Proof.
  intros Hc Hall Hne. unfold _calculate_quality_score, component_scores.
  rewrite weighted_total_unfold, (plain_typography c all Hc Hall Hne).
  pose proof (_score_structural_patterns_nonneg U c) as Hs0.
  pose proof (_score_structural_patterns_le_1 c) as Hs1.
  pose proof (_score_position_bounds c) as (Hp0 & Hp1 & _).
  pose proof (plain_boost_bounds c Hc) as (Hb0 & Hb1).
  set (s := _score_structural_patterns U c) in *.
  set (p := _score_position c) in *.
  set (b := default 0%Q (Heading.quality_boost c)) in *.
  rewrite Q.min_r; lra.
Qed.

Lemma plain_quality_score_bounds (c : Heading.t) (all : list Heading.t) :
  plain_entry c -> Forall plain_entry all -> all <> [] ->
  (0.255 <= _calculate_quality_score U c all)%Q
  /\ (_calculate_quality_score U c all <= 0.69)%Q.
Proof.
  intros Hc Hall Hne. rewrite (plain_quality_score c all Hc Hall Hne).
  pose proof (_score_structural_patterns_nonneg U c) as Hs0.
  pose proof (_score_structural_patterns_le_1 c) as Hs1.
  pose proof (_score_position_bounds c) as (Hp0 & Hp1 & _).
  pose proof (plain_boost_bounds c Hc) as (Hb0 & Hb1).
  split; lra.
Qed.

Lemma median_score_In (scores : list Q) :
  scores <> [] -> In (median_score scores) scores.
Proof.
  intros Hne. unfold median_score.
  eapply Permutation_in; [symmetry; apply (stable_sort_perm Py.Qleb)|].
  apply nth_In. rewrite stable_sort_length.
  destruct scores as [|s scores]; [contradiction|].
  apply Nat.div_lt; cbn; lia.
Qed.

Lemma threshold_bounds (scores : list Q) (hi : Q) :
  (0.3 <= hi * 0.8)%Q ->
  Forall (fun s => (s <= hi)%Q) scores ->
  scores <> [] ->
  (0.3 <= _calculate_dynamic_threshold_from_scores scores)%Q
  /\ (_calculate_dynamic_threshold_from_scores scores <= hi * 0.8)%Q.
Proof.
  intros Hhi Hall Hne. unfold _calculate_dynamic_threshold_from_scores.
  pose proof (median_score_In scores Hne) as Hin.
  rewrite List.Forall_forall in Hall. apply Hall in Hin.
  destruct scores as [|s scores]; [contradiction|].
  set (m := median_score (s :: scores)) in *.
  split; [apply Q.le_max_l|].
  apply Q.max_lub; [exact Hhi|].
  eapply Qle_trans; [apply Q.le_min_r|]. lra.
Qed.

Lemma In_combine_self {A B} (f : A -> B) (l : list A) (x : A) :
  In x l -> In (x, f x) (combine l (List.map f l)).
Proof.
  induction l as [|y l IH]; [contradiction|].
  intros [->|H]; [left; reflexivity|right; apply IH, H].
Qed.

(** A candidate is among the final ones exactly when it is a candidate
    whose score reaches the threshold. *)
Lemma In_quality_scoring (candidates : list Heading.t) (h : Heading.t) :
  In h (_apply_quality_scoring U candidates).1 <->
  In h candidates
  /\ (_calculate_dynamic_threshold_from_scores
        (List.map (fun c => _calculate_quality_score U c candidates) candidates)
      <= _calculate_quality_score U h candidates)%Q.
Proof.
  unfold _apply_quality_scoring. cbn [fst].
  set (f := fun c => _calculate_quality_score U c candidates).
  set (thr := _calculate_dynamic_threshold_from_scores _).
  split.
  - intros H. eapply Permutation_in in H; [|apply final_candidates_perm].
    apply in_map_iff in H as [[x q] [E H]]. cbn in E. subst x.
    apply filter_In in H as [Hin Hq]. cbn [snd] in Hq.
    pose proof (In_combine_map f candidates (h, q) Hin) as Eq. cbn in Eq.
    apply in_combine_l in Hin. split; [exact Hin|].
    apply Qleb_true in Hq. rewrite Eq in Hq. exact Hq.
  - intros [Hin Hq].
    eapply Permutation_in; [symmetry; apply final_candidates_perm|].
    apply in_map_iff. exists (h, f h). split; [reflexivity|].
    apply filter_In. split; [apply In_combine_self, Hin|].
    cbn [snd]. apply Qleb_true. exact Hq.
Qed.

Lemma plain_scores_le (all : list Heading.t) :
  Forall plain_entry all ->
  Forall (fun s => (s <= 0.69)%Q)
    (List.map (fun c => _calculate_quality_score U c all) all).
Proof.
  intros Hall. apply List.Forall_map, List.Forall_forall. intros c Hc.
  apply plain_quality_score_bounds; [|exact Hall|].
  - rewrite List.Forall_forall in Hall. apply Hall, Hc.
  - intros ->. contradiction.
Qed.

Lemma numbered_structural_score (c : Heading.t) :
  match_ (re_num1 U) (Heading.text c) = true ->
  (0.9 <= _score_structural_patterns U c)%Q.
Proof.
  intros H. unfold _score_structural_patterns. rewrite H.
  destruct (existsb _ _); apply Q.min_glb; unfold Qle; simpl; lia.
Qed.

End PlainEntries.

Section ScoringTheorems.
Context (U : UnicodeDB).
Import AccuracyEnhancer.

(** For outline entries without [size] and [bold] keys, the
    entries [build_hierarchy] writes among them: every candidate the
    scoring pass receives has the score
    [0.35 * structural + 0.18 + 0.15 * position + 0.05 * boost], in which
    the semantic score does not occur and the typography score is the
    constant 0.9; the score lies between 0.255 and 0.69, and the dynamic
    threshold between 0.3 and 0.552. *)
Theorem quality_scores_of_plain_entries (raw : list Heading.t) :
  Forall plain_entry raw ->
  let scored := scored_of U raw in
  Forall
    (fun h =>
       (_calculate_quality_score U h scored ==
        0.35 * _score_structural_patterns U h + 0.18 + 0.15 * _score_position h
        + 0.05 * default 0 (Heading.quality_boost h))%Q
       /\ (0.255 <= _calculate_quality_score U h scored)%Q
       /\ (_calculate_quality_score U h scored <= 0.69)%Q)
    scored
  /\ (scored <> [] ->
      let threshold :=
        _calculate_dynamic_threshold_from_scores
          (List.map (fun c => _calculate_quality_score U c scored) scored) in
      (0.3 <= threshold)%Q /\ (threshold <= 0.552)%Q)
  /\ (forall candidates : list Frag.t,
        Forall plain_entry (LevelDeterminer.build_hierarchy U candidates)).
Proof.
  intros Hraw scored.
  pose proof (scored_of_plain U raw Hraw) as Hall. fold scored in Hall.
  split; [|split].
  - apply List.Forall_forall. intros h Hh.
    assert (Hne : scored <> []) by (intros E; rewrite E in Hh; contradiction).
    assert (Hp : plain_entry h)
      by (rewrite List.Forall_forall in Hall; apply Hall, Hh).
    split; [apply plain_quality_score; assumption|].
    apply plain_quality_score_bounds; assumption.
  - intros Hne threshold.
    destruct (threshold_bounds
                (List.map (fun c => _calculate_quality_score U c scored) scored)
                0.69%Q) as [Hlo Hhi].
    + unfold Qle; simpl; lia.
    + apply plain_scores_le, Hall.
    + intros E. apply Hne. destruct scored; [reflexivity|discriminate].
    + split; [exact Hlo|]. eapply Qle_trans; [exact Hhi|].
      unfold Qle; simpl; lia.
  - apply build_hierarchy_plain.
Qed.

End ScoringTheorems.

Section SelectionTheorems.
Context (U : UnicodeDB).
Import AccuracyEnhancer.

Lemma enhance_heading_detection_scored (raw : list Heading.t) :
  enhance_heading_detection U raw = _apply_quality_scoring U (scored_of U raw).
Proof. reflexivity. Qed.

Lemma plain_threshold (raw : list Heading.t) :
  Forall plain_entry raw -> scored_of U raw <> [] ->
  let scored := scored_of U raw in
  let threshold :=
    _calculate_dynamic_threshold_from_scores
      (List.map (fun c => _calculate_quality_score U c scored) scored) in
  (0.3 <= threshold)%Q /\ (threshold <= 0.552)%Q.
Proof.
  intros Hraw Hne scored threshold.
  destruct (threshold_bounds
              (List.map (fun c => _calculate_quality_score U c scored) scored)
              0.69%Q) as [Hlo Hhi].
  - unfold Qle; simpl; lia.
  - apply plain_scores_le, scored_of_plain, Hraw.
  - intros E. apply Hne. fold scored. destruct scored; [reflexivity|discriminate].
  - split; [exact Hlo|]. eapply Qle_trans; [exact Hhi|].
    unfold Qle; simpl; lia.
Qed.

(** A numbered heading is never dropped by the quality selection: among
    outline entries without [size] and [bold] keys, a candidate of the
    scoring pass whose text starts with digits, a full stop and white
    space is among the final headings, whatever its page and whatever
    the other candidates are. *)
Theorem numbered_headings_survive_quality_selection
    (raw : list Heading.t) (h : Heading.t) :
  Forall plain_entry raw ->
  In h (scored_of U raw) ->
  match_ (re_num1 U) (Heading.text h) = true ->
  In h (enhance_heading_detection U raw).1.
Proof.
  intros Hraw Hh Hnum. rewrite enhance_heading_detection_scored.
  apply In_quality_scoring. split; [exact Hh|].
  assert (Hne : scored_of U raw <> [])
    by (intros E; rewrite E in Hh; contradiction).
  pose proof (scored_of_plain U raw Hraw) as Hall.
  assert (Hp : plain_entry h)
    by (rewrite List.Forall_forall in Hall; apply Hall, Hh).
  destruct (plain_threshold raw Hraw Hne) as [_ Hthr]. cbn zeta in Hthr.
  eapply Qle_trans; [exact Hthr|].
  rewrite (plain_quality_score U h _ Hp Hall Hne).
  pose proof (numbered_structural_score U h Hnum) as Hs.
  pose proof (_score_position_bounds h) as (Hp0 & _).
  pose proof (plain_boost_bounds h Hp) as (Hb0 & _).
  lra.
Qed.

(** A heading without numbering or section word is dropped when it is
    not on one of the first three pages: among outline entries without
    [size] and [bold] keys, a candidate of the scoring pass with
    structural score 0, without quality boost and on a page after page 2
    (counted from 0) scores at most 0.285 and is not among the final
    headings. *)
Theorem unpatterned_headings_after_page_two_are_dropped
    (raw : list Heading.t) (h : Heading.t) :
  Forall plain_entry raw ->
  In h (scored_of U raw) ->
  (_score_structural_patterns U h == 0)%Q ->
  (default 0 (Heading.quality_boost h) == 0)%Q ->
  (2 < Heading.page h)%Z ->
  ~ In h (enhance_heading_detection U raw).1.
Proof.
  intros Hraw Hh Hs Hb Hpage Hin. rewrite enhance_heading_detection_scored in Hin.
  apply In_quality_scoring in Hin as [_ Hq].
  assert (Hne : scored_of U raw <> [])
    by (intros E; rewrite E in Hh; contradiction).
  pose proof (scored_of_plain U raw Hraw) as Hall.
  assert (Hp : plain_entry h)
    by (rewrite List.Forall_forall in Hall; apply Hall, Hh).
  destruct (plain_threshold raw Hraw Hne) as [Hthr _]. cbn zeta in Hthr.
  rewrite (plain_quality_score U h _ Hp Hall Hne) in Hq.
  pose proof (_score_position_bounds h) as (_ & _ & Hp1).
  specialize (Hp1 Hpage).
  rewrite Hs, Hb in Hq.
  set (thr := _calculate_dynamic_threshold_from_scores _) in *.
  set (p := _score_position h) in *.
  lra.
Qed.

Lemma enhance_one_fields (c : Heading.t) :
  Heading.level (enhance_one U c) = Heading.level c
  /\ Heading.page (enhance_one U c) = Heading.page c
  /\ Heading.text (enhance_one U c) = _normalize_unicode_text U (Heading.text c).
Proof.
  unfold enhance_one, set_text. cbn [Heading.level Heading.page Heading.text].
  destruct (in_multilingual_patterns _); repeat split.
Qed.

Lemma scored_of_In (raw : list Heading.t) (h : Heading.t) :
  In h (scored_of U raw) -> exists c, In c raw /\ h = enhance_one U c.
Proof.
  unfold scored_of, _apply_multilingual_enhancement. intros H.
  apply in_map_iff in H as [c [<- Hc]]. exists c. split; [|reflexivity].
  eapply sublist_In in Hc; [|apply recall_enhancement_sublist].
  unfold _apply_precision_filters in Hc. apply filter_In in Hc as [Hc _]. exact Hc.
Qed.

End SelectionTheorems.

Section EnhancerTheorems.
Context (U : UnicodeDB).
Import AccuracyEnhancer.

Lemma scored_of_length (raw : list Heading.t) :
  length (scored_of U raw) <= length raw.
Proof.
  unfold scored_of, _apply_multilingual_enhancement. rewrite length_map.
  etransitivity; [apply sublist_length, recall_enhancement_sublist|].
  unfold _apply_precision_filters. apply filter_length_le.
Qed.

(** The accuracy enhancer invents no heading: every final heading is an
    input candidate with its level and page unchanged and its text
    normalised; there are no more final headings than candidates; and the
    counts of the metrics are those of the scoring pass. *)
Theorem enhance_heading_detection_invents_nothing (raw : list Heading.t) :
  let r := enhance_heading_detection U raw in
  Forall
    (fun h => exists c,
         In c raw
         /\ Heading.level h = Heading.level c
         /\ Heading.page h = Heading.page c
         /\ Heading.text h = _normalize_unicode_text U (Heading.text c))
    r.1
  /\ length r.1 <= length raw
  /\ selected_count r.2 = length r.1
  /\ total_candidates r.2 = length (scored_of U raw)
  /\ selected_count r.2 <= total_candidates r.2.
Proof.
  cbn zeta. rewrite enhance_heading_detection_scored.
  split; [|split; [|split; [|split]]].
  - apply List.Forall_forall. intros h Hh.
    apply In_quality_scoring in Hh as [Hh _].
    apply scored_of_In in Hh as [c [Hc ->]].
    exists c. split; [exact Hc|]. apply enhance_one_fields.
  - etransitivity; [apply final_candidates_length|]. apply scored_of_length.
  - reflexivity.
  - reflexivity.
  - apply final_candidates_length.
Qed.

Lemma Qsum_repeat (q : Q) (n : nat) :
  (Py.Qsum (repeat q n) == q * inject_Z (Z.of_nat n))%Q.
Proof.
  induction n as [|n IH].
  - cbn. ring.
  - cbn [repeat Py.Qsum fold_right]. fold (Py.Qsum (repeat q n)).
    rewrite IH, Nat2Z.inj_succ. unfold Z.succ. rewrite inject_Z_plus. ring.
Qed.

Lemma plain_filter (f : Heading.t -> bool) (l : list Heading.t) :
  Forall plain_entry l -> Forall plain_entry (List.filter f l).
Proof. apply Forall_filter_keeps. Qed.

Lemma plain_validates_in_context (c : Heading.t) (all : list Heading.t) :
  plain_entry c -> Forall plain_entry all -> _validates_in_context c all = true.
Proof.
  intros (Hs & _) Hall. unfold _validates_in_context. cbv zeta.
  set (same := List.filter _ all).
  assert (Hsame : Forall plain_entry same) by (apply plain_filter, Hall).
  destruct (10 <? length same) eqn:E; [|reflexivity].
  apply Nat.ltb_lt in E. rewrite (plain_sizes same Hsame).
  unfold Py.Qlen. rewrite repeat_length.
  assert (H : Py.Qltb (get_size c)
                (Py.Qsum (repeat 12%Q (length same))
                 / inject_Z (Z.of_nat (length same)) * 0.8) = false).
  { apply Qltb_false. rewrite Qsum_repeat. unfold get_size. rewrite Hs. cbn [default].
    assert (Hn : (0 < inject_Z (Z.of_nat (length same)))%Q).
    { change 0%Q with (inject_Z 0). rewrite <- Zlt_Qlt. lia. }
    set (n := inject_Z (Z.of_nat (length same))) in *.
    assert (En : (12 * n / n == 12)%Q) by (field; lra).
    rewrite En. unfold Qle; simpl; lia. }
  rewrite H. reflexivity.
Qed.

Lemma plain_no_bold (l : list Heading.t) :
  Forall plain_entry l -> List.filter get_bold l = [].
Proof.
  induction 1 as [|c l (_ & Hb & _) _ IH]; [reflexivity|].
  cbn. unfold get_bold at 1. rewrite Hb. cbn. exact IH.
Qed.

Lemma plain_consistent_typography (c : Heading.t) (all : list Heading.t) :
  plain_entry c -> Forall plain_entry all -> _has_consistent_typography c all = true.
Proof.
  intros (_ & Hb & _) Hall. unfold _has_consistent_typography. cbv zeta.
  set (similar := List.filter _ all).
  assert (Hsim : Forall plain_entry similar) by (apply plain_filter, Hall).
  destruct (length similar <? 2); [reflexivity|].
  rewrite (plain_no_bold similar Hsim).
  unfold get_bold. rewrite Hb. cbn [default andb negb].
  assert (H : Py.Qltb 0.7 (Py.Qlen (@nil Heading.t) / Py.Qlen similar) = false).
  { apply Qltb_false. unfold Py.Qlen. cbn [length Z.of_nat].
    unfold Qdiv. rewrite Qmult_0_l. unfold Qle; simpl; lia. }
  rewrite H. reflexivity.
Qed.

(** On outline entries without [size] and [bold] keys, the entries
    [build_hierarchy] writes among them, the context check and the
    typography check of the precision filters reject nothing: an entry is
    kept exactly when its stripped text meets the minimum quality and
    passes the semantic validation. *)
Theorem precision_filters_on_plain_entries (raw : list Heading.t) :
  Forall plain_entry raw ->
  _apply_precision_filters U raw
  = List.filter
      (fun candidate =>
         let text := strip U (Heading.text candidate) in
         _meets_minimum_quality U text && _validates_semantically U text)
      raw.
Proof.
  intros Hraw. unfold _apply_precision_filters.
  apply filter_ext_in. intros c Hc.
  assert (Hp : plain_entry c)
    by (rewrite List.Forall_forall in Hraw; apply Hraw, Hc).
  cbv zeta. rewrite (plain_validates_in_context c raw Hp Hraw).
  rewrite (plain_consistent_typography c raw Hp Hraw).
  rewrite !andb_true_r. reflexivity.
Qed.

End EnhancerTheorems.

(** ** The recall and F1 estimates *)

Section MetricsTheorems.
Import AccuracyEnhancer.

Lemma fl_min_one (x : Q) :
  (0 <= x)%Q -> (Py.fl (Qmin 1.0 (Py.fl x)) == Qmin 1.0 (Py.fl x))%Q.
Proof.
  intros Hx. destruct (Q.min_spec 1.0 (Py.fl x)) as [[_ E]|[_ E]].
  - eapply Qeq_trans; [|symmetry; exact E].
    eapply Qeq_trans; [apply fl_comp; [|exact E]|reflexivity].
    apply Q.min_glb; [unfold Qle; simpl; lia|apply fl_nonneg, Hx].
  - eapply Qeq_trans; [|symmetry; exact E].
    eapply Qeq_trans; [apply fl_comp; [|exact E]|apply fl_idem, Hx].
    apply Q.min_glb; [unfold Qle; simpl; lia|apply fl_nonneg, Hx].
Qed.

(** The harmonic mean of two doubles of the unit interval, in floats. *)
Lemma harmonic_mean_bounds (p r : Q) :
  (0 <= p)%Q -> (p <= 1)%Q -> (0 <= r)%Q -> (r <= 1)%Q ->
  (Py.fl p == p)%Q -> (Py.fl r == r)%Q ->
  (0 < Py.fadd p r)%Q ->
  let f1 := Py.fdiv (Py.fmul 2 (Py.fmul p r)) (Py.fadd p r) in
  (0 <= f1)%Q /\ (f1 <= 1)%Q.
Proof.
  intros Hp0 Hp1 Hr0 Hr1 Ep Er Hpos. cbv zeta.
  unfold Py.fdiv, Py.fmul, Py.fadd in *.
  set (m := Py.fl (p * r)).
  assert (H0 : (0 <= p * r)%Q) by (apply Qmult_le_0_compat; assumption).
  assert (H1 : (p * r <= p)%Q).
  { rewrite <- (Qmult_1_r p) at 2.
    destruct (Qle_lt_or_eq _ _ Hp0) as [Hlt|Heq].
    - apply Qmult_le_l; assumption.
    - rewrite <- Heq. lra. }
  assert (H2 : (p * r <= r)%Q).
  { rewrite <- (Qmult_1_l r) at 2.
    destruct (Qle_lt_or_eq _ _ Hr0) as [Hlt|Heq].
    - apply Qmult_le_r; assumption.
    - rewrite <- Heq. lra. }
  assert (Hm0 : (0 <= m)%Q) by (subst m; apply fl_nonneg, H0).
  assert (Hmp : (m <= p)%Q).
  { subst m. eapply Qle_trans; [apply fl_mono; [exact H0|exact H1]|].
    rewrite Ep. apply Qle_refl. }
  assert (Hmr : (m <= r)%Q).
  { subst m. eapply Qle_trans; [apply fl_mono; [exact H0|exact H2]|].
    rewrite Er. apply Qle_refl. }
  set (a := Py.fl (2 * m)). set (b := Py.fl (p + r)) in *.
  assert (Ha0 : (0 <= a)%Q) by (subst a; apply fl_nonneg; lra).
  assert (Hab : (a <= b)%Q) by (subst a b; apply fl_mono; lra).
  assert (Hq0 : (0 <= a / b)%Q).
  { apply Qle_shift_div_l; [exact Hpos|]. lra. }
  assert (Hq1 : (a / b <= 1)%Q).
  { apply Qle_shift_div_r; [exact Hpos|]. lra. }
  split; [apply fl_nonneg, Hq0|apply fl_le_1; assumption].
Qed.

Lemma inject_nat_nonneg (n : nat) : (0 <= inject_Z (Z.of_nat n))%Q.
Proof. change 0%Q with (inject_Z 0). rewrite <- Zle_Qle. lia. Qed.

Lemma recall_estimate_bounds (s t : nat) :
  (0 <= recall_estimate s t)%Q /\ (recall_estimate s t <= 1)%Q
  /\ (s = 0 -> (recall_estimate s t == 0)%Q)
  /\ (Py.fl (recall_estimate s t) == recall_estimate s t)%Q.
Proof.
  unfold recall_estimate. cbv zeta. set (scaled := Py.fmul _ _).
  pose proof (inject_nat_nonneg s) as Hs.
  assert (Hfs : (0 <= Py.float_of_int (Z.of_nat s))%Q)
    by (apply fl_nonneg, Hs).
  destruct (Py.Qltb 1 scaled) eqn:E.
  - apply Qltb_true in E.
    assert (Hq : (0 <= Py.float_of_int (Z.of_nat s) / scaled)%Q).
    { apply Qle_shift_div_l; [lra|]. lra. }
    unfold Py.fdiv.
    split; [apply Q.min_glb; [unfold Qle; simpl; lia|apply fl_nonneg, Hq]|].
    split; [apply Qmin_one_le|].
    split; [|apply fl_min_one, Hq].
    intros ->.
    assert (E0 : (Py.fl (Py.float_of_int (Z.of_nat 0) / scaled) == 0)%Q).
    { apply (Qeq_trans _ (Py.fl 0)); [|reflexivity].
      apply fl_comp; [exact Hq|].
      change (Py.float_of_int (Z.of_nat 0)) with 0%Q.
      unfold Qdiv. apply Qmult_0_l. }
    rewrite E0. reflexivity.
  - unfold Py.int_truediv.
    assert (Hq : (0 <= inject_Z (Z.of_nat s) / inject_Z 1)%Q).
    { apply Qle_shift_div_l; [reflexivity|]. lra. }
    split; [apply Q.min_glb; [unfold Qle; simpl; lia|apply fl_nonneg, Hq]|].
    split; [apply Qmin_one_le|].
    split; [|apply fl_min_one, Hq].
    intros ->. reflexivity.
Qed.

Lemma precision_estimate_double (s t : nat) :
  0 < s -> s <= t ->
  (Py.fl (precision_estimate s t) == precision_estimate s t)%Q.
Proof.
  intros Hs Hst. destruct (precision_sum_bounds s t Hs Hst) as [H _].
  unfold precision_estimate. unfold Py.fadd at 1.
  apply fl_min_one. exact H.
Qed.

Lemma precision_value_bounds (s t : nat) :
  s <= t ->
  let precision :=
    if 0 <? s then precision_estimate s (Nat.max 1 t) else 0.0%Q in
  (0 <= precision)%Q /\ (precision <= 1)%Q /\ (Py.fl precision == precision)%Q.
Proof.
  intros Hst. cbv zeta. destruct (0 <? s) eqn:E.
  - apply Nat.ltb_lt in E.
    assert (Hle : s <= Nat.max 1 t) by lia.
    destruct (precision_estimate_bounds s (Nat.max 1 t) E Hle) as [H1 H2].
    split; [|split; [exact H2|apply precision_estimate_double; assumption]].
    eapply Qle_trans; [|exact H1]. vm_compute. discriminate.
  - split; [|split]; [unfold Qle; simpl; lia..|reflexivity].
Qed.

Lemma f1_estimate_bounds (p r : Q) :
  (0 <= p)%Q -> (p <= 1)%Q -> (0 <= r)%Q -> (r <= 1)%Q ->
  (Py.fl p == p)%Q -> (Py.fl r == r)%Q ->
  (0 <= f1_estimate p r)%Q /\ (f1_estimate p r <= 1)%Q.
Proof.
  intros. unfold f1_estimate.
  destruct (Py.Qltb 0 (Py.fadd p r)) eqn:E.
  - apply Qltb_true in E. apply harmonic_mean_bounds; assumption.
  - split; unfold Qle; simpl; lia.
Qed.

Lemma f1_estimate_zero (r : Q) : (r == 0)%Q -> f1_estimate 0.0 r = 0.0%Q.
Proof.
  intros Hr. unfold f1_estimate.
  assert (Py.Qltb 0 (Py.fadd 0.0 r) = false) as ->; [|reflexivity].
  apply Qltb_false. unfold Py.fadd.
  assert (E0 : (Py.fl (0.0 + r) == 0)%Q).
  { apply (Qeq_trans _ (Py.fl 0)); [|reflexivity].
    apply fl_comp; rewrite Hr; [unfold Qle; simpl; lia|reflexivity]. }
  rewrite E0. apply Qle_refl.
Qed.

Lemma round3_of_zero (x : Q) : (x == 0)%Q -> (Py.round3 x == 0)%Q.
Proof.
  intros Hx. unfold Py.round3.
  assert (E0 : Py.round_half_even (x * 1000) = 0%Z).
  { rewrite (round_half_even_comp _ 0); [reflexivity|]. rewrite Hx. reflexivity. }
  rewrite E0. reflexivity.
Qed.

Lemma metrics_recall_f1 {A B} (selected : list A) (all_candidates : list B) :
  let m := _calculate_accuracy_metrics selected all_candidates in
  let precision :=
    if 0 <? length selected
    then precision_estimate (length selected) (Nat.max 1 (length all_candidates))
    else 0.0%Q in
  let recall := recall_estimate (length selected) (length all_candidates) in
  recall_score m = Py.round3 recall
  /\ f1_score m = Py.round3 (f1_estimate precision recall).
Proof.
  unfold _calculate_accuracy_metrics, precision_estimate, recall_estimate,
    f1_estimate.
  cbn [recall_score f1_score]. split; reflexivity.
Qed.

(** The recall and F1 estimates [_apply_quality_scoring] reports lie in
    [0, 1], and all three estimates are 0 when no candidate is
    selected. *)
Theorem recall_and_f1_scores_in_unit_interval
    (U : UnicodeDB) (candidates : list Heading.t) :
  let r := _apply_quality_scoring U candidates in
  ((0 <= recall_score r.2)%Q /\ (recall_score r.2 <= 1)%Q)
  /\ ((0 <= f1_score r.2)%Q /\ (f1_score r.2 <= 1)%Q)
  /\ (r.1 = [] ->
      (precision_score r.2 == 0)%Q /\ (recall_score r.2 == 0)%Q
      /\ (f1_score r.2 == 0)%Q).
Proof.
  cbn zeta. unfold _apply_quality_scoring. cbn [fst snd].
  set (scores := List.map _ candidates).
  pose proof (final_candidates_length candidates scores) as Hlen.
  set (final := final_candidates_of candidates scores) in *.
  destruct (metrics_recall_f1 final candidates) as [Er Ef].
  cbv zeta in Er, Ef. rewrite Er, Ef, metrics_precision. clear Er Ef.
  destruct (recall_estimate_bounds (length final) (length candidates))
    as (Hr0 & Hr1 & Hrz & Hrd).
  destruct (precision_value_bounds (length final) (length candidates) Hlen)
    as (Hp0 & Hp1 & Hpd). cbv zeta in Hp0, Hp1, Hpd.
  split; [apply round3_unit; assumption|].
  split; [apply round3_unit; apply f1_estimate_bounds; assumption|].
  intros E.
  assert (Hz : length final = 0) by (rewrite E; reflexivity).
  specialize (Hrz Hz). rewrite Hz in Hrz |- *. cbn [Nat.ltb Nat.leb].
  split; [apply round3_zero|]. split; [apply round3_of_zero, Hrz|].
  rewrite (f1_estimate_zero _ Hrz). apply round3_zero.
Qed.

End MetricsTheorems.

(** ** Texts, long headings and noise *)

Section TextTheorems.
Context (U : UnicodeDB).
Import HeadingExtractor AccuracyEnhancer.

Lemma split_loop_chars (cur s : str) (P : char -> Prop) :
  Forall P cur -> Forall P s ->
  Forall (fun w => Forall P w) (split_loop U cur s).
Proof.
  revert cur. induction s as [|c s IH]; intros cur Hcur Hs.
  - cbn. destruct cur; constructor; [|constructor].
    apply Forall_rev. exact Hcur.
  - inversion Hs as [|? ? Hc Hs']; subst. cbn [split_loop].
    destruct (isspace U c).
    + destruct cur as [|x cur]; [apply IH; [constructor|exact Hs']|].
      constructor; [apply Forall_rev; exact Hcur|].
      apply IH; [constructor|exact Hs'].
    + apply IH; [constructor; assumption|exact Hs'].
Qed.

Lemma join_chars (ws : list str) (P : char -> Prop) :
  P 32%N -> Forall (fun w => Forall P w) ws -> Forall P (join (lit " ") ws).
Proof.
  intros Hsp H. induction H as [|w ws Hw Hws IH]; [constructor|].
  destruct ws as [|w' ws]; [exact Hw|].
  change (join (lit " ") (w :: w' :: ws))
    with (w ++ lit " " ++ join (lit " ") (w' :: ws)).
  apply Forall_app. split; [exact Hw|].
  apply Forall_app. split; [|exact IH].
  constructor; [exact Hsp|constructor].
Qed.

(** The text of a group of lines is made of the words of its lines, in
    order, with one space between two words: whatever white space the
    lines hold, the text has none at its ends and none doubled, and
    splitting it gives the words back. *)
Theorem reconstructed_text_is_the_words_joined (text_group : list LineInfo.t) :
  let words :=
    concat (List.map (fun line => split U (LineInfo.text line)) text_group) in
  let text := _reconstruct_fragmented_text U text_group in
  text = join (lit " ") words
  /\ Forall (is_word U) words
  /\ split U text = words
  /\ strip U text = text.
Proof.
  cbn zeta.
  assert (Hw : Forall (is_word U)
                 (concat (List.map (fun line => split U (LineInfo.text line))
                            text_group))).
  { rewrite <- (List.map_map LineInfo.text (split U)). apply Forall_concat_words. }
  split; [apply reconstruct_text_words|]. split; [exact Hw|].
  split; [|apply reconstruct_text_strip].
  rewrite reconstruct_text_words. apply split_join, Hw.
Qed.

(** The normalised text of a heading is made of the words of its
    normal form with one space between two words, so it has no white
    space at its ends; normalising an ASCII text twice gives the same as
    normalising it once. *)
Theorem normalized_text_is_the_words_joined (text : str) :
  let normalized := _normalize_unicode_text U text in
  normalized = join (lit " ") (split U (nfc U text))
  /\ split U normalized = split U (nfc U text)
  /\ strip U normalized = normalized
  /\ (forallb is_ascii text = true ->
      _normalize_unicode_text U normalized = normalized).
Proof.
  cbn zeta. unfold _normalize_unicode_text.
  pose proof (split_words U (nfc U text)) as Hw.
  split; [reflexivity|]. split; [apply split_join, Hw|].
  split; [apply strip_join_words, Hw|].
  intros Ha.
  assert (En : nfc U text = text) by (unfold nfc; rewrite Ha; reflexivity).
  rewrite En.
  assert (Hj : forallb is_ascii (join (lit " ") (split U text)) = true).
  { apply forallb_forall. apply List.Forall_forall.
    apply join_chars; [reflexivity|].
    apply split_loop_chars; [constructor|].
    apply List.Forall_forall. apply forallb_forall. exact Ha. }
  assert (En' : nfc U (join (lit " ") (split U text)) = join (lit " ") (split U text))
    by (unfold nfc; rewrite Hj; reflexivity).
  rewrite En'. rewrite split_join by apply split_words. reflexivity.
Qed.

End TextTheorems.

Section LongHeadings.
Context (U : UnicodeDB).
Import LevelDeterminer.

(** A candidate of 50 or more characters that is not bold gets H1 only
    from a numbering pattern or a section word: its position gives no
    level, and its score is at most 5, one short of H1. *)
Theorem long_plain_heading_h1_only_by_pattern (candidate : Frag.t)
    (all_candidates : list Frag.t) :
  50 <= length (Frag.text candidate) ->
  Frag.bold candidate = false ->
  (score_of U candidate all_candidates <= 5)%Z
  /\ (_determine_heading_level U candidate all_candidates = H1 ->
      _get_structural_level U (Frag.text candidate) = Some H1
      \/ _get_content_based_level U (Frag.text candidate) = Some H1).
Proof.
  intros Hlen Hbold.
  assert (Hscore : (score_of U candidate all_candidates <= 5)%Z).
  { unfold score_of. cbv zeta. rewrite Hbold.
    assert ((length (Frag.text candidate) <? 20) = false) as ->
      by (apply Nat.ltb_ge; lia).
    assert ((length (Frag.text candidate) <? 40) = false) as ->
      by (apply Nat.ltb_ge; lia).
    repeat match goal with
           | |- context [if ?b then _ else _] => destruct b
           end; lia. }
  split; [exact Hscore|].
  unfold _determine_heading_level.
  destruct (_get_structural_level U (Frag.text candidate)) as [l|];
    [intros ->; left; reflexivity|].
  destruct (_get_content_based_level U (Frag.text candidate)) as [l|];
    [intros ->; right; reflexivity|].
  unfold _get_position_based_level.
  assert ((length (Frag.text candidate) <? 50) = false) as ->
    by (apply Nat.ltb_ge; lia).
  rewrite andb_false_r. unfold _get_score_based_level. cbv zeta.
  assert ((6 <=? score_of U candidate all_candidates)%Z = false) as ->
    by (apply Z.leb_gt; lia).
  destruct (4 <=? _)%Z; discriminate.
Qed.

End LongHeadings.

Section StripFacts.
Context (U : UnicodeDB).

Lemma lstrip_idem (s : str) : lstrip U (lstrip U s) = lstrip U s.
Proof.
  induction s as [|c s IH]; [reflexivity|].
  cbn [lstrip]. destruct (isspace U c) eqn:E; [exact IH|].
  cbn [lstrip]. rewrite E. reflexivity.
Qed.

Lemma lstrip_snoc_nonspace (a : str) (c : char) :
  isspace U c = false -> exists a', lstrip U (a ++ [c]) = a' ++ [c].
Proof.
  intros Hc. induction a as [|x a [a' IH]].
  - exists []. cbn. rewrite Hc. reflexivity.
  - cbn [app lstrip]. destruct (isspace U x); [eauto|].
    exists (x :: a). reflexivity.
Qed.

Lemma lstrip_head (s : str) :
  match lstrip U s with c :: _ => isspace U c = false | [] => True end.
Proof.
  induction s as [|c s IH]; [exact I|].
  cbn [lstrip]. destruct (isspace U c) eqn:E; [exact IH|exact E].
Qed.

Lemma strip_idem (s : str) : strip U (strip U s) = strip U s.
Proof.
  unfold strip. set (t := lstrip U s).
  assert (Hu : lstrip U (rstrip U t) = rstrip U t).
  { apply lstrip_nonspace. unfold rstrip.
    pose proof (lstrip_head s) as Ht. fold t in Ht.
    destruct t as [|c t']; [exact I|].
    cbn [rev]. destruct (lstrip_snoc_nonspace (rev t') c Ht) as [a' ->].
    rewrite rev_app_distr. cbn. exact Ht. }
  rewrite Hu. unfold rstrip at 1. unfold rstrip at 1.
  rewrite rev_involutive, lstrip_idem. reflexivity.
Qed.

End StripFacts.

Section NoiseTheorems.
Context (U : UnicodeDB).
Import HeadingFilter.

Lemma star_chr_all (p : char -> bool) (k : option char -> str -> bool)
    (prev : option char) (s : str) :
  forallb p s = true -> (forall prev', k prev' [] = true) ->
  star_chr p k prev s = true.
Proof.
  intros Hs Hk. revert prev. induction s as [|c s IH]; intros prev.
  - cbn. rewrite Hk. reflexivity.
  - cbn in Hs. apply andb_true_iff in Hs as [Hc Hs].
    cbn [star_chr]. rewrite Hc, (IH Hs). apply orb_true_r.
Qed.

Lemma match_digits (s : str) :
  s <> [] -> forallb (isdecimal U) s = true ->
  match_ (seq [Bol; Plus (Chr (isdecimal U)); Eol]) s = true.
Proof.
  intros Hne Hd. unfold match_. cbn [seq]. cbn [go].
  rewrite go_Plus_Chr. destruct s as [|c s]; [contradiction|].
  cbn in Hd. apply andb_true_iff in Hd as [Hc Hs]. rewrite Hc. cbn [andb].
  apply star_chr_all; [exact Hs|]. intros prev'. reflexivity.
Qed.

(** Under the default configuration a text made of digits, such as a
    page number, is noise, and [filter_candidates] keeps no candidate
    whose stripped text is made of digits. *)
Theorem digits_are_noise (profile : doc_profile) (candidates : list Frag.t) :
  let config := Config.get_default_config U in
  (forall text,
      strip U text <> [] -> forallb (isdecimal U) (strip U text) = true ->
      _is_noise_text U config text = true)
  /\ match filter_candidates U config candidates profile with
     | Ok filtered =>
         Forall (fun c => forallb (isdecimal U) (strip U (Frag.text c)) = false)
           filtered
     | Raise _ => True
     end.
Proof.
  cbn zeta.
  assert (Hnoise : forall text,
             strip U text <> [] -> forallb (isdecimal U) (strip U text) = true ->
             _is_noise_text U (Config.get_default_config U) text = true).
  { intros text Hne Hd. unfold _is_noise_text. cbv zeta.
    assert (E : existsb (fun pattern => match_ pattern (strip U text))
                  (Config.noise_patterns (Config.get_default_config U)) = true).
    { apply existsb_exists.
      exists (seq [Bol; Plus (Chr (isdecimal U)); Eol]).
      split; [cbn; tauto|]. apply match_digits; assumption. }
    rewrite E. reflexivity. }
  split; [exact Hnoise|].
  destruct (filter_candidates _ _ candidates profile) as [filtered|e] eqn:E;
    [|exact I].
  apply filter_candidates_inv in E as (_ & _ & Hall).
  eapply List.Forall_impl; [|exact Hall].
  intros c [seen Hk]. apply keeps_true_inv in Hk. cbn zeta in Hk.
  destruct Hk as (_ & Hn & _ & Hlen & _).
  destruct (forallb (isdecimal U) (strip U (Frag.text c))) eqn:Ed; [|reflexivity].
  unfold tested_text in *. exfalso.
  rewrite Hnoise in Hn; [discriminate| |]; rewrite strip_idem.
  - intros E0. rewrite E0 in Hlen. cbn in Hlen. lia.
  - exact Ed.
Qed.

End NoiseTheorems.

(** ** Heading levels *)

Section Substrings.

Lemma startswith_iff (s p : str) :
  startswith s p = true <-> exists b, s = p ++ b.
Proof.
  revert s. induction p as [|c p IH]; intros s.
  - cbn. split; [eauto|]. destruct s; reflexivity.
  - destruct s as [|x s]; cbn [startswith].
    + split; [discriminate|]. intros [b Hb]. discriminate.
    + rewrite andb_true_iff, N.eqb_eq, IH. split.
      * intros [-> [b ->]]. exists b. reflexivity.
      * intros [b [= -> ->]]. split; [reflexivity|eauto].
Qed.

Lemma contains_iff (s p : str) :
  contains s p = true <-> exists a b, s = a ++ p ++ b.
Proof.
  induction s as [|x s IH]; cbn [contains].
  - rewrite orb_false_r, startswith_iff. split.
    + intros [b Hb]. exists [], b. exact Hb.
    + intros (a & b & H). destruct a; [eauto|discriminate].
  - rewrite orb_true_iff, startswith_iff, IH. split.
    + intros [[b Hb]|(a & b & ->)].
      * exists [], b. exact Hb.
      * exists (x :: a), b. reflexivity.
    + intros (a & b & H). destruct a as [|y a].
      * left. exists b. exact H.
      * right. injection H as -> ->. eauto.
Qed.

Lemma contains_trans (s p q : str) :
  contains s p = true -> contains p q = true -> contains s q = true.
Proof.
  rewrite !contains_iff. intros (a & b & ->) (a' & b' & ->).
  exists (a ++ a'), (b' ++ b). rewrite <- !app_assoc. reflexivity.
Qed.

End Substrings.

Section LevelTheorems.
Context (U : UnicodeDB).
Import LevelDeterminer.

(** The content level by keywords.  It is H1 exactly when the text, in
    lower case, contains one of the ten main section words, and H2
    exactly when it contains none of them and contains "contents" or
    "revision history": of the keyword list for H2, "table of contents"
    adds nothing to "contents", and "references" never decides, because
    it is a main section word. *)
Theorem content_based_level_by_keywords (text : str) :
  let text_lower := lower U text in
  (_get_content_based_level U text = Some H1 <->
   any_in text_lower main_section_keywords = true)
  /\ (_get_content_based_level U text = Some H2 <->
      any_in text_lower main_section_keywords = false
      /\ (contains text_lower (lit "contents") = true
          \/ contains text_lower (lit "revision history") = true))
  /\ (_get_content_based_level U text = None <->
      any_in text_lower main_section_keywords = false
      /\ contains text_lower (lit "contents") = false
      /\ contains text_lower (lit "revision history") = false).
Proof.
  cbn zeta. unfold _get_content_based_level. cbv zeta.
  set (s := lower U text).
  destruct (any_in s main_section_keywords) eqn:Em.
  - repeat split; try discriminate; try tauto; intros [? _]; discriminate.
  - assert (Hr : contains s (lit "references") = false).
    { destruct (contains s (lit "references")) eqn:E; [|reflexivity].
      rewrite <- Em. symmetry. unfold any_in. apply existsb_exists.
      exists (lit "references"). split; [|exact E].
      unfold main_section_keywords. cbn. tauto. }
    assert (Ht : contains s (lit "table of contents") = true ->
                 contains s (lit "contents") = true).
    { intros H. eapply contains_trans; [exact H|]. vm_compute. reflexivity. }
    unfold any_in, toc_keywords. cbn [List.map existsb].
    rewrite Hr, !orb_false_r.
    destruct (contains s (lit "table of contents")) eqn:E1;
      [rewrite (Ht eq_refl)|];
      destruct (contains s (lit "contents")) eqn:E2;
      destruct (contains s (lit "revision history")) eqn:E3;
      cbn [orb]; repeat split; try discriminate; try tauto;
      try (intros [_ [?|?]]; discriminate);
      try (intros [_ [? ?]]; discriminate);
      try (specialize (Ht eq_refl); discriminate).
Qed.

End LevelTheorems.

Section StructuralLevelTheorems.
Context (U : UnicodeDB).
Import LevelDeterminer.

(** No character of the database is both a decimal digit and white
    space. *)
Hypothesis digit_not_space :
  forall c, uni_isdecimal U c = true -> uni_isspace U c = false.

(** The structural level by patterns, whatever the order of the tests:
    H1 for the pattern with one number and for the roman pattern when
    the lettered one does not match, H2 for the pattern with two numbers
    and for the lettered pattern, H3 for the pattern with three numbers,
    and no level when no pattern matches. *)
Theorem structural_level_by_patterns (text : str) :
  let m r := match_ r text = true in
  (_get_structural_level U text = Some H1 <->
   m (re_numbered U) \/ (m (re_roman U) /\ ~ m (re_lettered U)))
  /\ (_get_structural_level U text = Some H2 <->
      m (re_numbered2 U) \/ m (re_lettered U))
  /\ (_get_structural_level U text = Some H3 <-> m (re_numbered3 U))
  /\ (_get_structural_level U text = None <->
      ~ m (re_numbered U) /\ ~ m (re_numbered2 U) /\ ~ m (re_numbered3 U)
      /\ ~ m (re_lettered U) /\ ~ m (re_roman U)).
Proof.
  destruct (structural_patterns_exclusive U digit_not_space text)
    as (H12 & H13 & H23 & Hnum).
  cbv zeta in *. unfold _get_structural_level.
  destruct (match_ (re_numbered U) text) eqn:E1;
  destruct (match_ (re_numbered2 U) text) eqn:E2;
  destruct (match_ (re_numbered3 U) text) eqn:E3;
  destruct (match_ (re_lettered U) text) eqn:E4;
  destruct (match_ (re_roman U) text) eqn:E5;
  try (exfalso; tauto);
  try (exfalso; destruct Hnum as [? ?]; [tauto|congruence]);
  repeat split; try discriminate; try tauto; try congruence;
  intuition discriminate.
Qed.

(** On the first two pages a candidate shorter than 50 characters gets
    its level from the patterns, the keywords or its position, never from
    the score: the level does not depend on the other candidates, and it
    is H3 exactly when the text matches the pattern with three
    numbers. *)
Theorem early_short_heading_level (candidate : Frag.t)
    (all_candidates : list Frag.t) :
  (Frag.page candidate <= 2)%Z ->
  length (Frag.text candidate) < 50 ->
  (forall others,
      _determine_heading_level U candidate others
      = _determine_heading_level U candidate all_candidates)
  /\ (_determine_heading_level U candidate all_candidates = H3 <->
      match_ (re_numbered3 U) (Frag.text candidate) = true).
Proof.
  intros Hpage Hlen.
  assert (Hpos : _get_position_based_level candidate = Some H1).
  { unfold _get_position_based_level.
    apply Z.leb_le in Hpage. apply Nat.ltb_lt in Hlen.
    rewrite Hpage, Hlen. reflexivity. }
  unfold _determine_heading_level. rewrite Hpos.
  split; [reflexivity|].
  destruct (structural_patterns_exclusive U digit_not_space (Frag.text candidate))
    as (H12 & H13 & H23 & Hnum).
  cbv zeta in *. unfold _get_structural_level.
  destruct (match_ (re_numbered U) (Frag.text candidate)) eqn:E1;
  destruct (match_ (re_numbered2 U) (Frag.text candidate)) eqn:E2;
  destruct (match_ (re_numbered3 U) (Frag.text candidate)) eqn:E3;
  try (exfalso; tauto);
  try (split; [discriminate|discriminate]);
  try (split; reflexivity).
  destruct (match_ (re_lettered U) (Frag.text candidate));
    [split; discriminate|].
  destruct (match_ (re_roman U) (Frag.text candidate));
    [split; discriminate|].
  unfold _get_content_based_level. cbv zeta.
  destruct (any_in _ main_section_keywords); [split; discriminate|].
  destruct (any_in _ toc_keywords); split; discriminate.
Qed.

End StructuralLevelTheorems.

(** ** Merging configurations *)

Section MergeConfigs.
Import ExtractorConfig.

Lemma depth_lookup (items : dict) (k : str) (v : value) :
  items !! k = Some v -> depth v < depth (Dict items).
Proof.
  cbn [depth]. intros H. apply Nat.lt_succ_r. revert k v H.
  apply (map_fold_weak_ind
           (fun r (m : dict) => forall k v, m !! k = Some v -> depth v <= r)).
  - intros k v H. rewrite lookup_empty in H. discriminate.
  - intros i x m r _ IH k v H.
    destruct (decide (i = k)) as [->|Hne].
    + rewrite lookup_insert_eq in H. injection H as ->. lia.
    + rewrite lookup_insert_ne in H by exact Hne.
      specialize (IH k v H). lia.
Qed.

(** Induction on a configuration value, the values of a dictionary
    first. *)
Lemma value_nested_ind (P : value -> Prop) :
  (forall a, P (Atom a)) ->
  (forall items, (forall k v, items !! k = Some v -> P v) -> P (Dict items)) ->
  forall v, P v.
Proof.
  intros Hatom Hdict v.
  assert (H : forall n v, depth v <= n -> P v); [|apply (H (depth v)); lia].
  induction n as [|n IH]; intros [a|items] Hd.
  - apply Hatom.
  - cbn in Hd. lia.
  - apply Hatom.
  - apply Hdict. intros k x Hk. apply IH.
    apply depth_lookup in Hk. lia.
Qed.

(** A custom dictionary is always merged: no call raises, and the
    result is known key by key. *)
Lemma merge_configs_Dict (custom_config : value) (default_config : dict) :
  match custom_config with
  | Atom _ => True
  | Dict custom_items =>
      exists merged,
        merge_configs default_config (Dict custom_items) = Ok merged
        /\ forall key,
             merged !! key
             = merged_value (default_config !! key) (custom_items !! key)
  end.
Proof.
  revert default_config.
  induction custom_config as [a|items IH] using value_nested_ind;
    intros default_config; [exact I|].
  cbn [merge_configs]. destruct (bool_decide (items = ∅)) eqn:E.
  - apply bool_decide_eq_true in E. subst. exists default_config.
    split; [reflexivity|]. intros key. rewrite lookup_empty. reflexivity.
  - clear E. cbv zeta.
    refine (map_fold_weak_ind
              (fun (r : result dict) (m : dict) =>
                 m ⊆ items ->
                 exists merged,
                   r = Ok merged
                   /\ forall key,
                        merged !! key
                        = merged_value (default_config !! key) (m !! key))
              _ _ _ _ items _); [| |reflexivity].
    + intros _. exists default_config. split; [reflexivity|].
      intros key. rewrite lookup_empty. reflexivity.
    + intros i x m r Hi IHr Hsub.
      assert (Hm : m ⊆ items).
      { etrans; [apply insert_subseteq; exact Hi|exact Hsub]. }
      destruct (IHr Hm) as (d & -> & Hd). cbn [mbind result_bind].
      assert (Hx : items !! i = Some x).
      { eapply lookup_weaken; [apply lookup_insert_eq|exact Hsub]. }
      assert (Hdi : d !! i = default_config !! i)
        by (rewrite Hd, Hi; reflexivity).
      assert (Hother : forall v key, i <> key ->
                <[i := v]> d !! key
                = merged_value (default_config !! key) (<[i := x]> m !! key)).
      { intros v key Hne. rewrite !lookup_insert_ne by exact Hne. apply Hd. }
      destruct (d !! i) as [[a|under]|] eqn:Ei, x as [b|c].
      * eexists. split; [reflexivity|]. intros key.
        destruct (decide (i = key)) as [->|Hne]; [|apply Hother, Hne].
        rewrite !lookup_insert_eq. reflexivity.
      * eexists. split; [reflexivity|]. intros key.
        destruct (decide (i = key)) as [->|Hne]; [|apply Hother, Hne].
        rewrite !lookup_insert_eq, <- Hdi. reflexivity.
      * eexists. split; [reflexivity|]. intros key.
        destruct (decide (i = key)) as [->|Hne]; [|apply Hother, Hne].
        rewrite !lookup_insert_eq. reflexivity.
      * destruct (IH i (Dict c) Hx under) as (sub & Hsub' & _).
        assert (Es : merged_config under (Dict c) = sub)
          by (unfold merged_config; rewrite Hsub'; reflexivity).
        rewrite Hsub'. cbn [mbind result_bind].
        eexists. split; [reflexivity|]. intros key.
        destruct (decide (i = key)) as [->|Hne]; [|apply Hother, Hne].
        rewrite !lookup_insert_eq, <- Hdi. cbn [merged_value].
        rewrite Es. reflexivity.
      * eexists. split; [reflexivity|]. intros key.
        destruct (decide (i = key)) as [->|Hne]; [|apply Hother, Hne].
        rewrite !lookup_insert_eq. reflexivity.
      * eexists. split; [reflexivity|]. intros key.
        destruct (decide (i = key)) as [->|Hne]; [|apply Hother, Hne].
        rewrite !lookup_insert_eq, <- Hdi. reflexivity.
Qed.

Lemma merge_configs_Ok (default_config custom_items : dict) :
  merge_configs default_config (Dict custom_items)
  = Ok (merged_config default_config (Dict custom_items)).
Proof.
  destruct (merge_configs_Dict (Dict custom_items) default_config)
    as (merged & H & _).
  unfold merged_config. rewrite H. reflexivity.
Qed.

Lemma merged_config_lookup (default_config custom_items : dict) (key : str) :
  merged_config default_config (Dict custom_items) !! key
  = merged_value (default_config !! key) (custom_items !! key).
Proof.
  destruct (merge_configs_Dict (Dict custom_items) default_config)
    as (merged & H & Hl).
  unfold merged_config. rewrite H. apply Hl.
Qed.

Lemma merged_config_Atom (default_config : dict) (a : atom) :
  merged_config default_config (Atom a) = default_config.
Proof.
  unfold merged_config. cbn [merge_configs]. destruct (falsy a); reflexivity.
Qed.

Lemma merged_config_self (v : value) :
  merged_config (items_of v) v = items_of v.
Proof.
  induction v as [a|items IH] using value_nested_ind;
    [apply merged_config_Atom|].
  cbn [items_of]. apply map_eq. intros key.
  rewrite merged_config_lookup.
  destruct (items !! key) as [[a|c]|] eqn:E; cbn [merged_value]; try reflexivity.
  specialize (IH key (Dict c) E). cbn [items_of] in IH. rewrite IH. reflexivity.
Qed.

Lemma merged_config_twice (custom_config : value) (default_config : dict) :
  merged_config (merged_config default_config custom_config) custom_config
  = merged_config default_config custom_config.
Proof.
  revert default_config.
  induction custom_config as [a|items IH] using value_nested_ind;
    intros default_config; [rewrite !merged_config_Atom; reflexivity|].
  apply map_eq. intros key.
  rewrite !merged_config_lookup.
  destruct (items !! key) as [[a|c]|] eqn:E; cbn [merged_value]; try reflexivity.
  destruct (default_config !! key) as [[b|m]|]; cbn [merged_value].
  - pose proof (merged_config_self (Dict c)) as Hs. cbn [items_of] in Hs.
    rewrite Hs. reflexivity.
  - rewrite (IH key (Dict c) E). reflexivity.
  - pose proof (merged_config_self (Dict c)) as Hs. cbn [items_of] in Hs.
    rewrite Hs. reflexivity.
Qed.

End MergeConfigs.

Section MergeTheorems.
Import ExtractorConfig.

(** [merge_configs] with a custom dictionary never raises, and its
    result is known key by key.  A key the custom configuration does not
    have keeps the value of the default; a custom value that is not a
    dictionary replaces what the default has; a custom dictionary is
    merged into the default's dictionary if the default has one under the
    key, and replaces what the default has otherwise.  The merged
    configuration has the keys of both, and merging [None] or the empty
    dictionary returns the default. *)
Theorem merge_configs_key_by_key (default_config custom_items : dict) :
  (exists merged,
      merge_configs default_config (Dict custom_items) = Ok merged
      /\ (forall key,
             (custom_items !! key = None -> merged !! key = default_config !! key)
             /\ (forall a, custom_items !! key = Some (Atom a) ->
                           merged !! key = Some (Atom a))
             /\ (forall c m,
                    custom_items !! key = Some (Dict c) ->
                    default_config !! key = Some (Dict m) ->
                    exists under_key,
                      merge_configs m (Dict c) = Ok under_key
                      /\ merged !! key = Some (Dict under_key))
             /\ (forall c,
                    custom_items !! key = Some (Dict c) ->
                    (forall m, default_config !! key <> Some (Dict m)) ->
                    merged !! key = Some (Dict c)))
      /\ dom merged = dom default_config ∪ dom custom_items)
  /\ merge_configs default_config (Atom PyNone) = Ok default_config
  /\ merge_configs default_config (Dict ∅) = Ok default_config.
Proof.
  split; [|split; reflexivity].
  exists (merged_config default_config (Dict custom_items)).
  split; [apply merge_configs_Ok|]. split.
  - intros key. rewrite merged_config_lookup. repeat split.
    + intros ->. reflexivity.
    + intros a ->. reflexivity.
    + intros c m -> ->. eexists. split; [apply merge_configs_Ok|reflexivity].
    + intros c -> Hm. cbn [merged_value].
      destruct (default_config !! key) as [[a|m]|]; try reflexivity.
      exfalso. apply (Hm m). reflexivity.
  - apply set_eq. intros key.
    rewrite elem_of_union, !elem_of_dom, merged_config_lookup.
    unfold is_Some.
    destruct (custom_items !! key) as [[a|c]|], (default_config !! key) as [[b|m]|];
      cbn [merged_value]; split; eauto; intros [[x H]|[x H]]; eauto; discriminate.
Qed.

(** Merging the same custom configuration a second time changes
    nothing, and a configuration merged into itself is unchanged.
    [merge_configs] raises only for a custom configuration that is true
    and is not a dictionary, which has no [items]. *)
Theorem merge_configs_idempotent (default_config : dict) (custom_config : value) :
  match merge_configs default_config custom_config with
  | Ok merged => merge_configs merged custom_config = Ok merged
  | Raise e =>
      e = AttributeError
      /\ exists a, custom_config = Atom a /\ falsy a = false
  end
  /\ merge_configs default_config (Dict default_config) = Ok default_config.
Proof.
  split.
  - destruct custom_config as [a|items].
    + cbn [merge_configs]. destruct (falsy a) eqn:E.
      * reflexivity.
      * split; [reflexivity|]. exists a. split; [reflexivity|exact E].
    + rewrite merge_configs_Ok, merge_configs_Ok.
      rewrite merged_config_twice. reflexivity.
  - rewrite merge_configs_Ok. f_equal.
    apply (merged_config_self (Dict default_config)).
Qed.

End MergeTheorems.

(** ** The size optimizer *)

Section Optimizer.
Import ExtractorConfig SizeOptimizer.

Ltac key_ne := let H := fresh in intros H; vm_compute in H; discriminate H.

Lemma optimize_inv (base_config optimized : dict) :
  optimize_config_for_performance base_config = Ok optimized ->
  match base_config !! lit "extraction" with
  | None => optimized = base_config
  | Some (Atom _) => False
  | Some (Dict extraction) =>
      exists extraction',
        optimized = <[lit "extraction" := Dict extraction']> base_config
        /\ extraction' !! lit "max_workers" = Some (int 6)
        /\ section_updated (extraction !! lit "clustering")
             (extraction' !! lit "clustering") clustering_overrides
        /\ section_updated (extraction !! lit "text_limits")
             (extraction' !! lit "text_limits") text_limits_overrides
        /\ (forall key,
               key <> lit "clustering" -> key <> lit "max_workers" ->
               key <> lit "text_limits" ->
               extraction' !! key = extraction !! key)
  end.
Proof.
  unfold optimize_config_for_performance. cbv zeta.
  destruct (base_config !! lit "extraction") as [[a|extraction]|] eqn:Ee.
  - discriminate.
  - intros H. apply bind_Ok_inv in H as [optimized1 [H1 H2]].
    apply bind_Ok_inv in H1 as [extraction1 [Hc H1]]. injection H1 as <-.
    rewrite lookup_insert_eq in H2.
    rewrite lookup_insert_ne in H2 by key_ne.
    assert (Hcl : section_updated (extraction !! lit "clustering")
                    (extraction1 !! lit "clustering") clustering_overrides
                  /\ (forall key, key <> lit "clustering" ->
                                  extraction1 !! key = extraction !! key)).
    { unfold section_updated.
      destruct (extraction !! lit "clustering") as [[a|clustering]|] eqn:Ec.
      - discriminate.
      - injection Hc as <-. rewrite lookup_insert_eq. split; [reflexivity|].
        intros key Hk. apply lookup_insert_ne. congruence.
      - injection Hc as <-. split; [exact Ec|reflexivity]. }
    destruct Hcl as [Hcl Hframe].
    rewrite (Hframe (lit "text_limits")) in H2 by key_ne.
    destruct (extraction !! lit "text_limits") as [[a|text_limits]|] eqn:Et.
    + discriminate.
    + injection H2 as <-. eexists. split; [apply insert_insert_eq|].
      split; [rewrite lookup_insert_ne by key_ne; apply lookup_insert_eq|].
      split.
      { rewrite lookup_insert_ne by key_ne. rewrite lookup_insert_ne by key_ne.
        exact Hcl. }
      split; [unfold section_updated; rewrite lookup_insert_eq; reflexivity|].
      intros key H1 H2 H3.
      rewrite lookup_insert_ne by congruence.
      rewrite lookup_insert_ne by congruence. apply Hframe, H1.
    + injection H2 as <-. eexists. split; [reflexivity|].
      split; [apply lookup_insert_eq|].
      split; [rewrite lookup_insert_ne by key_ne; exact Hcl|].
      split.
      { unfold section_updated.
        rewrite lookup_insert_ne by key_ne.
        rewrite (Hframe (lit "text_limits")) by key_ne. exact Et. }
      intros key H1 H2 H3.
      rewrite lookup_insert_ne by congruence. apply Hframe, H1.
  - cbn [mbind result_bind]. rewrite Ee. intros [= <-]. reflexivity.
Qed.

End Optimizer.

Section OptimizerTheorems.
Import ExtractorConfig SizeOptimizer.

Ltac key_ne := let H := fresh in intros H; vm_compute in H; discriminate H.

Lemma update_twice (d : dict) (overrides : list (String.string * value)) :
  update (update d overrides) overrides = update d overrides.
Proof.
  unfold update. rewrite (assoc (∪)).
  rewrite (idemp (∪) (items_of (dict_of overrides))). reflexivity.
Qed.

Lemma update_lookup (d : dict) (overrides : list (String.string * value))
    (key : str) (v : value) :
  items_of (dict_of overrides) !! key = Some v ->
  update d overrides !! key = Some v.
Proof. intros H. unfold update. apply lookup_union_Some_l, H. Qed.

Lemma update_lookup_other (d : dict) (overrides : list (String.string * value))
    (key : str) :
  items_of (dict_of overrides) !! key = None ->
  update d overrides !! key = d !! key.
Proof. intros H. unfold update. apply lookup_union_r, H. Qed.

Lemma section_updated_twice (before after : option value)
    (overrides : list (String.string * value)) :
  section_updated before after overrides ->
  section_updated after after overrides.
Proof.
  unfold section_updated. destruct before as [[a|d]|]; [contradiction| |];
    intros ->; [|reflexivity].
  rewrite update_twice. reflexivity.
Qed.

(** [optimize_config_for_performance] changes the seven settings it
    names and nothing else.  A configuration without the key
    [extraction] is returned as it is.  Otherwise [extraction] is a
    dictionary, in which [max_workers] becomes 6, the sections
    [clustering] and [text_limits], where present, are dictionaries and
    are updated with the three settings each, and every other key keeps
    its value, as does every other key of the configuration.  Optimizing
    the result again returns it unchanged. *)
Theorem optimizer_changes_only_its_settings (base_config optimized : dict) :
  optimize_config_for_performance base_config = Ok optimized ->
  match base_config !! lit "extraction" with
  | None => optimized = base_config
  | Some (Atom _) => False
  | Some (Dict extraction) =>
      exists extraction',
        optimized = <[lit "extraction" := Dict extraction']> base_config
        /\ extraction' !! lit "max_workers" = Some (int 6)
        /\ section_updated (extraction !! lit "clustering")
             (extraction' !! lit "clustering") clustering_overrides
        /\ section_updated (extraction !! lit "text_limits")
             (extraction' !! lit "text_limits") text_limits_overrides
        /\ (forall key,
               key <> lit "clustering" -> key <> lit "max_workers" ->
               key <> lit "text_limits" ->
               extraction' !! key = extraction !! key)
  end
  /\ optimize_config_for_performance optimized = Ok optimized.
Proof.
  intros H. pose proof (optimize_inv _ _ H) as Hinv. split; [exact Hinv|].
  destruct (base_config !! lit "extraction") as [[a|extraction]|] eqn:Ee.
  - contradiction.
  - destruct Hinv as (e' & -> & Hmw & Hcl & Htl & _).
    apply section_updated_twice in Hcl, Htl.
    unfold optimize_config_for_performance. cbv zeta.
    rewrite lookup_insert_eq.
    assert (E1 : (match e' !! lit "clustering" with
                  | Some (Atom _) => Raise AttributeError
                  | Some (Dict clustering) =>
                      Ok (<[lit "clustering" :=
                              Dict (update clustering
                                      [("max_clusters", int 3); ("n_init", int 3);
                                       ("cluster_ratio", int 5)]%string)]> e')
                  | None => Ok e'
                  end) = Ok e').
    { unfold section_updated in Hcl.
      destruct (e' !! lit "clustering") as [[a|clustering]|] eqn:Ec;
        [contradiction| |reflexivity].
      injection Hcl as Hcl. fold clustering_overrides. rewrite <- Hcl.
      rewrite insert_id by exact Ec. reflexivity. }
    rewrite E1. cbn [mbind result_bind].
    rewrite (insert_id e') by exact Hmw. rewrite insert_insert_eq.
    rewrite lookup_insert_eq.
    unfold section_updated in Htl.
    destruct (e' !! lit "text_limits") as [[a|text_limits]|] eqn:Et;
      [contradiction| |reflexivity].
    injection Htl as Htl. fold text_limits_overrides. rewrite <- Htl.
    rewrite (insert_id e') by exact Et. rewrite insert_insert_eq. reflexivity.
  - subst optimized. exact H.
Qed.

Lemma default_extraction :
  exists extraction clustering text_limits,
    get_default_config !! lit "extraction" = Some (Dict extraction)
    /\ extraction !! lit "clustering" = Some (Dict clustering)
    /\ extraction !! lit "text_limits" = Some (Dict text_limits).
Proof. do 3 eexists. repeat split; vm_compute; reflexivity. Qed.

Lemma merged_value_is_Some (under_default custom : option value) :
  is_Some under_default -> is_Some (merged_value under_default custom).
Proof.
  intros [v ->]. destruct custom as [[a|c]|]; cbn [merged_value]; [eauto| |eauto].
  destruct v; eauto.
Qed.

(** A configuration made by [create_config] has the key [extraction],
    and when that is a dictionary it has the keys [clustering] and
    [text_limits]. *)
Lemma create_config_sections (custom_config : value) (config : dict) :
  create_config custom_config = Ok config ->
  exists v,
    config !! lit "extraction" = Some v
    /\ forall extraction,
         v = Dict extraction ->
         is_Some (extraction !! lit "clustering")
         /\ is_Some (extraction !! lit "text_limits").
Proof.
  destruct default_extraction as (e0 & cl0 & tl0 & He & Hc & Ht).
  unfold create_config. cbv zeta.
  destruct custom_config as [a|items].
  - cbn [merge_configs]. destruct (falsy a); [|discriminate].
    intros [= <-]. exists (Dict e0). split; [exact He|].
    intros e [= <-]. rewrite Hc, Ht. eauto.
  - rewrite merge_configs_Ok. intros [= <-].
    pose proof (merged_config_lookup get_default_config items (lit "extraction"))
      as E.
    rewrite He in E. rewrite E.
    destruct (items !! lit "extraction") as [[a|c]|]; cbn [merged_value].
    + eexists. split; [reflexivity|]. discriminate.
    + eexists. split; [reflexivity|]. intros e Hv.
      apply (f_equal items_of) in Hv. cbn [items_of] in Hv. subst e.
      rewrite !merged_config_lookup, Hc, Ht.
      split; apply merged_value_is_Some; eauto.
    + eexists. split; [reflexivity|]. intros e [= <-]. rewrite Hc, Ht. eauto.
Qed.

(** Whatever the custom configuration says, the configuration of an
    extractor that monitors performance (the default) has
    [max_workers] 6, [max_clusters] 3, [n_init] 3, [cluster_ratio] 5,
    [max_simple_heading] 80, [max_complex_heading] 120 and
    [max_form_heading] 60: the optimizer runs after the merge and
    overrides these seven settings. *)
Theorem optimizer_overrides_custom_settings (custom_config : value)
    (optimized : dict) :
  ModularPDFExtractor.init_config custom_config true = Ok optimized ->
  lookup_path optimized ["extraction"; "max_workers"]%string = Some (int 6)
  /\ lookup_path optimized ["extraction"; "clustering"; "max_clusters"]%string = Some (int 3)
  /\ lookup_path optimized ["extraction"; "clustering"; "n_init"]%string = Some (int 3)
  /\ lookup_path optimized ["extraction"; "clustering"; "cluster_ratio"]%string = Some (int 5)
  /\ lookup_path optimized ["extraction"; "text_limits"; "max_simple_heading"]%string
     = Some (int 80)
  /\ lookup_path optimized ["extraction"; "text_limits"; "max_complex_heading"]%string
     = Some (int 120)
  /\ lookup_path optimized ["extraction"; "text_limits"; "max_form_heading"]%string
     = Some (int 60).
Proof.
  unfold ModularPDFExtractor.init_config. intros H.
  apply bind_Ok_inv in H as (config & Hcfg & H).
  apply optimize_inv in H.
  destruct (create_config_sections custom_config config Hcfg) as (v & Hv & Hsec).
  rewrite Hv in H. destruct v as [a|extraction]; [contradiction|].
  destruct H as (e' & -> & Hmw & Hcl & Htl & _).
  destruct (Hsec extraction eq_refl) as [[c Hc] [t Ht]].
  unfold section_updated in Hcl, Htl. rewrite Hc in Hcl. rewrite Ht in Htl.
  destruct c as [a|clustering]; [contradiction|].
  destruct t as [a|text_limits]; [contradiction|].
  cbn [lookup_path]. rewrite !lookup_insert_eq, Hmw, Hcl, Htl.
  repeat split; apply update_lookup; vm_compute; reflexivity.
Qed.

End OptimizerTheorems.

(** ** Titles *)

Section TitleTheorems.
Context (U : UnicodeDB) (config : DocTypes.t).
Context (uni_isdigit : char -> bool) (get_text : page_t -> str).
Import TitleExtractor.

Lemma find_default_inv (f : str -> bool) (l : list str) :
  default [] (List.find f l) = []
  \/ (In (default [] (List.find f l)) l /\ f (default [] (List.find f l)) = true).
Proof.
  destruct (List.find f l) as [x|] eqn:E; [|left; reflexivity].
  right. apply find_some in E. exact E.
Qed.

Lemma _extract_form_title_length (lines : list str) :
  let title := _extract_form_title U config lines in
  title = [] \/ (20 < length title /\ length title < 120).
Proof.
  cbn zeta. unfold _extract_form_title.
  destruct (find_default_inv
              (fun line =>
                 (20 <? length line) && (length line <? 120)
                 && any_in (lower U line) (DocTypes.form_title_keywords config)
                 && negb (any_in (lower U line) (DocTypes.form_avoid_keywords config))
                 && negb (endswith line (lit ":"))
                 && negb (search (re_leading_number U) line))
              (firstn 20 lines)) as [H|[_ H]]; [left; exact H|right].
  repeat (apply andb_true_iff in H as [H ?]).
  split; [apply Nat.ltb_lt; assumption|apply Nat.ltb_lt; assumption].
Qed.

Lemma _extract_font_based_title_length (first_page : page_t) :
  let title := _extract_font_based_title U config first_page in
  title = [] \/ (15 < length title /\ length title < 200).
Proof.
  cbn zeta. unfold _extract_font_based_title.
  destruct (fold_left _ first_page ([], [])) as [font_sizes text_by_font].
  destruct font_sizes as [|s font_sizes]; [left; reflexivity|].
  cbv zeta.
  match goal with
  | |- context [List.find ?f ?l] =>
      destruct (find_default_inv f l) as [H|[_ H]]; [left; exact H|right]
  end.
  repeat (apply andb_true_iff in H as [H ?]).
  split; [apply Nat.ltb_lt; assumption|apply Nat.ltb_lt; assumption].
Qed.

Lemma _extract_fallback_title_length (lines : list str) :
  let title := _extract_fallback_title U config lines in
  title = [] \/ (10 < length title /\ length title < 150).
Proof.
  cbn zeta. unfold _extract_fallback_title.
  match goal with
  | |- context [List.find ?f ?l] =>
      destruct (find_default_inv f l) as [H|[_ H]]; [left; exact H|right]
  end.
  repeat (apply andb_true_iff in H as [H ?]).
  split; [apply Nat.ltb_lt; assumption|apply Nat.ltb_lt; assumption].
Qed.

Lemma extend_title_length (next_lines : list str) (full_title : str) :
  length full_title <= length (extend_title U uni_isdigit full_title next_lines)
  /\ length (extend_title U uni_isdigit full_title next_lines)
     <= length full_title + 100 * length next_lines.
Proof.
  revert full_title. induction next_lines as [|l next_lines IH]; intros full_title.
  - cbn. lia.
  - cbn [extend_title]. cbv zeta.
    destruct (10 <? length (strip U l)) eqn:E1; cbn [andb]; [|cbn [length]; lia].
    destruct (length (strip U l) <? 100) eqn:E2; cbn [andb]; [|cbn [length]; lia].
    destruct (_is_continuation_line U uni_isdigit (strip U l)); [|cbn [length]; lia].
    apply Nat.ltb_lt in E2.
    destruct (IH (full_title ++ lit " " ++ strip U l)) as [H1 H2].
    rewrite !length_app in H1, H2.
    change (length (lit " ")) with 1 in *. cbn [length]. lia.
Qed.

Lemma generic_title_loop_length (n : nat) (lines : list str) :
  let title := generic_title_loop U uni_isdigit n lines in
  title = [] \/ (30 < length title /\ length title < 400).
Proof.
  cbn zeta. revert lines. induction n as [|n IH]; intros lines; [left; reflexivity|].
  destruct lines as [|l rest]; [left; reflexivity|].
  cbn [generic_title_loop]. cbv zeta.
  destruct (15 <? length (strip U l)) eqn:E1; cbn [andb]; [|apply IH].
  destruct (length (strip U l) <? 200) eqn:E2; cbn [andb]; [|apply IH].
  destruct (_is_likely_title U (strip U l)); [|apply IH].
  destruct (30 <? _) eqn:E3; [|apply IH].
  right. apply Nat.ltb_lt in E2, E3. split; [exact E3|].
  destruct (extend_title_length (firstn 2 rest) (strip U l)) as [_ H].
  pose proof (firstn_le_length 2 rest) as Hl.
  assert (length (firstn 2 rest) <= 2) by (rewrite length_firstn; lia).
  lia.
Qed.

Lemma append_title_inv (title : str) :
  (append_title [] title = [] /\ title = [])
  \/ (append_title [] title = [title] /\ title <> []).
Proof. destruct title; [left|right]; split; try reflexivity; discriminate. Qed.

(** A title [extract_title] returns is empty or has more than 10 and
    fewer than 400 characters: more than 20 and fewer than 120 from the
    form strategy, more than 15 and fewer than 200 from the font
    strategy, more than 30 and fewer than 400 from the generic strategy,
    which joins at most three lines, and more than 10 and fewer than 150
    from the fallback.  It raises only for a document without pages. *)
Theorem extract_title_length (doc : doc_t) (doc_profile : Profile.t) :
  match extract_title U config uni_isdigit get_text doc doc_profile with
  | Ok title => title = [] \/ (10 < length title /\ length title < 400)
  | Raise e => doc = [] /\ e = IndexError
  end.
Proof.
  unfold extract_title. destruct doc as [|first_page rest]; [split; reflexivity|].
  cbv zeta.
  set (lines := List.filter _ _).
  pose proof (_extract_form_title_length lines) as Hform.
  pose proof (_extract_font_based_title_length first_page) as Hfont.
  pose proof (generic_title_loop_length 15 lines) as Hgen.
  pose proof (_extract_fallback_title_length lines) as Hfall.
  cbn zeta in *. fold (_extract_generic_title U uni_isdigit lines) in Hgen.
  set (form := _extract_form_title U config lines) in *.
  set (font := _extract_font_based_title U config first_page) in *.
  set (gen := _extract_generic_title U uni_isdigit lines) in *.
  set (fall := _extract_fallback_title U config lines) in *.
  set (event := existsb _ _).
  assert (Hleaf : forall t : str,
             t <> [] -> (t = [] \/ exists lo hi, lo < length t /\ length t < hi
                                                /\ 10 <= lo /\ hi <= 400) ->
             match (if event then Ok [] else Ok t) with
             | Ok title => title = [] \/ (10 < length title /\ length title < 400)
             | Raise e => first_page :: rest = [] /\ e = IndexError
             end).
  { intros t Hne [?|(lo & hi & ? & ? & ? & ?)]; [contradiction|].
    destruct event; [left; reflexivity|right; lia]. }
  assert (Hform' : form = [] \/ exists lo hi, lo < length form /\ length form < hi
                                              /\ 10 <= lo /\ hi <= 400)
    by (destruct Hform as [?|?]; [left; assumption|right; exists 20, 120; lia]).
  assert (Hfont' : font = [] \/ exists lo hi, lo < length font /\ length font < hi
                                              /\ 10 <= lo /\ hi <= 400)
    by (destruct Hfont as [?|?]; [left; assumption|right; exists 15, 200; lia]).
  assert (Hgen' : gen = [] \/ exists lo hi, lo < length gen /\ length gen < hi
                                            /\ 10 <= lo /\ hi <= 400)
    by (destruct Hgen as [?|?]; [left; assumption|right; exists 30, 400; lia]).
  assert (Hfall' : fall = [] \/ exists lo hi, lo < length fall /\ length fall < hi
                                              /\ 10 <= lo /\ hi <= 400)
    by (destruct Hfall as [?|?]; [left; assumption|right; exists 10, 150; lia]).
  clear Hform Hfont Hgen Hfall.
  destruct (Profile.is_form _);
    [destruct (append_title_inv form) as [[-> _]|[-> ?]]; cbv beta iota;
     [|apply Hleaf; assumption]|];
    (destruct (append_title_inv font) as [[-> _]|[-> ?]]; cbv beta iota;
     [|apply Hleaf; assumption]);
    (destruct (append_title_inv gen) as [[-> _]|[-> ?]]; cbv beta iota;
     [|apply Hleaf; assumption]);
    (destruct (append_title_inv fall) as [[-> _]|[-> ?]]; cbv beta iota;
     [left; reflexivity|apply Hleaf; assumption]).
Qed.

(** A document whose profile text contains "party", "jump" or "event",
    in any letter case, gets the empty title, whatever its first page
    holds. *)
Theorem extract_title_event_document (first_page : page_t) (rest : doc_t)
    (doc_profile : Profile.t) :
  existsb (contains (lower U (Profile.text_sample doc_profile)))
    (List.map lit ["party"; "jump"; "event"]%string) = true ->
  extract_title U config uni_isdigit get_text (first_page :: rest) doc_profile
  = Ok [].
Proof.
  intros H. unfold extract_title. cbv zeta. rewrite H.
  repeat match goal with
         | |- context [match ?x with [] => _ | _ :: _ => _ end] => destruct x
         end; reflexivity.
Qed.

End TitleTheorems.

(** ** The document profile *)

Section AnalyzerTheorems.
Context (U : UnicodeDB) (config : DocTypes.t) (span_font : Span.t -> str).
Import DocumentAnalyzer.

Lemma firstn_min_length {A} (n : nat) (l : list A) :
  firstn (Nat.min n (length l)) l = firstn n l.
Proof.
  destruct (Nat.le_ge_cases n (length l)) as [H|H].
  - rewrite Nat.min_l by exact H. reflexivity.
  - rewrite Nat.min_r by exact H. rewrite firstn_all, firstn_all2; [reflexivity|exact H].
Qed.

Lemma min_firstn_length {A} (n : nat) (l : list A) :
  Nat.min n (length (firstn n l)) = Nat.min n (length l).
Proof. rewrite length_firstn. lia. Qed.

(** The profile is made from the first three pages: but for
    [page_count], which is the number of pages, the profile of a
    document is the profile of its first three pages; and the text sample
    has at most 1000 characters. *)
Theorem analyze_document_reads_three_pages (doc : doc_t) :
  let profile := analyze_document U config span_font doc in
  let profile3 := analyze_document U config span_font (firstn 3 doc) in
  Profile.text_sample profile = Profile.text_sample profile3
  /\ Profile.font_stats profile = Profile.font_stats profile3
  /\ Profile.structure profile = Profile.structure profile3
  /\ Profile.page_count profile = length doc
  /\ length (Profile.text_sample profile) <= 1000.
Proof.
  cbn zeta. unfold analyze_document.
  rewrite (firstn_min_length 3 (firstn 3 doc)), !min_firstn_length.
  rewrite firstn_firstn, Nat.min_id, (firstn_min_length 3 doc).
  destruct (fold_left (page_step U span_font) (firstn 3 doc) ([], []))
    as [total_text font_stats].
  cbn [Profile.text_sample Profile.font_stats Profile.structure Profile.page_count].
  repeat split. rewrite length_firstn. lia.
Qed.

Lemma dict_add_total (font_stats : list (Profile.font_key * nat))
    (font_key : Profile.font_key) (n : nat) :
  total_count (dict_add font_stats font_key n) = total_count font_stats + n.
Proof.
  unfold total_count.
  induction font_stats as [|[k v] font_stats IH]; [cbn; lia|].
  cbn [dict_add]. destruct (bool_decide (k = font_key));
    unfold list_sum in *; cbn [List.map snd fold_right] in *; lia.
Qed.

Lemma dict_add_In (font_stats : list (Profile.font_key * nat))
    (font_key k : Profile.font_key) (n : nat) :
  In k (List.map fst (dict_add font_stats font_key n)) <->
  In k (List.map fst font_stats) \/ k = font_key.
Proof.
  induction font_stats as [|[k0 v] font_stats IH].
  - cbn. intuition congruence.
  - cbn [dict_add]. destruct (bool_decide (k0 = font_key)) eqn:E.
    + apply bool_decide_eq_true in E. subst k0. cbn. intuition congruence.
    + cbn [List.map fst In]. rewrite IH. tauto.
Qed.

Lemma dict_add_NoDup (font_stats : list (Profile.font_key * nat))
    (font_key : Profile.font_key) (n : nat) :
  List.NoDup (List.map fst font_stats) ->
  List.NoDup (List.map fst (dict_add font_stats font_key n)).
Proof.
  induction font_stats as [|[k v] font_stats IH]; intros H.
  - cbn. constructor; [intros []|constructor].
  - cbn [dict_add]. destruct (bool_decide (k = font_key)) eqn:E; [exact H|].
    apply bool_decide_eq_false in E.
    cbn [List.map fst] in *. inversion H as [|? ? Hk Hn]; subst.
    constructor; [|apply IH, Hn].
    rewrite dict_add_In. intros [Hin|Heq]; [contradiction|congruence].
Qed.

Lemma counts_grow_refl stats : counts_grow stats stats [].
Proof. split; [tauto|unfold list_sum; cbn [List.map fold_right]; lia]. Qed.

Lemma counts_grow_trans a b c t1 t2 :
  counts_grow a b t1 -> counts_grow b c t2 -> counts_grow a c (t1 ++ t2).
Proof.
  intros [N1 S1] [N2 S2]. split; [tauto|].
  rewrite List.map_app, list_sum_app, S2, S1. symmetry. apply Nat.add_assoc.
Qed.

Lemma span_step_counts (acc : str * list (Profile.font_key * nat)) (span : Span.t) :
  counts_grow acc.2 (span_step U span_font acc span).2
    (List.filter (fun text => negb (length text =? 0)) [strip U (Span.text span)]).
Proof.
  destruct acc as [line_text stats]. unfold span_step. cbn [List.filter snd].
  destruct (strip U (Span.text span)) as [|c text] eqn:E.
  - cbn. apply counts_grow_refl.
  - cbn [length Nat.eqb negb snd]. split.
    + apply dict_add_NoDup.
    + rewrite dict_add_total. unfold list_sum. cbn [List.map fold_right length]. lia.
Qed.

Lemma fold_counts {A} (step : str * list (Profile.font_key * nat) -> A ->
                              str * list (Profile.font_key * nat))
    (texts_of : A -> list str) (l : list A) acc :
  (forall acc x, counts_grow acc.2 (step acc x).2 (texts_of x)) ->
  counts_grow acc.2 (fold_left step l acc).2 (flat_map texts_of l).
Proof.
  intros Hstep. revert acc. induction l as [|x l IH]; intros acc.
  - apply counts_grow_refl.
  - cbn [fold_left flat_map]. eapply counts_grow_trans; [apply Hstep|apply IH].
Qed.

Lemma line_step_counts (acc : str * list (Profile.font_key * nat)) (line : line_t) :
  counts_grow acc.2 (line_step U span_font acc line).2
    (List.filter (fun text => negb (length text =? 0))
       (List.map (fun span => strip U (Span.text span)) line)).
Proof.
  destruct acc as [page_text stats]. unfold line_step.
  assert (E : flat_map
                (fun span =>
                   List.filter (fun text => negb (length text =? 0))
                     [strip U (Span.text span)]) line
              = List.filter (fun text => negb (length text =? 0))
                  (List.map (fun span => strip U (Span.text span)) line)).
  { clear. induction line as [|s line IH]; [reflexivity|].
    cbn [flat_map List.map]. rewrite IH. cbn [List.filter].
    destruct (negb _); reflexivity. }
  rewrite <- E.
  pose proof (fold_counts (span_step U span_font)
                (fun span =>
                   List.filter (fun text => negb (length text =? 0))
                     [strip U (Span.text span)])
                line ([], stats) (span_step_counts)) as H.
  destruct (fold_left (span_step U span_font) line ([], stats))
    as [line_text stats'].
  destruct (strip U line_text); exact H.
Qed.

Lemma page_step_counts (acc : str * list (Profile.font_key * nat)) (page : page_t) :
  counts_grow acc.2 (page_step U span_font acc page).2 (page_span_texts U page).
Proof.
  destruct acc as [total_text stats]. unfold page_step.
  pose proof (fold_counts (block_step U span_font)
                (fun block : block_t =>
                   match block with
                   | Some lines =>
                       flat_map
                         (fun line : line_t =>
                            List.filter (fun text => negb (length text =? 0))
                              (List.map (fun span => strip U (Span.text span)) line))
                         lines
                   | None => []
                   end)
                page ([], stats)) as H.
  fold (page_span_texts U page) in H.
  destruct (fold_left (block_step U span_font) page ([], stats))
    as [page_text stats'].
  cbn [snd] in *. apply H. clear.
  intros acc [lines|]; cbn [block_step]; [|apply counts_grow_refl].
  apply fold_counts. apply line_step_counts.
Qed.

(** [font_stats] counts every character of the non-blank spans of the
    first three pages once: its keys are distinct, its counts add up to
    the number of characters of the stripped span texts, and
    [font_variety] is the number of its keys. *)
Theorem analyze_document_font_stats (doc : doc_t) :
  let profile := analyze_document U config span_font doc in
  List.NoDup (List.map fst (Profile.font_stats profile))
  /\ total_count (Profile.font_stats profile)
     = list_sum (List.map (@length char)
                   (flat_map (page_span_texts U) (firstn 3 doc)))
  /\ Profile.font_variety (Profile.structure profile)
     = length (Profile.font_stats profile).
Proof.
  cbn zeta. unfold analyze_document. rewrite firstn_min_length.
  pose proof (fold_counts (page_step U span_font) (page_span_texts U)
                (firstn 3 doc) ([], []) page_step_counts) as [Hn Hs].
  destruct (fold_left (page_step U span_font) (firstn 3 doc) ([], []))
    as [total_text font_stats].
  cbn [Profile.font_stats Profile.structure Profile.font_variety snd] in *.
  split; [apply Hn; constructor|]. split; [exact Hs|reflexivity].
Qed.

End AnalyzerTheorems.

(** ** The performance monitor and batches *)

Lemma last_cons_default {A} (l : list A) (x : A) :
  List.last (x :: l) x = List.last l x.
Proof. destruct l; reflexivity. Qed.

Section MonitorTheorems.
Import PerformanceMonitor.

(** The two compliance reports agree: for the metrics of a run,
    [check_compliance] finds no violation exactly when both flags of
    [get_performance_summary] hold once the metrics are the latest; and
    then, under limits of at most 30 seconds and 512 MB, the processing
    time and the memory in use pass the tests [process_files] makes,
    because the memory in use at the end is at most the peak. *)
Theorem monitor_compliance_reports_agree (self : t) (start finish : reading)
    (file_count : Z) :
  let metrics := metrics_of start finish file_count in
  let self' := monitor_exit self start finish file_count in
  (exists s,
      get_performance_summary self' = Some s
      /\ (check_compliance self metrics = [] <->
          time_compliant s = true /\ memory_compliant s = true))
  /\ (memory_usage_mb metrics <= peak_memory_mb metrics)%Q
  /\ (check_compliance self metrics = [] ->
      (max_processing_time self <= 30)%Q -> (max_memory_mb self <= 512)%Q ->
      Py.Qleb (processing_time metrics) 30.0 = true
      /\ Py.Qleb (memory_usage_mb metrics) 512.0 = true).
Proof.
  cbn zeta.
  set (metrics := metrics_of start finish file_count).
  assert (Hc : check_compliance self metrics = [] <->
               Py.Qleb (processing_time metrics) (max_processing_time self) = true
               /\ Py.Qleb (peak_memory_mb metrics) (max_memory_mb self) = true).
  { unfold check_compliance, Py.Qltb, Py.Qleb. cbv zeta.
    destruct (Qle_bool (processing_time metrics) (max_processing_time self));
      destruct (Qle_bool (peak_memory_mb metrics) (max_memory_mb self));
      cbn; split; try discriminate; try tauto; intros [? ?]; discriminate. }
  assert (Hpeak : (memory_usage_mb metrics <= peak_memory_mb metrics)%Q).
  { subst metrics. unfold metrics_of. cbn [memory_usage_mb peak_memory_mb].
    apply Q.le_max_r. }
  split; [|split; [exact Hpeak|]].
  - unfold get_performance_summary, monitor_exit. cbn [metrics_history].
    destruct (metrics_history self ++ [metrics_of start finish file_count])
      as [|m history] eqn:E.
    + destruct (metrics_history self); discriminate.
    + eexists. split; [reflexivity|].
      cbn [time_compliant memory_compliant max_processing_time max_memory_mb].
      assert (El : List.last history m = metrics).
      { rewrite <- last_cons_default, <- E. apply last_last. }
      rewrite El. exact Hc.
  - intros Hno Ht Hm. apply Hc in Hno as [H1 H2].
    apply Qleb_true in H1, H2.
    split; apply Qleb_true.
    + eapply Qle_trans; [exact H1|]. eapply Qle_trans; [exact Ht|].
      unfold Qle; simpl; lia.
    + eapply Qle_trans; [exact Hpeak|]. eapply Qle_trans; [exact H2|].
      eapply Qle_trans; [exact Hm|]. unfold Qle; simpl; lia.
Qed.

End MonitorTheorems.

Section BatchTheorems.
Import ModularPDFExtractor.
Context {path : Type}.
Context (extract_structure : path -> result PdfExtractor.extraction).
Context (write_output : path -> saved -> result ()).
Context (print_error : path -> exn -> result ()).

Lemma pool_map_length {A B} (f : A -> result B) (l : list A) (ys : list B) :
  pool_map f l = Ok ys -> length ys = length l.
Proof.
  revert ys. induction l as [|x l IH]; intros ys H.
  - injection H as <-. reflexivity.
  - cbn [pool_map] in H. apply bind_Ok_inv in H as (y & _ & H).
    apply bind_Ok_inv in H as (ys' & Hys & H). injection H as <-.
    cbn [length]. rewrite (IH ys' Hys). reflexivity.
Qed.

Lemma pool_map_all {A B} (f : A -> result B) (g : A -> B) (l : list A) :
  (forall x, In x l -> f x = Ok (g x)) -> pool_map f l = Ok (List.map g l).
Proof.
  induction l as [|x l IH]; intros H; [reflexivity|].
  cbn [pool_map List.map]. rewrite (H x) by (left; reflexivity).
  cbn [mbind result_bind]. rewrite IH; [reflexivity|].
  intros y Hy. apply H. right. exact Hy.
Qed.

Lemma pool_map_Raise {A B} (f : A -> result B) (l : list A) (e : exn) :
  pool_map f l = Raise e -> exists x, In x l /\ f x = Raise e.
Proof.
  induction l as [|x l IH]; intros H; [discriminate|].
  cbn [pool_map] in H. destruct (f x) as [y|e'] eqn:Ex; cbn [mbind result_bind] in H.
  - destruct (pool_map f l) as [ys|e'] eqn:El; cbn [mbind result_bind] in H;
      [discriminate|].
    injection H as ->. destruct (IH eq_refl) as (x' & Hin & Hx').
    exists x'. split; [right; exact Hin|exact Hx'].
  - injection H as ->. exists x. split; [left; reflexivity|exact Ex].
Qed.

(** What [process_single_file] raises, its handler's [print] raised. *)
Lemma process_single_file_Raise (pdf_path : path) (e : exn) :
  process_single_file extract_structure write_output print_error pdf_path
  = Raise e ->
  exists e0, print_error pdf_path e0 = Raise e.
Proof.
  unfold process_single_file, try_except.
  destruct (mbind _ (extract_structure pdf_path)) as [b|e0]; [discriminate|].
  destruct (print_error pdf_path e0) as [[]|e1] eqn:P; cbn [mbind result_bind];
    [discriminate|].
  intros [= <-]. exists e0. exact P.
Qed.


End BatchTheorems.

Section BatchPipeline.
Import ModularPDFExtractor.
Context (U : UnicodeDB) (config : Config.t).
Context (fit_transform : list (list Q) -> result (list (list Q))).
Context (fit_predict : Z -> Z -> Z -> list (list Q) -> result (list Z)).
Context {path : Type}.
Context (fitz_open : path -> result doc_t).
Context (doc_close : doc_t -> result ()).
Context (analyze_document : doc_t -> result doc_profile).
Context (extract_title : doc_t -> doc_profile -> result str).
Context (print_error : path -> exn -> result ()).
Context (enable_accuracy_enhancement : bool).
Context (layoutlmv3_enhancer : option PdfExtractor.layoutlmv3).
Context (write_output : path -> saved -> result ()).
Context (start finish : PerformanceMonitor.reading) (start_time end_time : Q).

Lemma extract_structure_Ok (pdf_path : path) :
  (forall e, print_error pdf_path e = Ok ()) ->
  exists r,
    PdfExtractor.extract_structure U config fit_transform fit_predict fitz_open
      doc_close analyze_document extract_title print_error
      enable_accuracy_enhancement layoutlmv3_enhancer pdf_path = Ok r.
Proof.
  intros Hp. unfold PdfExtractor.extract_structure, try_except.
  destruct (PdfExtractor.extract_body _ _ _ _ _ _ _ _ _ _ pdf_path) as [r|e].
  - exists r. reflexivity.
  - rewrite Hp. eexists. reflexivity.
Qed.

Lemma extract_structure_unopened (pdf_path : path) (e : exn) :
  fitz_open pdf_path = Raise e -> print_error pdf_path e = Ok () ->
  PdfExtractor.extract_structure U config fit_transform fit_predict fitz_open
    doc_close analyze_document extract_title print_error
    enable_accuracy_enhancement layoutlmv3_enhancer pdf_path
  = Ok PdfExtractor.empty_extraction.
Proof.
  intros He Hp. unfold PdfExtractor.extract_structure, try_except,
    PdfExtractor.extract_body.
  rewrite He. cbn [mbind result_bind]. rewrite Hp. reflexivity.
Qed.


End BatchPipeline.

(** ** The outline of a document *)

Section EndToEnd.
Import PdfExtractor.
Context (U : UnicodeDB) (config : Config.t).
Context (fit_transform : list (list Q) -> result (list (list Q))).
Context (fit_predict : Z -> Z -> Z -> list (list Q) -> result (list Z)).
Context {path : Type}.
Context (fitz_open : path -> result doc_t).
Context (doc_close : doc_t -> result ()).
Context (analyze_document : doc_t -> result doc_profile).
Context (extract_title : doc_t -> doc_profile -> result str).
Context (print_error : path -> exn -> result ()).
Context (enable_accuracy_enhancement : bool).

Lemma _determine_heading_level_not_title (candidate : Frag.t)
    (all_candidates : list Frag.t) :
  LevelDeterminer._determine_heading_level U candidate all_candidates <> TITLE.
Proof.
  unfold LevelDeterminer._determine_heading_level,
    LevelDeterminer._get_structural_level,
    LevelDeterminer._get_content_based_level,
    LevelDeterminer._get_position_based_level,
    LevelDeterminer._get_score_based_level.
  cbv zeta.
  repeat match goal with
         | |- context [if ?b then _ else _] => destruct b
         end; discriminate.
Qed.

Lemma extract_headings_pages (doc : doc_t) (profile : doc_profile)
    (outline : list Heading.t) :
  HeadingExtractor.extract_headings U config fit_transform fit_predict doc profile
  = Ok outline ->
  Forall (fun h => (0 <= Heading.page h < Z.of_nat (length doc))%Z
                   /\ Heading.level h <> TITLE) outline.
Proof.
  unfold HeadingExtractor.extract_headings, HeadingExtractor._apply_filtering,
    HeadingExtractor._build_heading_hierarchy.
  intros H.
  apply bind_Ok_inv in H as [candidates [Hc H]].
  apply bind_Ok_inv in H as [filtered [Hf H]]. injection H as <-.
  apply _get_ml_heading_candidates_shape in Hc.
  pose proof (filter_candidates_inv U config profile _ _ Hf) as (Hsub & _ & _).
  destruct (build_hierarchy_sorted U filtered) as (sorted & Hperm & _ & ->).
  apply List.Forall_map, List.Forall_forall. intros f Hin.
  cbn [LevelDeterminer.entry_of Heading.page Heading.level].
  split; [|apply _determine_heading_level_not_title].
  apply Permutation_sym in Hperm. eapply Permutation_in in Hin; [|exact Hperm].
  rewrite List.Forall_forall in Hc.
  destruct (Hc f (sublist_In _ _ _ Hsub Hin)) as [n [Hn (Hp & _)]].
  rewrite Hp. apply Nat2Z.inj_lt in Hn.
  replace (Z.of_nat n + 1 - 1)%Z with (Z.of_nat n) by lia.
  split; [lia|exact Hn].
Qed.

(** Without the multimodal enhancer, every entry of the outline
    [extract_structure] returns for a document that could be opened has a
    page of that document, counted from 0, and one of the levels H1, H2
    and H3, with accuracy enhancement or without it. *)
Theorem extract_structure_outline_pages (pdf_path : path) (doc : doc_t)
    (r : extraction) :
  fitz_open pdf_path = Ok doc ->
  extract_structure U config fit_transform fit_predict fitz_open doc_close
    analyze_document extract_title print_error enable_accuracy_enhancement
    None pdf_path
  = Ok r ->
  Forall (fun h => (0 <= Heading.page h < Z.of_nat (length doc))%Z
                   /\ Heading.level h <> TITLE) (outline r).
Proof.
  intros Hopen. unfold extract_structure, try_except.
  destruct (extract_body _ _ _ _ _ _ _ _ _ _ pdf_path) as [r'|e] eqn:E.
  2:{ destruct (print_error pdf_path e) as [[]|e']; cbn [mbind result_bind];
        [|discriminate].
      intros [= <-]. constructor. }
  intros [= <-]. unfold extract_body in E. rewrite Hopen in E.
  cbn [mbind result_bind] in E.
  apply bind_Ok_inv in E as [prof [_ E]]. cbn [mbind result_bind] in E.
  apply bind_Ok_inv in E as [title [_ E]].
  apply bind_Ok_inv in E as [raw [Hraw E]]. cbn [mbind result_bind] in E.
  apply bind_Ok_inv in E as [u [_ E]]. injection E as <-. cbn [outline].
  apply extract_headings_pages in Hraw.
  unfold accuracy_stage. destruct enable_accuracy_enhancement; cbn [fst]; [|exact Hraw].
  apply List.Forall_forall. intros h Hh.
  rewrite enhance_heading_detection_scored in Hh.
  apply In_quality_scoring in Hh as [Hh _].
  apply scored_of_In in Hh as [c [Hc ->]].
  destruct (enhance_one_fields U c) as (-> & -> & _).
  rewrite List.Forall_forall in Hraw. apply Hraw, Hc.
Qed.

End EndToEnd.

(* ===================================================================== *)
(** * The theorems at sample inputs *)
(* ===================================================================== *)

(** The filter run on its own output for [sample_candidates]. *)
Lemma filter_candidates_idempotent_on_sample :
  HeadingFilter.filter_candidates ascii_db (Config.get_default_config ascii_db)
    sample_filtered generic_profile
  = Ok sample_filtered.
Proof.
  apply (filter_candidates_idempotent ascii_db (Config.get_default_config ascii_db)
           generic_profile sample_candidates sample_filtered).
  vm_compute. reflexivity.
Defined.


(** Six blocks in two clusters: the cluster of the numbered headings
    scores 20 and contributes its three blocks, the cluster of the body
    lines scores 4 and contributes none. *)
Lemma clustering_on_six_lines :
  exists ids,
    List.NoDup ids
    /\ (forall id, In id ids <-> In id [0; 1; 0; 1; 0; 1]%Z)
    /\ HeadingExtractor._get_ml_heading_candidates ascii_db
         (Config.get_default_config ascii_db) identity_scaler alternating_labels
         six_line_doc
       = Ok (contribution ascii_db (Config.get_default_config ascii_db)
               six_line_texts [0; 1; 0; 1; 0; 1]%Z ids).
Proof.
  destruct (clustering_falls_back_or_selects_whole_clusters ascii_db
              (Config.get_default_config ascii_db) identity_scaler
              alternating_labels six_line_doc six_line_texts)
    as [_ Hcluster]; [vm_compute; reflexivity|].
  destruct (Hcluster ltac:(vm_compute; lia)
              (List.map (HeadingExtractor.features_of ascii_db) six_line_texts)
              eq_refl ltac:(vm_compute; discriminate))
    as [_ Hselect].
  apply Hselect.
  - vm_compute. discriminate.
  - vm_compute. reflexivity.
  - reflexivity.
Defined.

(** A Japanese heading with the largest boost the multilingual pass
    gives. *)
Lemma quality_score_of_boosted_heading :
  (0 <= AccuracyEnhancer._calculate_quality_score ascii_db boosted_heading
          [boosted_heading])%Q
  /\ (AccuracyEnhancer._calculate_quality_score ascii_db boosted_heading
        [boosted_heading] <= 1)%Q.
Proof.
  apply (proj1 (quality_score_in_unit_interval ascii_db)
           boosted_heading [boosted_heading]).
  unfold boost_nonneg, boosted_heading. cbn [Heading.quality_boost].
  unfold Qle. simpl. lia.
Defined.

(** Two headings in document order leave the accuracy stage in the
    order of their scores: the numbered heading of the second page
    first. *)
Lemma overview_then_methods_outline (U : UnicodeDB) :
  List.map (fun h => (Heading.text h, Heading.page h))
    (PdfExtractor.accuracy_stage U true
       (HeadingExtractor._build_heading_hierarchy U [frag_overview; frag_methods])).1
  = [(lit "2. Methods", 1%Z); (lit "Project Overview", 0%Z)].
Proof. vm_compute. reflexivity. Qed.

(** C8, counterexample: the claim as stated asks that the pages of the
    final outline ascend for every candidate set; for
    [frag_overview; frag_methods] they are 1, 0. *)
Lemma final_outline_not_in_document_order :
  ~ (forall (U : UnicodeDB) (candidates : list Frag.t),
        Sorted Z.le
          (List.map Heading.page
             (PdfExtractor.accuracy_stage U true
                (HeadingExtractor._build_heading_hierarchy U candidates)).1)).
Proof.
  intros H. specialize (H ascii_db [frag_overview; frag_methods]).
  pose proof (overview_then_methods_outline ascii_db) as E.
  apply (f_equal (List.map snd)) in E. rewrite List.map_map in E. cbn [snd] in E.
  change (List.map (fun x => Heading.page x)) with (List.map Heading.page) in E.
  rewrite E in H. cbn in H.
  inversion H as [|? ? _ Hhd]. inversion Hhd as [|? ? Hle]. lia.
Qed.

(** The scores of [heading_overview] and [heading_introduction], scored
    together. *)
Lemma overview_and_introduction_scores :
  Forall2 Qeq
    (List.map
       (fun c =>
          AccuracyEnhancer._calculate_quality_score ascii_db c
            [heading_overview; heading_introduction])
       [heading_overview; heading_introduction])
    [0.525; 0.665]%Q.
Proof. repeat constructor. Qed.

(** C2, counterexample: the claim as stated takes the threshold from the
    median of the scores and keeps the candidates at or above it.  For
    [heading_overview] and [heading_introduction], which score 0.525 and
    0.665, that threshold is 0.476 and keeps both; the code takes 0.665
    for the median, its threshold is 0.532 and it keeps only the
    second. *)
Lemma selection_is_not_by_the_median :
  ~ (forall (U : UnicodeDB) (candidates : list Heading.t),
        let scores :=
          List.map
            (fun c => AccuracyEnhancer._calculate_quality_score U c candidates)
            candidates in
        (AccuracyEnhancer._calculate_dynamic_threshold_from_scores scores
         == median_threshold scores)%Q
        /\ Permutation (AccuracyEnhancer._apply_quality_scoring U candidates).1
             (List.map fst
                (List.filter
                   (fun pair => Py.Qleb (median_threshold scores) (snd pair))
                   (combine candidates scores)))).
Proof.
  intros H.
  destruct (H ascii_db [heading_overview; heading_introduction]) as [_ Hp].
  apply Permutation_length in Hp. revert Hp. vm_compute. discriminate.
Qed.

(** The candidate the code keeps of the two is "1. Introduction". *)
Example overview_dropped_scenario :
  List.map Heading.text
    (AccuracyEnhancer._apply_quality_scoring ascii_db
       [heading_overview; heading_introduction]).1
  = [lit "1. Introduction"].
Proof. vm_compute. reflexivity. Qed.

(** The score of a candidate with the quality boost -100. *)
Lemma debited_heading_score :
  (AccuracyEnhancer._calculate_quality_score ascii_db debited_heading
     [debited_heading] == -4.335)%Q.
Proof. vm_compute. reflexivity. Qed.

(** C6, counterexample: the claim as stated bounds the score for every
    candidate; for [debited_heading], whose quality boost is -100, the
    score is -4.335. *)
Lemma quality_score_below_zero :
  ~ (forall (U : UnicodeDB) (candidate : Heading.t)
            (all_candidates : list Heading.t),
        (0 <= AccuracyEnhancer._calculate_quality_score U candidate
                all_candidates)%Q
        /\ (AccuracyEnhancer._calculate_quality_score U candidate all_candidates
            <= 1)%Q).
Proof.
  intros H. destruct (H ascii_db debited_heading [debited_heading]) as [H0 _].
  rewrite debited_heading_score in H0. revert H0. vm_compute.
  intros H0. apply H0. reflexivity.
Qed.

(** A file that cannot be opened, under a name that cannot be printed:
    the exception of [print] leaves [extract_structure]. *)
Lemma unprintable_path_raises :
  PdfExtractor.extract_structure ascii_db (Config.get_default_config ascii_db)
    identity_scaler alternating_labels unreadable_file (fun _ => Ok ())
    (fun _ => Ok generic_profile) (fun _ _ => Ok []) strict_utf8_print true None
    surrogate_path
  = Raise (External (lit "UnicodeEncodeError")).
Proof. vm_compute. reflexivity. Qed.


(** ** The scenarios of the specification *)

(** A single page with "1. Introduction" above body text gives the
    outline of that one heading, at level H1 and page 0. *)
Example introduction_scenario :
  exists r,
    PdfExtractor.extract_structure ascii_db (Config.get_default_config ascii_db)
      identity_scaler alternating_labels
      (fun doc : doc_t => Ok doc) (fun _ => Ok ()) (fun _ => Ok generic_profile)
      (fun _ _ => Ok []) (fun _ _ => Ok ()) true None introduction_doc = Ok r
    /\ List.map (fun h => (Heading.level h, Heading.text h, Heading.page h))
         (PdfExtractor.outline r)
       = [(H1, lit "1. Introduction", 0%Z)].
Proof. eexists. split; vm_compute; reflexivity. Qed.

(** The heading filter drops the field label "Name:" of a form. *)
Example form_field_scenario :
  HeadingFilter.filter_candidates ascii_db (Config.get_default_config ascii_db)
    [frag_of "Application for Leave Request" 1 100; frag_of "Name:" 1 200]
    form_profile
  = Ok [frag_of "Application for Leave Request" 1 100].
Proof. vm_compute. reflexivity. Qed.

(** The text U+7B2C "1" U+7AE0 " " U+6982 U+8981 is detected as Japanese
    and receives the boost 0.5: it has a section keyword and matches a
    numbering pattern. *)
Example japanese_heading_scenario :
  let text := [0x7b2c; 49; 0x7ae0; 32; 0x6982; 0x8981]%N in
  AccuracyEnhancer._detect_text_language ascii_db text = japanese
  /\ Heading.quality_boost
       (AccuracyEnhancer.enhance_one ascii_db
          (Heading.mk H1 text 0 None None None None))
     = Some (0 + 0.2 + 0.3)%Q.
Proof. split; vm_compute; reflexivity. Qed.

(** With the default configuration, which has no key
    [max_technical_heading], the filter raises for a technical
    document. *)
Example technical_profile_raises :
  HeadingFilter.filter_candidates ascii_db (Config.get_default_config ascii_db)
    sample_candidates technical_profile
  = Raise (KeyError (lit "max_technical_heading")).
Proof. vm_compute. reflexivity. Qed.

(** ** The component properties at sample inputs *)

(** The three candidates the filter keeps of [sample_candidates]. *)
Lemma filter_candidates_kept_texts_on_sample :
  Forall
    (fun c =>
       let text := strip ascii_db (Frag.text c) in
       heading_text_shape ascii_db text
       /\ Config.min_text_length (Config.get_default_config ascii_db) <= length text
       /\ (exists m,
              profile_max_length (Config.get_default_config ascii_db) generic_profile
              = Some m /\ length text <= m)
       /\ (is_form generic_profile = true -> has_char text 58 = false))
    sample_filtered.
Proof.
  apply (filter_candidates_kept_texts ascii_db (Config.get_default_config ascii_db)
           generic_profile sample_candidates sample_filtered).
  vm_compute. reflexivity.
Defined.

(** The outline of the page of three numbered headings. *)
Lemma extract_headings_outline_shape_on_six_lines :
  Forall
    (fun h =>
       (0 <= Heading.page h < Z.of_nat (length six_line_doc))%Z
       /\ strip ascii_db (Heading.text h) = Heading.text h
       /\ heading_text_shape ascii_db (Heading.text h))
    six_line_outline
  /\ List.NoDup (List.map Heading.text six_line_outline).
Proof.
  apply (extract_headings_outline_shape ascii_db (Config.get_default_config ascii_db)
           identity_scaler alternating_labels six_line_doc generic_profile
           six_line_outline).
  vm_compute. reflexivity.
Defined.

(** The scores of the three entries of [plain_outline]. *)
Lemma quality_scores_of_plain_outline :
  let scored := scored_of ascii_db plain_outline in
  Forall
    (fun h =>
       (AccuracyEnhancer._calculate_quality_score ascii_db h scored ==
        0.35 * AccuracyEnhancer._score_structural_patterns ascii_db h + 0.18
        + 0.15 * AccuracyEnhancer._score_position h
        + 0.05 * default 0 (Heading.quality_boost h))%Q
       /\ (0.255 <= AccuracyEnhancer._calculate_quality_score ascii_db h scored)%Q
       /\ (AccuracyEnhancer._calculate_quality_score ascii_db h scored <= 0.69)%Q)
    scored
  /\ (scored <> [] ->
      let threshold :=
        AccuracyEnhancer._calculate_dynamic_threshold_from_scores
          (List.map
             (fun c => AccuracyEnhancer._calculate_quality_score ascii_db c scored)
             scored) in
      (0.3 <= threshold)%Q /\ (threshold <= 0.552)%Q)
  /\ (forall candidates : list Frag.t,
        Forall plain_entry (LevelDeterminer.build_hierarchy ascii_db candidates)).
Proof.
  apply (quality_scores_of_plain_entries ascii_db plain_outline).
  repeat constructor.
Defined.

(** "2. Methods" is among the final headings of [plain_outline]. *)
Lemma methods_survives_quality_selection :
  In heading_methods
    (AccuracyEnhancer.enhance_heading_detection ascii_db plain_outline).1.
Proof.
  apply (numbered_headings_survive_quality_selection ascii_db plain_outline
           heading_methods).
  - repeat constructor.
  - vm_compute. right. left. reflexivity.
  - vm_compute. reflexivity.
Defined.

(** "Quarterly Budget Planning", on the fifth page, reaches the scoring
    pass and is not among the final headings of [plain_outline]. *)
Lemma budget_heading_is_dropped :
  In heading_budget (scored_of ascii_db plain_outline)
  /\ ~ In heading_budget
         (AccuracyEnhancer.enhance_heading_detection ascii_db plain_outline).1.
Proof.
  assert (Hin : In heading_budget (scored_of ascii_db plain_outline)).
  { vm_compute. right. right. left. reflexivity. }
  split; [exact Hin|].
  apply (unpatterned_headings_after_page_two_are_dropped ascii_db plain_outline
           heading_budget).
  - repeat constructor.
  - exact Hin.
  - vm_compute. reflexivity.
  - vm_compute. reflexivity.
  - vm_compute. reflexivity.
Defined.

(** The precision filters on [plain_outline]. *)
Lemma precision_filters_on_plain_outline :
  AccuracyEnhancer._apply_precision_filters ascii_db plain_outline
  = List.filter
      (fun candidate =>
         let text := strip ascii_db (Heading.text candidate) in
         AccuracyEnhancer._meets_minimum_quality ascii_db text
         && AccuracyEnhancer._validates_semantically ascii_db text)
      plain_outline.
Proof.
  apply (precision_filters_on_plain_entries ascii_db plain_outline).
  repeat constructor.
Defined.

(** A line of body text among [sample_candidates]. *)
Lemma long_plain_line_level :
  (LevelDeterminer.score_of ascii_db frag_long_plain sample_candidates <= 5)%Z
  /\ (LevelDeterminer._determine_heading_level ascii_db frag_long_plain
        sample_candidates = H1 ->
      LevelDeterminer._get_structural_level ascii_db (Frag.text frag_long_plain)
      = Some H1
      \/ LevelDeterminer._get_content_based_level ascii_db
           (Frag.text frag_long_plain) = Some H1).
Proof.
  apply (long_plain_heading_h1_only_by_pattern ascii_db frag_long_plain
           sample_candidates).
  - vm_compute. lia.
  - reflexivity.
Defined.

(** "2.1 Scope" has the structural level H2. *)
Lemma structural_level_of_two_numbers :
  LevelDeterminer._get_structural_level ascii_db (lit "2.1 Scope") = Some H2.
Proof.
  apply (proj1 (proj2 (structural_level_by_patterns ascii_db
                         (fun c _ => eq_refl) (lit "2.1 Scope")))).
  left. vm_compute. reflexivity.
Defined.

(** "Project Overview", on the first page, among [sample_candidates]. *)
Lemma overview_level_without_score :
  (forall others,
      LevelDeterminer._determine_heading_level ascii_db frag_overview others
      = LevelDeterminer._determine_heading_level ascii_db frag_overview
          sample_candidates)
  /\ (LevelDeterminer._determine_heading_level ascii_db frag_overview
        sample_candidates = H3 <->
      match_ (LevelDeterminer.re_numbered3 ascii_db) (Frag.text frag_overview) = true).
Proof.
  apply (early_short_heading_level ascii_db (fun c _ => eq_refl) frag_overview
           sample_candidates).
  - vm_compute. discriminate.
  - vm_compute. lia.
Defined.

(** The optimizer on the configuration made of [custom_workers]. *)
Lemma optimizer_on_custom_workers :
  match custom_workers_config !! lit "extraction" with
  | None => custom_workers_optimized = custom_workers_config
  | Some (ExtractorConfig.Atom _) => False
  | Some (ExtractorConfig.Dict extraction) =>
      exists extraction',
        custom_workers_optimized
        = <[lit "extraction" := ExtractorConfig.Dict extraction']>
            custom_workers_config
        /\ extraction' !! lit "max_workers" = Some (ExtractorConfig.int 6)
        /\ section_updated (extraction !! lit "clustering")
             (extraction' !! lit "clustering") clustering_overrides
        /\ section_updated (extraction !! lit "text_limits")
             (extraction' !! lit "text_limits") text_limits_overrides
        /\ (forall key,
               key <> lit "clustering" -> key <> lit "max_workers" ->
               key <> lit "text_limits" ->
               extraction' !! key = extraction !! key)
  end
  /\ SizeOptimizer.optimize_config_for_performance custom_workers_optimized
     = Ok custom_workers_optimized.
Proof.
  apply (optimizer_changes_only_its_settings
           custom_workers_config custom_workers_optimized).
  assert (H : match ModularPDFExtractor.init_config custom_workers true with
              | Ok _ => true
              | Raise _ => false
              end = true) by (vm_compute; reflexivity).
  unfold custom_workers_optimized, custom_workers_config.
  unfold ModularPDFExtractor.init_config in *.
  destruct (ExtractorConfig.create_config custom_workers) as [config|];
    [|discriminate].
  cbn [mbind result_bind] in *.
  destruct (SizeOptimizer.optimize_config_for_performance config);
    [reflexivity|discriminate].
Defined.

(** Two workers and eight clusters were asked for; six and three are
    configured. *)
Lemma custom_workers_are_overridden :
  lookup_path custom_workers_optimized ["extraction"; "max_workers"]%string
  = Some (ExtractorConfig.int 6)
  /\ lookup_path custom_workers_optimized
       ["extraction"; "clustering"; "max_clusters"]%string
     = Some (ExtractorConfig.int 3)
  /\ lookup_path custom_workers_optimized ["extraction"; "clustering"; "n_init"]%string
     = Some (ExtractorConfig.int 3)
  /\ lookup_path custom_workers_optimized
       ["extraction"; "clustering"; "cluster_ratio"]%string
     = Some (ExtractorConfig.int 5)
  /\ lookup_path custom_workers_optimized
       ["extraction"; "text_limits"; "max_simple_heading"]%string
     = Some (ExtractorConfig.int 80)
  /\ lookup_path custom_workers_optimized
       ["extraction"; "text_limits"; "max_complex_heading"]%string
     = Some (ExtractorConfig.int 120)
  /\ lookup_path custom_workers_optimized
       ["extraction"; "text_limits"; "max_form_heading"]%string
     = Some (ExtractorConfig.int 60).
Proof.
  apply (optimizer_overrides_custom_settings custom_workers custom_workers_optimized).
  assert (H : match ModularPDFExtractor.init_config custom_workers true with
              | Ok _ => true
              | Raise _ => false
              end = true) by (vm_compute; reflexivity).
  unfold custom_workers_optimized.
  destruct (ModularPDFExtractor.init_config custom_workers true);
    [reflexivity|discriminate].
Defined.

(** An invitation to a party gets the empty title. *)
Lemma party_invitation_has_no_title :
  TitleExtractor.extract_title ascii_db DocTypes.get_default_config
    (fun _ => false) one_line_text introduction_doc party_profile
  = Ok [].
Proof.
  apply (extract_title_event_document ascii_db DocTypes.get_default_config
           (fun _ => false) one_line_text
           [Some [span_line "1. Introduction" 16 16 100;
                  span_line "This is the body text that follows the heading." 11 0 200]]
           [] party_profile).
  vm_compute. reflexivity.
Defined.

(** The outline of [six_line_doc]. *)
Lemma six_line_outline_pages :
  Forall (fun h => (0 <= Heading.page h < Z.of_nat (length six_line_doc))%Z
                   /\ Heading.level h <> TITLE)
    (PdfExtractor.outline six_line_structure).
Proof.
  apply (extract_structure_outline_pages ascii_db (Config.get_default_config ascii_db)
           identity_scaler alternating_labels
           (fun doc : doc_t => Ok doc) (fun _ => Ok ()) (fun _ => Ok generic_profile)
           (fun _ _ => Ok []) (fun _ _ => Ok ()) true six_line_doc six_line_doc
           six_line_structure).
  - reflexivity.
  - vm_compute. reflexivity.
Defined.
